(** * Resource metrics aggregator of ollama-k8s-rag

    Shallow embedding of [parse_quantity] and of the cluster CPU and memory
    aggregation loops, which [src/unified_server.py] (HTTP endpoints) and
    [src/k8s_mcp_server.py] (tool calls) contain with the same bodies, and of
    the pod metrics loop of the tool-call server.

    The numbers the aggregator manipulates are Python ints and IEEE-754
    binary64 floats.  Floats are the Standard Library's executable
    specification [spec_float] at precision 53; the builtins [float] and
    [round] and the arithmetic operators are modelled on it, with Python's
    exceptions as an error monad.  Quantity strings are ASCII strings, and
    [None] is the only other input [parse_quantity] is given.

    A second part embeds what else the servers compute themselves: the
    node metrics tool and the readiness of [get_cluster_info], the dispatch
    of [call_tool] against [list_tools], the polling loops of
    [startup_event] in [src/main.py] and [src/unified_server.py],
    [build_rag_prompt] and the payload [ingest] stores, and the keyword test
    and node selection of [examples/k8s_rag_example.py].  The builtin [int]
    is modelled for the pod counts. *)

From Stdlib Require Import ZArith String Ascii List Bool Lia SpecFloat.
From stdpp Require Import gmap strings.

Open Scope Z_scope.

(** ** binary64 arithmetic *)

Module F64.

Definition prec : Z := 53.
Definition emax : Z := 1024.

Definition add := SFadd prec emax.
Definition mul := SFmul prec emax.
Definition div := SFdiv prec emax.
Definition ltb := SFltb.
Definition eqb := SFeqb.

(** Nearest binary64 (ties to even) of the integer [z]; an integer
    beyond the finite range gives an infinity. *)
Definition of_Z (z : Z) : spec_float := binary_normalize prec emax z 0 false.

(** Nearest binary64 (ties to even) of the rational [p / q], signed by [s]. *)
Definition of_ratio (s : bool) (p q : positive) : spec_float :=
  let '(mz, ez, lz) := SFdiv_core_binary prec emax (Zpos p) 0 (Zpos q) 0 in
  binary_round_aux prec emax s mz ez lz.

(** Nearest binary64 of [m * 10^e]. *)
Definition of_decimal (s : bool) (m : Z) (e : Z) : spec_float :=
  match m with
  | Zpos p =>
      match e with
      | Zneg k => of_ratio s p (Z.to_pos (10 ^ Zpos k))
      | _ => binary_round prec emax s (Z.to_pos (m * 10 ^ e)) 0
      end
  | _ => S754_zero s
  end.

Definition is_finite (f : spec_float) : bool :=
  match f with
  | S754_zero _ | S754_finite _ _ _ => true
  | _ => false
  end.

Definition is_zero (f : spec_float) : bool :=
  match f with
  | S754_zero _ => true
  | _ => false
  end.

Definition zero : spec_float := S754_zero false.

End F64.

(** ** Python values, exceptions and the numeric operators used by the code *)

Inductive pyval : Type :=
  | PyInt (z : Z)
  | PyFloat (f : spec_float).

Inductive exn : Type :=
  | ValueError
  | ZeroDivisionError
  | OverflowError.

Inductive result (A : Type) : Type :=
  | Ok (a : A)
  | Raise (e : exn).

Arguments Ok {A} a.
Arguments Raise {A} e.

Definition bind {A B : Type} (r : result A) (k : A -> result B) : result B :=
  match r with
  | Ok a => k a
  | Raise e => Raise e
  end.

Notation "'let*' x ':=' r 'in' k" := (bind r (fun x => k))
  (at level 10, x name, r at level 100, k at level 200).

Module Py.

(** Implicit int -> float conversion of mixed arithmetic; CPython raises
    OverflowError for an integer outside the binary64 range. *)
Definition as_float (v : pyval) : result spec_float :=
  match v with
  | PyFloat f => Ok f
  | PyInt z =>
      let f := F64.of_Z z in
      if F64.is_finite f then Ok f else Raise OverflowError
  end.

Definition add (a b : pyval) : result pyval :=
  match a, b with
  | PyInt x, PyInt y => Ok (PyInt (x + y))
  | _, _ =>
      let* x := as_float a in let* y := as_float b in Ok (PyFloat (F64.add x y))
  end.

Definition mul (a b : pyval) : result pyval :=
  match a, b with
  | PyInt x, PyInt y => Ok (PyInt (x * y))
  | _, _ =>
      let* x := as_float a in let* y := as_float b in Ok (PyFloat (F64.mul x y))
  end.

(** True division [a / b]: a zero divisor raises ZeroDivisionError for
    ints and floats alike; int / int is correctly rounded. *)
Definition truediv (a b : pyval) : result pyval :=
  match a, b with
  | PyInt x, PyInt y =>
      match x, y with
      | _, Z0 => Raise ZeroDivisionError
      | Z0, _ => Ok (PyFloat (S754_zero (y <? 0)))
      | Zpos p, Zpos q | Zneg p, Zneg q =>
          let f := F64.of_ratio false p q in
          if F64.is_finite f then Ok (PyFloat f) else Raise OverflowError
      | Zpos p, Zneg q | Zneg p, Zpos q =>
          let f := F64.of_ratio true p q in
          if F64.is_finite f then Ok (PyFloat f) else Raise OverflowError
      end
  | _, _ =>
      let* x := as_float a in let* y := as_float b in
      if F64.is_zero y then Raise ZeroDivisionError
      else Ok (PyFloat (F64.div x y))
  end.

(** Exact comparison of a float with an integer ([None] for nan). *)
Definition cmp_float_Z (f : spec_float) (z : Z) : option comparison :=
  match f with
  | S754_nan => None
  | S754_infinity s => Some (if s then Lt else Gt)
  | S754_zero _ => Some (0 ?= z)
  | S754_finite s m e =>
      let sm := if s then Zneg m else Zpos m in
      Some (if 0 <=? e then (sm * 2 ^ e ?= z) else (sm ?= z * 2 ^ (- e)))
  end.

Definition gt (a b : pyval) : bool :=
  match a, b with
  | PyInt x, PyInt y => y <? x
  | PyFloat x, PyFloat y => F64.ltb y x
  | PyFloat x, PyInt y =>
      match cmp_float_Z x y with Some Gt => true | _ => false end
  | PyInt x, PyFloat y =>
      match cmp_float_Z y x with Some Lt => true | _ => false end
  end.

(** [a == b] on numbers. *)
Definition eq (a b : pyval) : bool :=
  match a, b with
  | PyInt x, PyInt y => x =? y
  | PyFloat x, PyFloat y => F64.eqb x y
  | PyFloat x, PyInt y | PyInt y, PyFloat x =>
      match cmp_float_Z x y with Some Eq => true | _ => false end
  end.

(** Nearest integer, ties to even, of [p / 2^k]. *)
Definition rne_shift (p : positive) (k : positive) : Z :=
  let d := 2 ^ Zpos k in
  let q := Zpos p / d in
  let r := Zpos p mod d in
  match 2 * r ?= d with
  | Lt => q
  | Gt => q + 1
  | Eq => if Z.even q then q else q + 1
  end.

Definition NDIGITS_MAX : nat := 323.

(** [float.__round__(ndigits)] for [ndigits >= 0]: the exact binary value
    is rounded, ties to even, to [ndigits] decimals and the decimal is
    converted back to the nearest binary64.  nan and the infinities round
    to themselves.  CPython raises OverflowError only when the decimal
    leaves the binary64 range, which rounding to a non-negative number of
    decimals cannot cause, so the model is total. *)
Definition round_float (f : spec_float) (ndigits : nat) : spec_float :=
  match f with
  | S754_finite s m e =>
      if (NDIGITS_MAX <? ndigits)%nat then f
      else
        let scale := 10 ^ Z.of_nat ndigits in
        let num := Zpos m * scale in
        let q :=
          match e with
          | Zneg k => rne_shift (Z.to_pos num) k
          | _ => num * 2 ^ e
          end in
        match q with
        | Zpos p => F64.of_ratio s p (Z.to_pos scale)
        | _ => S754_zero s
        end
  | _ => f
  end.

(** [round(v, ndigits)] with [ndigits >= 0]; an int is returned as is. *)
Definition round (v : pyval) (ndigits : nat) : pyval :=
  match v with
  | PyInt z => PyInt z
  | PyFloat f => PyFloat (round_float f ndigits)
  end.

End Py.

(** ** Python strings: [str.endswith] and the slice [s[:-k]] *)

Module Str.

Definition chars (s : string) : list ascii := list_ascii_of_string s.
Definition of_chars (l : list ascii) : string := string_of_list_ascii l.

Fixpoint is_prefix (p l : list ascii) : bool :=
  match p, l with
  | [], _ => true
  | _ :: _, [] => false
  | a :: p', b :: l' => Ascii.eqb a b && is_prefix p' l'
  end.

(** [s.endswith(suffix)] *)
Definition endswith (s suffix : string) : bool :=
  is_prefix (rev (chars suffix)) (rev (chars s)).

(** [s[:-k]] for [k > 0]: everything but the last [k] characters. *)
Definition drop_end (s : string) (k : nat) : string :=
  of_chars (firstn (length (chars s) - k) (chars s)).

End Str.

(** ** The builtin [float(str)] on ASCII strings

    Leading and trailing whitespace is stripped, underscores are accepted
    between digits only, and the rest is an optionally signed decimal
    literal with optional fraction and exponent, or [inf], [infinity] or
    [nan] in any letter case.  The value is the nearest binary64; a literal
    beyond the range gives an infinity.  Anything else raises ValueError. *)

Module PyFloat.

Definition code (c : ascii) : nat := nat_of_ascii c.

Definition is_space (c : ascii) : bool :=
  ((9 <=? code c) && (code c <=? 13) || (code c =? 32))%nat.

Definition is_digit (c : ascii) : bool :=
  ((48 <=? code c) && (code c <=? 57))%nat.

Definition digit_val (c : ascii) : Z := Z.of_nat (code c) - 48.

Definition lower (c : ascii) : ascii :=
  if ((65 <=? code c) && (code c <=? 90))%nat
  then ascii_of_nat (code c + 32) else c.

Fixpoint lstrip (l : list ascii) : list ascii :=
  match l with
  | c :: l' => if is_space c then lstrip l' else l
  | [] => []
  end.

Definition strip (l : list ascii) : list ascii :=
  rev (lstrip (rev (lstrip l))).

(** Underscore filter: an underscore must follow a digit and precede a
    digit; [prev] is the previous character. *)
Fixpoint drop_underscores (prev : ascii) (l : list ascii) : option (list ascii) :=
  match l with
  | [] => if Ascii.eqb prev "_" then None else Some []
  | c :: l' =>
      if Ascii.eqb c "_" then
        if is_digit prev then drop_underscores c l' else None
      else if Ascii.eqb prev "_" && negb (is_digit c) then None
      else option_map (cons c) (drop_underscores c l')
  end.

Fixpoint span_digits (l : list ascii) : list ascii * list ascii :=
  match l with
  | c :: l' =>
      if is_digit c
      then let '(ds, r) := span_digits l' in (c :: ds, r)
      else ([], l)
  | [] => ([], [])
  end.

Definition Z_of_digits (ds : list ascii) : Z :=
  fold_left (fun acc c => 10 * acc + digit_val c) ds 0.

Definition split_sign (l : list ascii) : bool * list ascii :=
  match l with
  | c :: r =>
      if Ascii.eqb c "-" then (true, r)
      else if Ascii.eqb c "+" then (false, r)
      else (false, l)
  | [] => (false, [])
  end.

Definition is_e (c : ascii) : bool := Ascii.eqb c "e" || Ascii.eqb c "E".

(** Decimal literal; the whole list must be consumed. *)
Definition parse_decimal (l : list ascii) : option spec_float :=
  let '(s, l1) := split_sign l in
  let '(ip, l2) := span_digits l1 in
  let '(fp, l3) :=
    match l2 with
    | c :: r => if Ascii.eqb c "." then span_digits r else ([], l2)
    | [] => ([], l2)
    end in
  match ip ++ fp with
  | [] => None
  | ds =>
      let m := Z_of_digits ds in
      let fl := Z.of_nat (length fp) in
      match l3 with
      | [] => Some (F64.of_decimal s m (- fl))
      | c :: r =>
          if is_e c then
            let '(es, r1) := split_sign r in
            let '(ed, r2) := span_digits r1 in
            match ed, r2 with
            | _ :: _, [] =>
                let x := Z_of_digits ed in
                Some (F64.of_decimal s m ((if es then - x else x) - fl))
            | _, _ => None
            end
          else None
      end
  end.

Definition parse_inf_nan (l : list ascii) : option spec_float :=
  let '(s, r) := split_sign l in
  let w := Str.of_chars (map lower r) in
  if String.eqb w "inf" || String.eqb w "infinity" then Some (S754_infinity s)
  else if String.eqb w "nan" then Some S754_nan
  else None.

Definition of_chars (l : list ascii) : option spec_float :=
  match drop_underscores "000" (strip l) with
  | None => None
  | Some b =>
      match parse_decimal b with
      | Some f => Some f
      | None => parse_inf_nan b
      end
  end.

(** [float(s)] *)
Definition float (s : string) : result pyval :=
  match of_chars (Str.chars s) with
  | Some f => Ok (PyFloat f)
  | None => Raise ValueError
  end.

End PyFloat.

(** ** parse_quantity *)

(** The [units] dict, in insertion order (the order [units.items()]
    iterates in). *)
Definition units : list (string * Z) :=
  [ ("Ki", 1024); ("Mi", 1024 ^ 2); ("Gi", 1024 ^ 3); ("Ti", 1024 ^ 4);
    ("K", 1000); ("M", 1000 ^ 2); ("G", 1000 ^ 3); ("T", 1000 ^ 4) ]%string.

(** The [for suffix, multiplier in units.items()] loop followed by the final
    [return float(quantity_str)]. *)
Fixpoint parse_units (table : list (string * Z)) (quantity_str : string)
  : result pyval :=
  match table with
  | (suffix, multiplier) :: table' =>
      if Str.endswith quantity_str suffix then
        let* x := PyFloat.float (Str.drop_end quantity_str (String.length suffix)) in
        Py.mul x (PyInt multiplier)
      else parse_units table' quantity_str
  | [] => PyFloat.float quantity_str
  end.

(** [parse_quantity(quantity_str)]; [None] is Python's [None]. *)
Definition parse_quantity (quantity_str : option string) : result pyval :=
  match quantity_str with
  | None => Ok (PyInt 0)
  | Some s =>
      if String.eqb s "" then Ok (PyInt 0)
      else if Str.endswith s "m" then
        let* x := PyFloat.float (Str.drop_end s 1) in
        Py.truediv x (PyInt 1000)
      else if Str.endswith s "n" then
        let* x := PyFloat.float (Str.drop_end s 1) in
        Py.truediv x (PyInt 1000000000)
      else parse_units units s
  end.

(** ** Inputs of the aggregation loops *)

(** One element of [nodes_metrics['items']] (metrics.k8s.io):
    [item['metadata']['name']], [item['usage']['cpu']] and
    [item['usage']['memory']]. *)
Record NodeMetrics : Type := {
  metadata_name : string;
  usage_cpu : string;
  usage_memory : string;
}.

(** One element of [v1.list_node().items]: [node.metadata.name] and the
    [node.status.capacity] dict. *)
Record Node : Type := {
  node_name : string;
  status_capacity : gmap string string;
}.

(** [{node.metadata.name: node.status.capacity for node in nodes.items}]:
    a later node of the same name replaces an earlier one. *)
Definition node_capacities (nodes : list Node) : gmap string (gmap string string) :=
  fold_left (fun d node => <[node_name node := status_capacity node]> d) nodes ∅.

(** [node_capacities.get(node_name, {}).get(key, '0')] *)
Definition capacity_str (caps : gmap string (gmap string string))
    (node_name key : string) : string :=
  default "0"%string (default ∅ (caps !! node_name) !! key).

(** [(usage / capacity * 100) if capacity > 0 else 0] *)
Definition utilization (usage capacity : pyval) : result pyval :=
  if Py.gt capacity (PyInt 0) then
    let* r := Py.truediv usage capacity in
    Py.mul r (PyInt 100)
  else Ok (PyInt 0).

(** A [for] loop whose body may raise. *)
Fixpoint for_each {S X : Type} (body : S -> X -> result S) (l : list X) (st : S)
  : result S :=
  match l with
  | [] => Ok st
  | x :: l' => let* st' := body st x in for_each body l' st'
  end.

(** ** get_cluster_cpu *)

Module Cpu.

Record node_detail : Type := {
  node : string;
  usage_cores : pyval;
  capacity_cores : pyval;
  utilization_percent : pyval;
}.

Record cluster_cpu : Type := {
  total_usage_cores : pyval;
  total_capacity_cores : pyval;
  cluster_utilization_percent : pyval;
}.

Record report : Type := {
  cluster : cluster_cpu;
  nodes : list node_detail;
}.

(** The loop variables [total_usage], [total_capacity], [node_details]. *)
Record state : Type := {
  total_usage : pyval;
  total_capacity : pyval;
  node_details : list node_detail;
}.

Definition init : state :=
  {| total_usage := PyInt 0; total_capacity := PyInt 0; node_details := [] |}.

(** Body of [for item in nodes_metrics.get('items', [])]. *)
Definition step (caps : gmap string (gmap string string))
    (st : state) (item : NodeMetrics) : result state :=
  let node_name := metadata_name item in
  let* usage := parse_quantity (Some (usage_cpu item)) in
  let* capacity := parse_quantity (Some (capacity_str caps node_name "cpu")) in
  let* total_usage' := Py.add (total_usage st) usage in
  let* total_capacity' := Py.add (total_capacity st) capacity in
  let* u := utilization usage capacity in
  Ok {| total_usage := total_usage';
        total_capacity := total_capacity';
        node_details := node_details st ++
          [ {| node := node_name;
               usage_cores := Py.round usage 3;
               capacity_cores := Py.round capacity 3;
               utilization_percent := Py.round u 2 |} ] |}.

Definition finish (st : state) : result report :=
  let* u := utilization (total_usage st) (total_capacity st) in
  Ok {| cluster :=
          {| total_usage_cores := Py.round (total_usage st) 3;
             total_capacity_cores := Py.round (total_capacity st) 3;
             cluster_utilization_percent := Py.round u 2 |};
        nodes := node_details st |}.

(** The aggregation of [get_cluster_cpu] (and of the [get_cluster_cpu]
    tool), given the metrics items and the node list.  No handler of the
    source catches the exceptions modelled here inside the aggregation. *)
Definition get_cluster_cpu (items : list NodeMetrics) (nodes : list Node)
  : result report :=
  let* st := for_each (step (node_capacities nodes)) items init in
  finish st.

End Cpu.

(** ** get_cluster_memory *)

Module Memory.

Record node_detail : Type := {
  node : string;
  usage_gi : pyval;
  capacity_gi : pyval;
  utilization_percent : pyval;
}.

Record cluster_memory : Type := {
  total_usage_gi : pyval;
  total_capacity_gi : pyval;
  cluster_utilization_percent : pyval;
}.

Record report : Type := {
  cluster : cluster_memory;
  nodes : list node_detail;
}.

Record state : Type := {
  total_usage : pyval;
  total_capacity : pyval;
  node_details : list node_detail;
}.

Definition init : state :=
  {| total_usage := PyInt 0; total_capacity := PyInt 0; node_details := [] |}.

(** [x / (1024**3)] *)
Definition to_gi (x : pyval) : result pyval := Py.truediv x (PyInt (1024 ^ 3)).

Definition step (caps : gmap string (gmap string string))
    (st : state) (item : NodeMetrics) : result state :=
  let node_name := metadata_name item in
  let* usage_bytes := parse_quantity (Some (usage_memory item)) in
  let* capacity_bytes :=
    parse_quantity (Some (capacity_str caps node_name "memory")) in
  let* total_usage' := Py.add (total_usage st) usage_bytes in
  let* total_capacity' := Py.add (total_capacity st) capacity_bytes in
  let* ug := to_gi usage_bytes in
  let* cg := to_gi capacity_bytes in
  let* u := utilization usage_bytes capacity_bytes in
  Ok {| total_usage := total_usage';
        total_capacity := total_capacity';
        node_details := node_details st ++
          [ {| node := node_name;
               usage_gi := Py.round ug 2;
               capacity_gi := Py.round cg 2;
               utilization_percent := Py.round u 2 |} ] |}.

Definition finish (st : state) : result report :=
  let* ug := to_gi (total_usage st) in
  let* cg := to_gi (total_capacity st) in
  let* u := utilization (total_usage st) (total_capacity st) in
  Ok {| cluster :=
          {| total_usage_gi := Py.round ug 2;
             total_capacity_gi := Py.round cg 2;
             cluster_utilization_percent := Py.round u 2 |};
        nodes := node_details st |}.

Definition get_cluster_memory (items : list NodeMetrics) (nodes : list Node)
  : result report :=
  let* st := for_each (step (node_capacities nodes)) items init in
  finish st.

(** The key/value pairs of the [cluster_memory] and per-node dicts. *)
Definition cluster_items (c : cluster_memory) : list (string * pyval) :=
  [ ("total_usage_gi", total_usage_gi c);
    ("total_capacity_gi", total_capacity_gi c);
    ("utilization_percent", cluster_utilization_percent c) ]%string.

End Memory.

(** ** get_pod_metrics (tool-call server only) *)

(** One element of [item['containers']]: [container['name']],
    [container['usage']['cpu']] and [container['usage']['memory']]. *)
Record ContainerMetrics : Type := {
  container_name : string;
  container_cpu : string;
  container_memory : string;
}.

(** One pod of the pod metrics listing. *)
Record PodMetrics : Type := {
  pod_name : string;
  pod_namespace : string;
  pod_containers : list ContainerMetrics;
}.

Module Pods.

Record container_detail : Type := {
  name : string;
  cpu_cores : pyval;
  memory_mi : pyval;
}.

Record pod_detail : Type := {
  pod : string;
  namespace : string;
  total_cpu_cores : pyval;
  total_memory_mi : pyval;
  containers : list container_detail;
}.

(** The variables of the inner loop: [total_cpu], [total_mem],
    [containers_metrics]. *)
Record state : Type := {
  total_cpu : pyval;
  total_mem : pyval;
  containers_metrics : list container_detail;
}.

Definition init : state :=
  {| total_cpu := PyInt 0; total_mem := PyInt 0; containers_metrics := [] |}.

(** [x / (1024**2)] *)
Definition to_mi (x : pyval) : result pyval := Py.truediv x (PyInt (1024 ^ 2)).

(** Body of [for container in item.get('containers', [])]. *)
Definition container_step (st : state) (container : ContainerMetrics) : result state :=
  let* cpu := parse_quantity (Some (container_cpu container)) in
  let* mem := parse_quantity (Some (container_memory container)) in
  let* total_cpu' := Py.add (total_cpu st) cpu in
  let* total_mem' := Py.add (total_mem st) mem in
  let* mi := to_mi mem in
  Ok {| total_cpu := total_cpu';
        total_mem := total_mem';
        containers_metrics := containers_metrics st ++
          [ {| name := container_name container;
               cpu_cores := Py.round cpu 3;
               memory_mi := Py.round mi 2 |} ] |}.

(** Body of [for item in items]: one record per pod. *)
Definition pod_step (result_ : list pod_detail) (item : PodMetrics)
  : result (list pod_detail) :=
  let* st := for_each container_step (pod_containers item) init in
  let* mi := to_mi (total_mem st) in
  Ok (result_ ++
      [ {| pod := pod_name item;
           namespace := pod_namespace item;
           total_cpu_cores := Py.round (total_cpu st) 3;
           total_memory_mi := Py.round mi 2;
           containers := containers_metrics st |} ]).

(** The pod list of the [get_pod_metrics] tool ([count] is its length). *)
Definition get_pod_metrics (items : list PodMetrics) : result (list pod_detail) :=
  for_each pod_step items [].

End Pods.

(** ** The tool-call server's exception handler *)

(** What [call_tool] hands back: the JSON result, or the payload its
    [except Exception] handler builds, which carries [type(e).__name__]. *)
Inductive tool_reply (A : Type) : Type :=
  | Reply (a : A)
  | ErrorReply (type : string).

Arguments Reply {A} a.
Arguments ErrorReply {A} type.

Definition exn_name (e : exn) : string :=
  match e with
  | ValueError => "ValueError"
  | ZeroDivisionError => "ZeroDivisionError"
  | OverflowError => "OverflowError"
  end.

Definition call_tool {A : Type} (body : result A) : tool_reply A :=
  match body with
  | Ok a => Reply a
  | Raise e => ErrorReply (exn_name e)
  end.

(** ** Vocabulary for the statements *)

(** The ten suffixes the parser knows, in the order it tests them. *)
Definition known_suffixes : list string := ("m" :: "n" :: map fst units)%string.

(** The remainder the parser hands to [float]: the first known suffix that
    the string ends with is stripped; without one, the whole string. *)
Definition stripped_remainder (s : string) : string :=
  match find (Str.endswith s) known_suffixes with
  | Some suffix => Str.drop_end s (String.length suffix)
  | None => s
  end.

(** The numbers the aggregation manipulates: the int [0] or a float. *)
Definition simple (v : pyval) : Prop :=
  match v with
  | PyInt z => z = 0
  | PyFloat _ => True
  end.

(** [parse_quantity] over a list of quantity strings, left to right. *)
Fixpoint parse_all (qs : list string) : result (list pyval) :=
  match qs with
  | [] => Ok []
  | q :: qs' =>
      let* v := parse_quantity (Some q) in
      let* vs := parse_all qs' in
      Ok (v :: vs)
  end.

(** [start + v1 + v2 + ...], the accumulation [total += v] of the loops. *)
Definition sum_from (start : pyval) (vs : list pyval) : result pyval :=
  for_each Py.add vs start.

(** The quantity strings the CPU loop parses, item by item, and the
    per-node record it builds from the parsed values. *)
Definition cpu_usages (items : list NodeMetrics) : list string :=
  map usage_cpu items.

Definition cpu_capacities (nodes : list Node) (items : list NodeMetrics)
  : list string :=
  map (fun item => capacity_str (node_capacities nodes) (metadata_name item) "cpu")
      items.

Definition cpu_detail (name : string) (usage capacity u : pyval) : Cpu.node_detail :=
  {| Cpu.node := name;
     Cpu.usage_cores := Py.round usage 3;
     Cpu.capacity_cores := Py.round capacity 3;
     Cpu.utilization_percent := Py.round u 2 |}.

(** Same for the memory loop. *)
Definition memory_usages (items : list NodeMetrics) : list string :=
  map usage_memory items.

Definition memory_capacities (nodes : list Node) (items : list NodeMetrics)
  : list string :=
  map (fun item => capacity_str (node_capacities nodes) (metadata_name item) "memory")
      items.

Definition memory_detail (name : string) (ug cg u : pyval) : Memory.node_detail :=
  {| Memory.node := name;
     Memory.usage_gi := Py.round ug 2;
     Memory.capacity_gi := Py.round cg 2;
     Memory.utilization_percent := Py.round u 2 |}.

(** ** Vocabulary for the statements on float() and on letter case *)

(** Lists whose last element satisfies [P]. *)
Definition ends_in (P : ascii -> Prop) (l : list ascii) : Prop :=
  exists l' c, l = l' ++ [c] /\ P c.

Definition digit_or_dot (c : ascii) : Prop :=
  PyFloat.is_digit c = true \/ c = "."%char.

Definition inf_nan_last (c : ascii) : Prop :=
  PyFloat.lower c = "f"%char \/ PyFloat.lower c = "y"%char \/ PyFloat.lower c = "n"%char.

Definition upper (c : ascii) : ascii :=
  if ((97 <=? PyFloat.code c) && (PyFloat.code c <=? 122))%nat
  then ascii_of_nat (PyFloat.code c - 32) else c.

(** Every way of writing the letters of [l] in lower or upper case. *)
Fixpoint case_variants (l : list ascii) : list (list ascii) :=
  match l with
  | [] => [[]]
  | c :: l' =>
      flat_map (fun t => [PyFloat.lower c :: t; upper c :: t]) (case_variants l')
  end.

(** The suffixes that differ from a known suffix in letter case only and
    are not known suffixes themselves. *)
Definition miscased_suffixes : list string :=
  List.filter (fun v => negb (existsb (String.eqb v) known_suffixes))
    (flat_map (fun k => map Str.of_chars (case_variants (Str.chars k)))
              known_suffixes).

(** ** Concrete inputs used to exercise the statements *)

Definition metrics_item (name cpu memory : string) : NodeMetrics :=
  {| metadata_name := name; usage_cpu := cpu; usage_memory := memory |}.

Definition node_with (name cpu memory : string) : Node :=
  {| node_name := name;
     status_capacity := <["cpu"%string := cpu]> (<["memory"%string := memory]> ∅) |}.

(** One node using 12 of 10 (cores, bytes). *)
Definition over_items : list NodeMetrics := [metrics_item "n1" "12" "12"].
Definition over_nodes : list Node := [node_with "n1" "10" "10"].

(** One node whose reported capacity is zero. *)
Definition idle_items : list NodeMetrics := [metrics_item "n1" "250m" "1Gi"].
Definition idle_nodes : list Node := [node_with "n1" "0" "0"].

(** Two nodes with metrics, only the first of them in the node listing. *)
Definition two_items : list NodeMetrics :=
  [metrics_item "n1" "0.0004" "2147483648"; metrics_item "n2" "0.0004" "3000000000"].
Definition one_node : list Node := [node_with "n1" "4" "4Gi"].

(** A pod with one container using 250m and 2Gi. *)
Definition one_pod : list PodMetrics :=
  [ {| pod_name := "p1"; pod_namespace := "default";
       pod_containers :=
         [ {| container_name := "c1"; container_cpu := "250m";
              container_memory := "2Gi" |} ] |} ].

(** Listings that differ by one byte of usage. *)
Definition gib_items : list NodeMetrics := [metrics_item "n1" "1" "2147483648"].
Definition gib_items' : list NodeMetrics := [metrics_item "n1" "1" "2147483649"].


(** * The rest of the servers *)

(** ** The builtin [int(str)], base 10, on ASCII strings

    Whitespace is stripped, then an optional sign and decimal digits, with
    single underscores between digits.  [max_str_digits] is the
    interpreter's limit on the number of digits ([sys.get_int_max_str_digits],
    0 for no limit, otherwise at least 640); a longer literal raises
    ValueError like a malformed one. *)

Module PyInt.

Definition of_chars (max_str_digits : nat) (l : list ascii) : option Z :=
  match PyFloat.drop_underscores "000" (PyFloat.strip l) with
  | None => None
  | Some b =>
      let '(s, ds) := PyFloat.split_sign b in
      match ds with
      | [] => None
      | _ :: _ =>
          if forallb PyFloat.is_digit ds then
            if ((0 <? max_str_digits) && (max_str_digits <? length ds))%nat
            then None
            else Some (if s then - PyFloat.Z_of_digits ds else PyFloat.Z_of_digits ds)
          else None
      end
  end.

(** [int(s)] *)
Definition int (max_str_digits : nat) (s : string) : result Z :=
  match of_chars max_str_digits (Str.chars s) with
  | Some z => Ok z
  | None => Raise ValueError
  end.

End PyInt.

(** ** Node objects as the tools other than the aggregations read them *)

(** One element of [node.status.conditions]. *)
Record Condition : Type := {
  condition_type : string;
  condition_status : string;
}.

(** A node of [v1.list_node().items]: [node.metadata.name],
    [node.status.capacity], [node.status.allocatable] and
    [node.status.conditions] (which may be [None]). *)
Record V1Node : Type := {
  v1_name : string;
  v1_capacity : gmap string string;
  v1_allocatable : gmap string string;
  v1_conditions : option (list Condition);
}.

(** ** get_node_metrics (tool-call server) *)

Module NodeTool.

Record node_record : Type := {
  name : string;
  status : string;
  cpu_usage_cores : pyval;
  cpu_capacity_cores : pyval;
  cpu_utilization_percent : pyval;
  memory_usage_gi : pyval;
  memory_capacity_gi : pyval;
  memory_utilization_percent : pyval;
  pods_current : Z;
  pods_capacity : Z;
}.

(** [{node.metadata.name: node for node in nodes.items}] *)
Definition node_info (nodes : list V1Node) : gmap string V1Node :=
  fold_left (fun d node => <[v1_name node := node]> d) nodes ∅.

(** [node.status.conditions[-1].type if node.status.conditions else "Unknown"] *)
Definition status_of (node : V1Node) : string :=
  match v1_conditions node with
  | Some (c :: cs) => condition_type (List.last cs c)
  | _ => "Unknown"
  end.

(** [int(d.get('pods', 0))]: the default is the int 0, which [int] returns
    as it is. *)
Definition pods_of (max_str_digits : nat) (d : gmap string string) : result Z :=
  match d !! "pods"%string with
  | Some s => PyInt.int max_str_digits s
  | None => Ok 0
  end.

(** Body of [for item in nodes_data]; [result_] is the list [result]. *)
Definition step (max_str_digits : nat) (info : gmap string V1Node)
    (result_ : list node_record) (item : NodeMetrics) : result (list node_record) :=
  let node_name := metadata_name item in
  match info !! node_name with
  | Some node =>
      let* cpu_usage := parse_quantity (Some (usage_cpu item)) in
      let* cpu_capacity :=
        parse_quantity (Some (default "0"%string (v1_capacity node !! "cpu"%string))) in
      let* mem_usage := parse_quantity (Some (usage_memory item)) in
      let* mem_capacity :=
        parse_quantity (Some (default "0"%string (v1_capacity node !! "memory"%string))) in
      let* cu := utilization cpu_usage cpu_capacity in
      let* ug := Memory.to_gi mem_usage in
      let* cg := Memory.to_gi mem_capacity in
      let* mu := utilization mem_usage mem_capacity in
      let* current := pods_of max_str_digits (v1_allocatable node) in
      let* capacity := pods_of max_str_digits (v1_capacity node) in
      Ok (result_ ++
          [ {| name := node_name;
               status := status_of node;
               cpu_usage_cores := Py.round cpu_usage 3;
               cpu_capacity_cores := Py.round cpu_capacity 3;
               cpu_utilization_percent := Py.round cu 2;
               memory_usage_gi := Py.round ug 2;
               memory_capacity_gi := Py.round cg 2;
               memory_utilization_percent := Py.round mu 2;
               pods_current := current;
               pods_capacity := capacity |} ])
  | None => Ok result_
  end.

(** The list the [get_node_metrics] tool returns for the metrics items
    [nodes_data] (the one named node, or all of them). *)
Definition get_node_metrics (max_str_digits : nat) (nodes_data : list NodeMetrics)
    (nodes : list V1Node) : result (list node_record) :=
  for_each (step max_str_digits (node_info nodes)) nodes_data [].

End NodeTool.

(** ** get_cluster_info (tool-call server): the readiness of a node *)



(** ** list_tools and the dispatch of call_tool *)

(** The names of the tools [list_tools] declares, in its order. *)
Definition list_tools : list string :=
  [ "get_cluster_cpu"; "get_cluster_memory"; "get_node_metrics"; "get_pods";
    "get_pod_metrics"; "get_cluster_info"; "get_namespaces" ]%string.

(** The branches of [call_tool]. *)
Inductive branch : Type :=
  | NotInitialized
  | ClusterCpu
  | ClusterMemory
  | NodeMetricsBranch
  | PodsBranch
  | PodMetricsBranch
  | ClusterInfo
  | Namespaces
  | UnknownTool (name : string).

(** Which branch [call_tool(name, arguments)] takes; [v1] tells whether the
    Kubernetes client was initialised. *)
Definition dispatch (v1 : bool) (name : string) : branch :=
  if negb v1 then NotInitialized
  else if String.eqb name "get_cluster_cpu" then ClusterCpu
  else if String.eqb name "get_cluster_memory" then ClusterMemory
  else if String.eqb name "get_node_metrics" then NodeMetricsBranch
  else if String.eqb name "get_pods" then PodsBranch
  else if String.eqb name "get_pod_metrics" then PodMetricsBranch
  else if String.eqb name "get_cluster_info" then ClusterInfo
  else if String.eqb name "get_namespaces" then Namespaces
  else UnknownTool name.

(** ** startup_event: waiting for a service *)

(** What one [client.get] of the polling loop did: it raised, or it
    returned a response with this status code. *)
Inductive attempt : Type :=
  | Raised
  | Status (code : Z).

Inductive wait_outcome : Type :=
  | Ready (i : nat)
  | GaveUp
  | Exhausted.

(** How the loop ended, with the numbers of requests sent and of
    [asyncio.sleep(2)] calls made. *)
Record wait_log : Type := {
  outcome : wait_outcome;
  requests : nat;
  sleeps : nat;
}.

Module Startup.

Definition max_retries : nat := 30.

(** [for i in range(max_retries)] of [main.py], from iteration [i] with
    [fuel] iterations left: a response with status 200 breaks out; an
    exception sleeps and goes on, except at the last iteration, where
    [startup_event] returns; any other response goes on at once. *)
Fixpoint main_loop (responses : nat -> attempt) (i fuel sleeps_ : nat) : wait_log :=
  match fuel with
  | O => {| outcome := Exhausted; requests := i; sleeps := sleeps_ |}
  | S fuel' =>
      match responses i with
      | Status code =>
          if code =? 200
          then {| outcome := Ready i; requests := S i; sleeps := sleeps_ |}
          else main_loop responses (S i) fuel' sleeps_
      | Raised =>
          if (i <? max_retries - 1)%nat
          then main_loop responses (S i) fuel' (S sleeps_)
          else {| outcome := GaveUp; requests := S i; sleeps := sleeps_ |}
      end
  end.

Definition main_wait (responses : nat -> attempt) : wait_log :=
  main_loop responses 0 max_retries 0.

(** The loop of [unified_server.py]: the same without the [else: return]. *)
Fixpoint unified_loop (responses : nat -> attempt) (i fuel sleeps_ : nat) : wait_log :=
  match fuel with
  | O => {| outcome := Exhausted; requests := i; sleeps := sleeps_ |}
  | S fuel' =>
      match responses i with
      | Status code =>
          if code =? 200
          then {| outcome := Ready i; requests := S i; sleeps := sleeps_ |}
          else unified_loop responses (S i) fuel' sleeps_
      | Raised =>
          if (i <? max_retries - 1)%nat
          then unified_loop responses (S i) fuel' (S sleeps_)
          else unified_loop responses (S i) fuel' sleeps_
      end
  end.

Definition unified_wait (responses : nat -> attempt) : wait_log :=
  unified_loop responses 0 max_retries 0.

End Startup.

(** ** build_rag_prompt *)

(** ["\n".join(parts)] *)
Fixpoint join_lines (parts : list string) : string :=
  match parts with
  | [] => ""
  | [p] => p
  | p :: rest => p ++ String "010" (join_lines rest)
  end.

(** ["\n".join([m["payload"].get("text", "") for m in matches])], each match
    given by its [m["payload"]] dict, with string values. *)
Definition rag_context (matches : list (gmap string string)) : string :=
  join_lines (map (fun payload => default ""%string (payload !! "text"%string)) matches).

(** [build_rag_prompt(query, matches)] *)
Definition build_rag_prompt (query : string) (matches : list (gmap string string))
  : string :=
  ("Use the context below to answer the user query." ++ String "010" (String "010"
   ("Context:" ++ String "010" (rag_context matches ++ String "010" (String "010"
   ("User Query:" ++ String "010" (query ++ String "010" (String "010"
   "Answer:"))))))))%string.

(** ** ingest: the payload stored with a point *)

(** [{"text": doc.text, **doc.metadata}], for metadata with string values:
    the keys of the metadata are written after the text. *)
Definition point_payload (text : string) (metadata : gmap string string)
  : gmap string string :=
  metadata ∪ {[ "text"%string := text ]}.

(** ** The example client: is the prompt about the cluster? *)





(** [cpu_data['nodes'][:3]], the nodes the client lists as "top 3 nodes". *)
Definition shown_nodes (nodes : list Cpu.node_detail) : list Cpu.node_detail :=
  firstn 3 nodes.

(** ** Vocabulary for the statements on the rest of the servers *)

(** Both quantity strings of a container parse; every container of a pod
    does. *)
Definition container_parses (c : ContainerMetrics) : Prop :=
  (exists v, parse_quantity (Some (container_cpu c)) = Ok v) /\
  (exists v, parse_quantity (Some (container_memory c)) = Ok v).

Definition pod_parses (item : PodMetrics) : Prop :=
  Forall container_parses (pod_containers item).

(** The metrics item names a node of the node listing. *)
Definition listed (nodes : list V1Node) (item : NodeMetrics) : bool :=
  existsb (fun node => String.eqb (v1_name node) (metadata_name item)) nodes.

(** The strings [get_node_metrics] reads for an item and its node all
    convert: four quantities and the two pod counts. *)
Definition node_item_parses (max_str_digits : nat) (node : V1Node)
    (item : NodeMetrics) : Prop :=
  (exists v, parse_quantity (Some (usage_cpu item)) = Ok v) /\
  (exists v, parse_quantity
               (Some (default "0"%string (v1_capacity node !! "cpu"%string))) = Ok v) /\
  (exists v, parse_quantity (Some (usage_memory item)) = Ok v) /\
  (exists v, parse_quantity
               (Some (default "0"%string (v1_capacity node !! "memory"%string))) = Ok v) /\
  (exists z, NodeTool.pods_of max_str_digits (v1_allocatable node) = Ok z) /\
  (exists z, NodeTool.pods_of max_str_digits (v1_capacity node) = Ok z).

(** The same for the node the item names, if the listing has one. *)
Definition node_parses (max_str_digits : nat) (nodes : list V1Node)
    (item : NodeMetrics) : Prop :=
  forall node, NodeTool.node_info nodes !! metadata_name item = Some node ->
               node_item_parses max_str_digits node item.

(** [d] is the record [get_node_metrics] appends for [item] and its
    [node]. *)
Definition node_row (max_str_digits : nat) (node : V1Node) (item : NodeMetrics)
    (d : NodeTool.node_record) : Prop :=
  exists cpu_usage cpu_capacity mem_usage mem_capacity cu ug cg mu current capacity,
    parse_quantity (Some (usage_cpu item)) = Ok cpu_usage /\
    parse_quantity (Some (default "0"%string (v1_capacity node !! "cpu"%string)))
      = Ok cpu_capacity /\
    parse_quantity (Some (usage_memory item)) = Ok mem_usage /\
    parse_quantity (Some (default "0"%string (v1_capacity node !! "memory"%string)))
      = Ok mem_capacity /\
    utilization cpu_usage cpu_capacity = Ok cu /\
    Memory.to_gi mem_usage = Ok ug /\
    Memory.to_gi mem_capacity = Ok cg /\
    utilization mem_usage mem_capacity = Ok mu /\
    NodeTool.pods_of max_str_digits (v1_allocatable node) = Ok current /\
    NodeTool.pods_of max_str_digits (v1_capacity node) = Ok capacity /\
    d = {| NodeTool.name := metadata_name item;
           NodeTool.status := NodeTool.status_of node;
           NodeTool.cpu_usage_cores := Py.round cpu_usage 3;
           NodeTool.cpu_capacity_cores := Py.round cpu_capacity 3;
           NodeTool.cpu_utilization_percent := Py.round cu 2;
           NodeTool.memory_usage_gi := Py.round ug 2;
           NodeTool.memory_capacity_gi := Py.round cg 2;
           NodeTool.memory_utilization_percent := Py.round mu 2;
           NodeTool.pods_current := current;
           NodeTool.pods_capacity := capacity |}.

(** A node of the listing as the cluster aggregations read it: its name and
    [status.capacity]. *)
Definition as_node (node : V1Node) : Node :=
  {| node_name := v1_name node; status_capacity := v1_capacity node |}.

(** Vocabulary for the polling loops: the attempt got a response with
    status 200; the attempt raised; the first of the [max_retries] attempts
    that got a 200; the number of attempts that raised among the [n] from
    the [i]-th on. *)
Definition answered_200 (a : attempt) : bool :=
  match a with
  | Status code => code =? 200
  | Raised => false
  end.

Definition raised (a : attempt) : bool :=
  match a with
  | Raised => true
  | Status _ => false
  end.

Definition first_200_from (responses : nat -> attempt) (i n : nat) : option nat :=
  List.find (fun j => answered_200 (responses j)) (seq i n).

Definition first_200 (responses : nat -> attempt) : option nat :=
  first_200_from responses 0 Startup.max_retries.

Definition raised_from (responses : nat -> attempt) (i n : nat) : nat :=
  length (List.filter (fun j => raised (responses j)) (seq i n)).

Definition raised_before (responses : nat -> attempt) (n : nat) : nat :=
  raised_from responses 0 n.

(** The string has no line feed. *)
Definition single_line (s : string) : Prop :=
  Forall (fun c => c <> "010"%char) (Str.chars s).

(** The suffixes of Kubernetes quantities that are not among the ten the
    parser tests for. *)
Definition other_suffixes : list string := [ "k"; "u"; "P"; "E"; "Pi"; "Ei" ]%string.

(** ** Concrete inputs for the statements on the rest of the servers *)

(** Two pods, the second with two containers. *)
Definition two_pods : list PodMetrics :=
  [ {| pod_name := "p1"; pod_namespace := "default";
       pod_containers :=
         [ {| container_name := "c1"; container_cpu := "250m";
              container_memory := "2Gi" |} ] |};
    {| pod_name := "p2"; pod_namespace := "kube-system";
       pod_containers :=
         [ {| container_name := "c1"; container_cpu := "100m";
              container_memory := "64Mi" |};
           {| container_name := "c2"; container_cpu := "0.5";
              container_memory := "512Mi" |} ] |} ].

(** A ready node with 110 pods. *)
Definition v1_node_with (name cpu memory : string) : V1Node :=
  {| v1_name := name;
     v1_capacity :=
       <["cpu"%string := cpu]>
         (<["memory"%string := memory]> (<["pods"%string := "110"%string]> ∅));
     v1_allocatable := <["pods"%string := "110"%string]> ∅;
     v1_conditions :=
       Some [ {| condition_type := "MemoryPressure"; condition_status := "False" |};
              {| condition_type := "Ready"; condition_status := "True" |} ] |}.

(** Nodes n1 and n2; metrics for both, and metrics with unreadable usage
    for a node that is not listed. *)
Definition listed_nodes : list V1Node :=
  [v1_node_with "n1" "4" "8Gi"; v1_node_with "n2" "2" "4Gi"].

Definition listed_items : list NodeMetrics :=
  [metrics_item "n1" "250m" "1Gi"; metrics_item "n2" "1" "2Gi"].


(** The interpreter's default limit on the digits of an int literal. *)
Definition default_max_str_digits : nat := 4300.

(** A service that refuses three connections and then answers 200. *)
Definition late_service (i : nat) : attempt :=
  if (i <? 3)%nat then Raised else Status 200.

(** Two matches of one line each, and one match with the same two lines. *)
Definition two_matches : list (gmap string string) :=
  [ {[ "text"%string := "a"%string ]}; {[ "text"%string := "b"%string ]} ].

Definition one_match : list (gmap string string) :=
  [ {[ "text"%string := String "a" (String "010" "b") ]} ].

(** Four nodes of 4 cores, the last of them the busiest. *)
Definition four_items : list NodeMetrics :=
  [metrics_item "n1" "1" "1"; metrics_item "n2" "1" "1"; metrics_item "n3" "1" "1";
   metrics_item "n4" "3" "1"].

Definition four_nodes : list Node :=
  [node_with "n1" "4" "4"; node_with "n2" "4" "4"; node_with "n3" "4" "4";
   node_with "n4" "4" "4"].

(** * Properties *)

(** ** Strings *)

Section StrFacts.

Local Open Scope string_scope.

Lemma chars_app (s t : string) :
  Str.chars (s ++ t) = (Str.chars s ++ Str.chars t)%list.
Proof.
  unfold Str.chars. induction s as [|c s IH]; simpl; [reflexivity|].
  now rewrite IH.
Qed.

Lemma of_chars_chars (s : string) : Str.of_chars (Str.chars s) = s.
Proof. apply string_of_list_ascii_of_string. Qed.

Lemma chars_of_chars (l : list ascii) : Str.chars (Str.of_chars l) = l.
Proof. apply list_ascii_of_string_of_list_ascii. Qed.

Lemma chars_length (s : string) : length (Str.chars s) = String.length s.
Proof. unfold Str.chars. induction s; simpl; congruence. Qed.

Lemma is_prefix_spec (p l : list ascii) :
  Str.is_prefix p l = true <-> exists r, l = (p ++ r)%list.
Proof.
  revert l. induction p as [|a p IH]; intros l; simpl.
  - split; eauto.
  - destruct l as [|b l].
    + split; [discriminate|]. intros [r Hr]. discriminate.
    + rewrite andb_true_iff, Ascii.eqb_eq, IH. split.
      * intros [-> [r ->]]. eauto.
      * intros [r Hr]. injection Hr as -> ->. eauto.
Qed.

Lemma endswith_spec (s suffix : string) :
  Str.endswith s suffix = true <-> exists r, s = r ++ suffix.
Proof.
  unfold Str.endswith. rewrite is_prefix_spec. split.
  - intros [r Hr]. exists (Str.of_chars (rev r)).
    rewrite <- (of_chars_chars s), <- (of_chars_chars (_ ++ _)).
    f_equal. rewrite chars_app, chars_of_chars.
    rewrite <- (rev_involutive (Str.chars s)), Hr, rev_app_distr.
    now rewrite rev_involutive.
  - intros [r ->]. exists (rev (Str.chars r)).
    now rewrite chars_app, rev_app_distr.
Qed.

Lemma endswith_app (r suffix : string) : Str.endswith (r ++ suffix) suffix = true.
Proof. apply endswith_spec. eauto. Qed.

Lemma drop_end_app (r suffix : string) :
  Str.drop_end (r ++ suffix) (String.length suffix) = r.
Proof.
  unfold Str.drop_end. rewrite chars_app, length_app, <- (chars_length suffix).
  replace (length (Str.chars r) + length (Str.chars suffix)
           - length (Str.chars suffix))%nat
    with (length (Str.chars r)) by lia.
  rewrite take_app_length. apply of_chars_chars.
Qed.

Lemma chars_inj (s t : string) : Str.chars s = Str.chars t -> s = t.
Proof.
  intros H. rewrite <- (of_chars_chars s), <- (of_chars_chars t). now f_equal.
Qed.

Lemma append_assoc (a b c : string) : (a ++ b) ++ c = a ++ (b ++ c).
Proof. apply chars_inj. rewrite !chars_app. symmetry. apply app_assoc. Qed.

End StrFacts.

(** ** parse_quantity: precedence of the suffix tests *)

Section ParseQuantity.

Local Open Scope string_scope.

Ltac last_chars :=
  unfold Str.endswith; rewrite chars_app, rev_app_distr; reflexivity.

Lemma nonempty_app (r t : string) : t <> "" -> String.eqb (r ++ t) "" = false.
Proof.
  intros Ht. apply String.eqb_neq. intros E.
  apply (f_equal Str.chars) in E. rewrite chars_app in E.
  apply app_eq_nil in E as [_ E]. apply Ht. now apply chars_inj.
Qed.

Lemma drop_end_one (r : string) (c : ascii) :
  Str.drop_end (r ++ String c "") 1 = r.
Proof. apply (drop_end_app r (String c "")). Qed.

Lemma parse_quantity_milli (r : string) :
  parse_quantity (Some (r ++ "m")) =
  (let* x := PyFloat.float r in Py.truediv x (PyInt 1000)).
Proof.
  unfold parse_quantity. rewrite nonempty_app by discriminate.
  rewrite endswith_app.
  now rewrite drop_end_one.
Qed.

Lemma parse_quantity_nano (r : string) :
  parse_quantity (Some (r ++ "n")) =
  (let* x := PyFloat.float r in Py.truediv x (PyInt 1000000000)).
Proof.
  unfold parse_quantity. rewrite nonempty_app by discriminate.
  replace (Str.endswith (r ++ "n") "m") with false by (symmetry; last_chars).
  rewrite endswith_app.
  now rewrite drop_end_one.
Qed.

Lemma parse_units_hit (suffix : string) (k : Z) table (r : string) :
  parse_units ((suffix, k) :: table) (r ++ suffix) =
  (let* x := PyFloat.float r in Py.mul x (PyInt k)).
Proof. simpl. now rewrite endswith_app, drop_end_app. Qed.

Lemma parse_units_miss (suffix : string) (k : Z) table (s : string) :
  Str.endswith s suffix = false ->
  parse_units ((suffix, k) :: table) s = parse_units table s.
Proof. intros H. simpl. now rewrite H. Qed.

(** Every entry of the table wins on a string that ends with its suffix:
    no earlier test of the parser fires on it. *)
Lemma parse_quantity_unit :
  Forall (fun '(suffix, multiplier) => forall r : string,
    parse_quantity (Some (r ++ suffix)) =
    (let* x := PyFloat.float r in Py.mul x (PyInt multiplier))) units.
Proof.
  unfold units.
  repeat apply Forall_cons_2; try apply Forall_nil_2; intros r;
    unfold parse_quantity;
    (rewrite nonempty_app by discriminate);
    (replace (Str.endswith (r ++ _) "m") with false by (symmetry; last_chars));
    (replace (Str.endswith (r ++ _) "n") with false by (symmetry; last_chars));
    unfold units;
    repeat (rewrite parse_units_miss by last_chars);
    apply parse_units_hit.
Qed.

Lemma parse_units_bare table (s : string) :
  (forall suffix, In suffix (map fst table) -> Str.endswith s suffix = false) ->
  parse_units table s = PyFloat.float s.
Proof.
  induction table as [|[suffix k] table IH]; intros H; [reflexivity|].
  rewrite parse_units_miss by (apply H; now left).
  apply IH. intros x Hx. apply H. now right.
Qed.

Lemma parse_quantity_bare (s : string) :
  s <> "" ->
  forallb (fun suffix => negb (Str.endswith s suffix)) known_suffixes = true ->
  parse_quantity (Some s) = PyFloat.float s.
Proof.
  intros Hne H.
  assert (Hends : forall suffix, In suffix known_suffixes ->
                                 Str.endswith s suffix = false).
  { intros suffix Hin. rewrite forallb_forall in H.
    apply negb_true_iff. now apply H. }
  unfold parse_quantity.
  apply String.eqb_neq in Hne. rewrite Hne.
  rewrite (Hends "m") by (now left).
  rewrite (Hends "n") by (right; now left).
  apply parse_units_bare. intros suffix Hin. apply Hends. now do 2 right.
Qed.

End ParseQuantity.

(** ** parse_quantity: the only failure is float()'s ValueError *)

Section ParseErrors.

Local Open Scope string_scope.

Lemma float_cases (s : string) :
  (exists f, PyFloat.float s = Ok (PyFloat f)) \/ PyFloat.float s = Raise ValueError.
Proof. unfold PyFloat.float. destruct (PyFloat.of_chars _); eauto. Qed.

Lemma mul_float_int (f : spec_float) (k : Z) :
  F64.is_finite (F64.of_Z k) = true ->
  Py.mul (PyFloat f) (PyInt k) = Ok (PyFloat (F64.mul f (F64.of_Z k))).
Proof. intros H. unfold Py.mul, Py.as_float, bind. now rewrite H. Qed.

Lemma truediv_float_int (f : spec_float) (k : Z) :
  F64.is_finite (F64.of_Z k) = true ->
  F64.is_zero (F64.of_Z k) = false ->
  Py.truediv (PyFloat f) (PyInt k) = Ok (PyFloat (F64.div f (F64.of_Z k))).
Proof.
  intros H Hz. unfold Py.truediv, Py.as_float, bind. now rewrite H, Hz.
Qed.

Lemma units_finite :
  Forall (fun '(_, k) => F64.is_finite (F64.of_Z k) = true) units.
Proof. repeat apply Forall_cons_2; try apply Forall_nil_2; reflexivity. Qed.

(** What each branch of the parser computes from the parsed remainder. *)
Lemma scaled_float_cases (r : string) (op : pyval -> result pyval) :
  (forall f, exists g, op (PyFloat f) = Ok (PyFloat g)) ->
  (exists f g, PyFloat.float r = Ok (PyFloat f) /\
               (let* x := PyFloat.float r in op x) = Ok (PyFloat g)) \/
  (PyFloat.float r = Raise ValueError /\
   (let* x := PyFloat.float r in op x) = Raise ValueError).
Proof.
  intros Hop. destruct (float_cases r) as [[f Hf]|Hf]; rewrite Hf; simpl.
  - left. destruct (Hop f) as [g Hg]. eauto.
  - now right.
Qed.

Lemma op_milli (f : spec_float) :
  exists g, Py.truediv (PyFloat f) (PyInt 1000) = Ok (PyFloat g).
Proof. eexists. now apply truediv_float_int. Qed.

Lemma op_nano (f : spec_float) :
  exists g, Py.truediv (PyFloat f) (PyInt 1000000000) = Ok (PyFloat g).
Proof. eexists. now apply truediv_float_int. Qed.

Lemma op_unit (k : Z) (f : spec_float) :
  F64.is_finite (F64.of_Z k) = true ->
  exists g, Py.mul (PyFloat f) (PyInt k) = Ok (PyFloat g).
Proof. intros H. eexists. now apply mul_float_int. Qed.

Lemma parse_units_outcome table (s : string) :
  Forall (fun '(_, k) => F64.is_finite (F64.of_Z k) = true) table ->
  let r := match find (Str.endswith s) (map fst table) with
           | Some suffix => Str.drop_end s (String.length suffix)
           | None => s
           end in
  (exists f g, PyFloat.float r = Ok (PyFloat f) /\
               parse_units table s = Ok (PyFloat g)) \/
  (PyFloat.float r = Raise ValueError /\ parse_units table s = Raise ValueError).
Proof.
  induction 1 as [|[suffix k] table Hk _ IH]; simpl.
  - destruct (float_cases s) as [[f Hf]|Hf]; rewrite Hf; eauto.
  - destruct (Str.endswith s suffix); [|exact IH].
    apply scaled_float_cases. intros f. now apply op_unit.
Qed.

(** Outcome of [parse_quantity] on a non-empty string, in terms of the
    remainder handed to [float]. *)
Lemma parse_quantity_outcome (s : string) :
  s <> "" ->
  (exists f g, PyFloat.float (stripped_remainder s) = Ok (PyFloat f) /\
               parse_quantity (Some s) = Ok (PyFloat g)) \/
  (PyFloat.float (stripped_remainder s) = Raise ValueError /\
   parse_quantity (Some s) = Raise ValueError).
Proof.
  intros Hne. apply String.eqb_neq in Hne.
  unfold parse_quantity, stripped_remainder, known_suffixes. rewrite Hne.
  simpl find.
  destruct (Str.endswith s "m").
  { apply scaled_float_cases, op_milli. }
  destruct (Str.endswith s "n").
  { apply scaled_float_cases, op_nano. }
  apply (parse_units_outcome units s units_finite).
Qed.

Lemma parse_quantity_values (q : option string) (v : pyval) :
  parse_quantity q = Ok v -> v = PyInt 0 \/ exists f, v = PyFloat f.
Proof.
  destruct q as [s|]; [|intros [= <-]; now left].
  destruct (String.eqb_spec s "") as [->|Hne]; [intros [= <-]; now left|].
  destruct (parse_quantity_outcome s Hne) as [(f & g & _ & ->)|[_ ->]];
    [intros [= <-]; eauto | discriminate].
Qed.

Lemma parse_quantity_raises (q : option string) (e : exn) :
  parse_quantity q = Raise e -> e = ValueError.
Proof.
  destruct q as [s|]; [|discriminate].
  destruct (String.eqb_spec s "") as [->|Hne]; [discriminate|].
  destruct (parse_quantity_outcome s Hne) as [(f & g & _ & ->)|[_ ->]];
    [discriminate | now intros [= <-]].
Qed.

End ParseErrors.

(** ** The error monad and the numeric operators on reachable values *)

Arguments parse_quantity : simpl never.
Arguments PyFloat.float : simpl never.
Arguments utilization : simpl never.
Arguments Py.round : simpl never.
Arguments Py.truediv : simpl never.
Arguments Py.mul : simpl never.
Arguments Py.add : simpl never.
Arguments Py.gt : simpl never.

Section Monad.

Context {A B : Type}.

Lemma bind_ok (r : result A) (k : A -> result B) (b : B) :
  bind r k = Ok b -> exists a, r = Ok a /\ k a = Ok b.
Proof. destruct r as [a|e]; simpl; [eauto | discriminate]. Qed.

Lemma bind_raise (r : result A) (k : A -> result B) (e : exn) :
  bind r k = Raise e -> r = Raise e \/ exists a, r = Ok a /\ k a = Raise e.
Proof. destruct r as [a|e']; simpl; [eauto | intros [= ->]; now left]. Qed.

End Monad.

Ltac bind_inv H :=
  let a := fresh "a" in
  let Ha := fresh "H" a in
  apply bind_ok in H as (a & Ha & H).

Lemma parse_quantity_simple (q : option string) (v : pyval) :
  parse_quantity q = Ok v -> simple v.
Proof.
  intros H. apply parse_quantity_values in H as [-> | [f ->]]; simpl; auto.
Qed.

Lemma add_simple (a b : pyval) :
  simple a -> simple b -> exists c, Py.add a b = Ok c /\ simple c.
Proof.
  destruct a as [x|f], b as [y|g]; simpl; intros Ha Hb; subst;
    eexists; (split; [reflexivity | simpl; auto]).
Qed.

(** A value that passes the guard [> 0] is not a zero. *)
Lemma gt_zero_float (f : spec_float) :
  Py.gt (PyFloat f) (PyInt 0) = true -> F64.is_zero f = false.
Proof. destruct f; try reflexivity. discriminate. Qed.

Lemma gt_zero_simple (c : pyval) :
  simple c -> Py.gt c (PyInt 0) = true ->
  exists f, c = PyFloat f /\ F64.is_zero f = false.
Proof.
  destruct c as [z|f]; simpl; intros Hs Hgt.
  - subst. discriminate.
  - exists f. split; [reflexivity|]. now apply gt_zero_float.
Qed.

Lemma truediv_simple (u : pyval) (f : spec_float) :
  simple u -> F64.is_zero f = false ->
  exists g, Py.truediv u (PyFloat f) = Ok (PyFloat g).
Proof.
  intros Hu Hf. destruct u as [z|x]; simpl in Hu; subst;
    unfold Py.truediv, Py.as_float, bind; cbn; rewrite Hf; eauto.
Qed.

Lemma utilization_simple (u c : pyval) :
  simple u -> simple c -> exists v, utilization u c = Ok v /\ simple v.
Proof.
  intros Hu Hc. unfold utilization.
  destruct (Py.gt c (PyInt 0)) eqn:G.
  - destruct (gt_zero_simple c Hc G) as (f & -> & Hf).
    destruct (truediv_simple u f Hu Hf) as [g ->]. cbn [bind].
    rewrite mul_float_int by reflexivity. eexists. split; [reflexivity|exact I].
  - exists (PyInt 0). now split.
Qed.

Lemma utilization_guard (u c : pyval) :
  Py.gt c (PyInt 0) = false -> utilization u c = Ok (PyInt 0).
Proof. intros G. unfold utilization. now rewrite G. Qed.

Lemma parse_all_lookup (qs : list string) (vs : list pyval) (i : nat) (q : string) :
  parse_all qs = Ok vs -> qs !! i = Some q ->
  exists v, vs !! i = Some v /\ parse_quantity (Some q) = Ok v.
Proof.
  revert vs i. induction qs as [|q0 qs IH]; simpl; intros vs i H Hi; [discriminate|].
  bind_inv H. bind_inv H. injection H as <-.
  destruct i as [|i]; simpl in *.
  - injection Hi as <-. eauto.
  - eapply IH; eauto.
Qed.

Lemma parse_all_ok_iff (qs : list string) :
  (exists vs, parse_all qs = Ok vs) <->
  Forall (fun q => exists v, parse_quantity (Some q) = Ok v) qs.
Proof.
  induction qs as [|q qs IH]; simpl.
  - split; [constructor | eauto].
  - split.
    + intros [vs H]. bind_inv H. bind_inv H. constructor; [eauto|].
      apply IH. eauto.
    + intros H. apply Forall_cons in H as [[v Hv] Hqs].
      apply IH in Hqs as [vs Hvs]. rewrite Hv, Hvs. simpl. eauto.
Qed.

(** ** The CPU loop *)

Section CpuLoop.

Variable caps : gmap string (gmap string string).

(** What one iteration did, when it returned. *)
Lemma cpu_step_ok (st st' : Cpu.state) (item : NodeMetrics) :
  Cpu.step caps st item = Ok st' ->
  exists usage capacity u,
    parse_quantity (Some (usage_cpu item)) = Ok usage /\
    parse_quantity (Some (capacity_str caps (metadata_name item) "cpu")) = Ok capacity /\
    Py.add (Cpu.total_usage st) usage = Ok (Cpu.total_usage st') /\
    Py.add (Cpu.total_capacity st) capacity = Ok (Cpu.total_capacity st') /\
    utilization usage capacity = Ok u /\
    Cpu.node_details st' =
      Cpu.node_details st ++ [cpu_detail (metadata_name item) usage capacity u].
Proof.
  unfold Cpu.step. intros H.
  apply bind_ok in H as (usage & Hu & H).
  apply bind_ok in H as (capacity & Hc & H).
  apply bind_ok in H as (tu & Htu & H).
  apply bind_ok in H as (tc & Htc & H).
  apply bind_ok in H as (u & Hutil & H).
  injection H as <-. exists usage, capacity, u. simpl. auto 10.
Qed.

(** An iteration on reachable totals returns as soon as both strings parse. *)
Lemma cpu_step_total (st : Cpu.state) (item : NodeMetrics) (usage capacity : pyval) :
  simple (Cpu.total_usage st) -> simple (Cpu.total_capacity st) ->
  parse_quantity (Some (usage_cpu item)) = Ok usage ->
  parse_quantity (Some (capacity_str caps (metadata_name item) "cpu")) = Ok capacity ->
  exists st', Cpu.step caps st item = Ok st' /\
              simple (Cpu.total_usage st') /\ simple (Cpu.total_capacity st').
Proof.
  intros Htu Htc Hu Hc.
  pose proof (parse_quantity_simple _ _ Hu) as Hsu.
  pose proof (parse_quantity_simple _ _ Hc) as Hsc.
  destruct (add_simple _ _ Htu Hsu) as (tu & Eu & Hstu).
  destruct (add_simple _ _ Htc Hsc) as (tc & Ec & Hstc).
  destruct (utilization_simple _ _ Hsu Hsc) as (u & Eut & _).
  unfold Cpu.step. rewrite Hu, Hc. cbn [bind]. rewrite Eu, Ec. cbn [bind].
  rewrite Eut. cbn [bind]. eexists. split; [reflexivity|]. now split.
Qed.

(** On reachable totals an iteration can only fail in [parse_quantity]. *)
Lemma cpu_step_raise (st : Cpu.state) (item : NodeMetrics) (e : exn) :
  simple (Cpu.total_usage st) -> simple (Cpu.total_capacity st) ->
  Cpu.step caps st item = Raise e ->
  e = ValueError /\
  (parse_quantity (Some (usage_cpu item)) = Raise ValueError \/
   parse_quantity (Some (capacity_str caps (metadata_name item) "cpu")) = Raise ValueError).
Proof.
  intros Htu Htc H.
  destruct (parse_quantity (Some (usage_cpu item))) as [usage|e1] eqn:Hu.
  - destruct (parse_quantity (Some (capacity_str caps (metadata_name item) "cpu")))
      as [capacity|e2] eqn:Hc.
    + destruct (cpu_step_total st item usage capacity Htu Htc Hu Hc) as (st' & E & _).
      congruence.
    + pose proof (parse_quantity_raises _ _ Hc) as ->.
      unfold Cpu.step in H. rewrite Hu, Hc in H. cbn [bind] in H.
      injection H as <-. auto.
  - pose proof (parse_quantity_raises _ _ Hu) as ->.
    unfold Cpu.step in H. rewrite Hu in H. cbn [bind] in H.
    injection H as <-. auto.
Qed.

(** The whole loop, when it returned: the parsed values, the accumulated
    totals and the records appended, in the order of the items. *)
Lemma cpu_loop_ok (items : list NodeMetrics) (st st' : Cpu.state) :
  for_each (Cpu.step caps) items st = Ok st' ->
  exists usages capacities ds,
    parse_all (map usage_cpu items) = Ok usages /\
    parse_all (map (fun item => capacity_str caps (metadata_name item) "cpu") items)
      = Ok capacities /\
    sum_from (Cpu.total_usage st) usages = Ok (Cpu.total_usage st') /\
    sum_from (Cpu.total_capacity st) capacities = Ok (Cpu.total_capacity st') /\
    Cpu.node_details st' = Cpu.node_details st ++ ds /\
    map Cpu.node ds = map metadata_name items /\
    (forall i item usage capacity,
        items !! i = Some item -> usages !! i = Some usage ->
        capacities !! i = Some capacity ->
        exists u, utilization usage capacity = Ok u /\
                  ds !! i = Some (cpu_detail (metadata_name item) usage capacity u)).
Proof.
  revert st. induction items as [|item items IH]; intros st H; simpl in H.
  - injection H as <-. exists [], [], []. simpl.
    rewrite app_nil_r. repeat split; auto. intros i ? ? ? Hi. discriminate.
  - apply bind_ok in H as (st1 & Hstep & H).
    apply cpu_step_ok in Hstep as (usage & capacity & u & Hu & Hc & Htu & Htc & Hut & Hd).
    apply IH in H as (usages & capacities & ds & Hus & Hcs & Hsu & Hsc & Hds & Hnames & Hall).
    exists (usage :: usages), (capacity :: capacities),
           (cpu_detail (metadata_name item) usage capacity u :: ds).
    simpl. rewrite Hu, Hc, Hus, Hcs. cbn [bind].
    unfold sum_from in *. simpl. rewrite Htu, Htc. cbn [bind].
    repeat split; auto.
    + rewrite Hds, Hd, <- app_assoc. reflexivity.
    + now rewrite Hnames.
    + intros [|i] it usg cap Hi Hx Hy; simpl in *.
      * injection Hi as <-. injection Hx as <-. injection Hy as <-. eauto.
      * eapply Hall; eauto.
Qed.

(** The loop on reachable totals returns exactly when every string parses. *)
Lemma cpu_loop_total (items : list NodeMetrics) (st : Cpu.state) :
  simple (Cpu.total_usage st) -> simple (Cpu.total_capacity st) ->
  Forall (fun item =>
    (exists v, parse_quantity (Some (usage_cpu item)) = Ok v) /\
    (exists v, parse_quantity
                 (Some (capacity_str caps (metadata_name item) "cpu")) = Ok v)) items ->
  exists st', for_each (Cpu.step caps) items st = Ok st' /\
              simple (Cpu.total_usage st') /\ simple (Cpu.total_capacity st').
Proof.
  intros Htu Htc Hitems. revert st Htu Htc.
  induction Hitems as [|item items [[u Hu] [c Hc]] _ IH]; intros st Htu Htc; simpl.
  - eauto.
  - destruct (cpu_step_total st item u c Htu Htc Hu Hc) as (st1 & -> & H1 & H2).
    cbn [bind]. now apply IH.
Qed.

Lemma cpu_loop_raise (items : list NodeMetrics) (st : Cpu.state) (e : exn) :
  simple (Cpu.total_usage st) -> simple (Cpu.total_capacity st) ->
  for_each (Cpu.step caps) items st = Raise e ->
  e = ValueError /\
  Exists (fun item =>
    parse_quantity (Some (usage_cpu item)) = Raise ValueError \/
    parse_quantity (Some (capacity_str caps (metadata_name item) "cpu"))
      = Raise ValueError) items.
Proof.
  revert st. induction items as [|item items IH]; intros st Htu Htc H; simpl in H.
  - discriminate.
  - destruct (Cpu.step caps st item) as [st1|e1] eqn:Hstep; cbn [bind] in H.
    + apply cpu_step_ok in Hstep as (usage & capacity & u & Hu & Hc & Ha & Hb & _).
      pose proof (parse_quantity_simple _ _ Hu) as Hsu.
      pose proof (parse_quantity_simple _ _ Hc) as Hsc.
      destruct (add_simple _ _ Htu Hsu) as (tu & Eu & Hstu).
      destruct (add_simple _ _ Htc Hsc) as (tc & Ec & Hstc).
      assert (simple (Cpu.total_usage st1)) by congruence.
      assert (simple (Cpu.total_capacity st1)) by congruence.
      destruct (IH st1) as [-> Hex]; auto.
    + injection H as <-.
      destruct (cpu_step_raise st item e1 Htu Htc Hstep) as [-> Hor]. auto.
Qed.

End CpuLoop.

(** ** The memory loop *)

Lemma to_gi_simple (x : pyval) :
  simple x -> exists g, Memory.to_gi x = Ok (PyFloat g).
Proof.
  destruct x as [z|f]; simpl; intros H.
  - subst. eexists. reflexivity.
  - eexists. unfold Memory.to_gi. now apply truediv_float_int.
Qed.

Section MemoryLoop.

Variable caps : gmap string (gmap string string).

(** What one iteration did, when it returned. *)
Lemma memory_step_ok (st st' : Memory.state) (item : NodeMetrics) :
  Memory.step caps st item = Ok st' ->
  exists usage capacity ug cg u,
    parse_quantity (Some (usage_memory item)) = Ok usage /\
    parse_quantity (Some (capacity_str caps (metadata_name item) "memory")) = Ok capacity /\
    Py.add (Memory.total_usage st) usage = Ok (Memory.total_usage st') /\
    Py.add (Memory.total_capacity st) capacity = Ok (Memory.total_capacity st') /\
    Memory.to_gi usage = Ok ug /\ Memory.to_gi capacity = Ok cg /\
    utilization usage capacity = Ok u /\
    Memory.node_details st' =
      Memory.node_details st ++ [memory_detail (metadata_name item) ug cg u].
Proof.
  unfold Memory.step. intros H.
  apply bind_ok in H as (usage & Hu & H).
  apply bind_ok in H as (capacity & Hc & H).
  apply bind_ok in H as (tu & Htu & H).
  apply bind_ok in H as (tc & Htc & H).
  apply bind_ok in H as (ug & Hug & H).
  apply bind_ok in H as (cg & Hcg & H).
  apply bind_ok in H as (u & Hutil & H).
  injection H as <-. exists usage, capacity, ug, cg, u. simpl. auto 10.
Qed.

(** An iteration on reachable totals returns as soon as both strings parse. *)
Lemma memory_step_total (st : Memory.state) (item : NodeMetrics) (usage capacity : pyval) :
  simple (Memory.total_usage st) -> simple (Memory.total_capacity st) ->
  parse_quantity (Some (usage_memory item)) = Ok usage ->
  parse_quantity (Some (capacity_str caps (metadata_name item) "memory")) = Ok capacity ->
  exists st', Memory.step caps st item = Ok st' /\
              simple (Memory.total_usage st') /\ simple (Memory.total_capacity st').
Proof.
  intros Htu Htc Hu Hc.
  pose proof (parse_quantity_simple _ _ Hu) as Hsu.
  pose proof (parse_quantity_simple _ _ Hc) as Hsc.
  destruct (add_simple _ _ Htu Hsu) as (tu & Eu & Hstu).
  destruct (add_simple _ _ Htc Hsc) as (tc & Ec & Hstc).
  destruct (utilization_simple _ _ Hsu Hsc) as (u & Eut & _).
  destruct (to_gi_simple _ Hsu) as [ug Eug].
  destruct (to_gi_simple _ Hsc) as [cg Ecg].
  unfold Memory.step. rewrite Hu, Hc. cbn [bind]. rewrite Eu, Ec. cbn [bind].
  rewrite Eug, Ecg. cbn [bind]. rewrite Eut. cbn [bind]. eexists. split; [reflexivity|]. now split.
Qed.

(** On reachable totals an iteration can only fail in [parse_quantity]. *)
Lemma memory_step_raise (st : Memory.state) (item : NodeMetrics) (e : exn) :
  simple (Memory.total_usage st) -> simple (Memory.total_capacity st) ->
  Memory.step caps st item = Raise e ->
  e = ValueError /\
  (parse_quantity (Some (usage_memory item)) = Raise ValueError \/
   parse_quantity (Some (capacity_str caps (metadata_name item) "memory")) = Raise ValueError).
Proof.
  intros Htu Htc H.
  destruct (parse_quantity (Some (usage_memory item))) as [usage|e1] eqn:Hu.
  - destruct (parse_quantity (Some (capacity_str caps (metadata_name item) "memory")))
      as [capacity|e2] eqn:Hc.
    + destruct (memory_step_total st item usage capacity Htu Htc Hu Hc) as (st' & E & _).
      congruence.
    + pose proof (parse_quantity_raises _ _ Hc) as ->.
      unfold Memory.step in H. rewrite Hu, Hc in H. cbn [bind] in H.
      injection H as <-. auto.
  - pose proof (parse_quantity_raises _ _ Hu) as ->.
    unfold Memory.step in H. rewrite Hu in H. cbn [bind] in H.
    injection H as <-. auto.
Qed.

(** The whole loop, when it returned: the parsed values, the accumulated
    totals and the records appended, in the order of the items. *)
Lemma memory_loop_ok (items : list NodeMetrics) (st st' : Memory.state) :
  for_each (Memory.step caps) items st = Ok st' ->
  exists usages capacities ds,
    parse_all (map usage_memory items) = Ok usages /\
    parse_all (map (fun item => capacity_str caps (metadata_name item) "memory") items)
      = Ok capacities /\
    sum_from (Memory.total_usage st) usages = Ok (Memory.total_usage st') /\
    sum_from (Memory.total_capacity st) capacities = Ok (Memory.total_capacity st') /\
    Memory.node_details st' = Memory.node_details st ++ ds /\
    map Memory.node ds = map metadata_name items /\
    (forall i item usage capacity,
        items !! i = Some item -> usages !! i = Some usage ->
        capacities !! i = Some capacity ->
        exists ug cg u,
          Memory.to_gi usage = Ok ug /\ Memory.to_gi capacity = Ok cg /\
          utilization usage capacity = Ok u /\
          ds !! i = Some (memory_detail (metadata_name item) ug cg u)).
Proof.
  revert st. induction items as [|item items IH]; intros st H; simpl in H.
  - injection H as <-. exists [], [], []. simpl.
    rewrite app_nil_r. repeat split; auto. intros i ? ? ? Hi. discriminate.
  - apply bind_ok in H as (st1 & Hstep & H).
    apply memory_step_ok in Hstep
      as (usage & capacity & ug & cg & u & Hu & Hc & Htu & Htc & Hug & Hcg & Hut & Hd).
    apply IH in H as (usages & capacities & ds & Hus & Hcs & Hsu & Hsc & Hds & Hnames & Hall).
    exists (usage :: usages), (capacity :: capacities),
           (memory_detail (metadata_name item) ug cg u :: ds).
    simpl. rewrite Hu, Hc, Hus, Hcs. cbn [bind].
    unfold sum_from in *. simpl. rewrite Htu, Htc. cbn [bind].
    repeat split; auto.
    + rewrite Hds, Hd, <- app_assoc. reflexivity.
    + now rewrite Hnames.
    + intros [|i] it usg cap Hi Hx Hy; simpl in *.
      * injection Hi as <-. injection Hx as <-. injection Hy as <-. eauto 10.
      * eapply Hall; eauto.
Qed.

(** The loop on reachable totals returns exactly when every string parses. *)
Lemma memory_loop_total (items : list NodeMetrics) (st : Memory.state) :
  simple (Memory.total_usage st) -> simple (Memory.total_capacity st) ->
  Forall (fun item =>
    (exists v, parse_quantity (Some (usage_memory item)) = Ok v) /\
    (exists v, parse_quantity
                 (Some (capacity_str caps (metadata_name item) "memory")) = Ok v)) items ->
  exists st', for_each (Memory.step caps) items st = Ok st' /\
              simple (Memory.total_usage st') /\ simple (Memory.total_capacity st').
Proof.
  intros Htu Htc Hitems. revert st Htu Htc.
  induction Hitems as [|item items [[u Hu] [c Hc]] _ IH]; intros st Htu Htc; simpl.
  - eauto.
  - destruct (memory_step_total st item u c Htu Htc Hu Hc) as (st1 & -> & H1 & H2).
    cbn [bind]. now apply IH.
Qed.

Lemma memory_loop_raise (items : list NodeMetrics) (st : Memory.state) (e : exn) :
  simple (Memory.total_usage st) -> simple (Memory.total_capacity st) ->
  for_each (Memory.step caps) items st = Raise e ->
  e = ValueError /\
  Exists (fun item =>
    parse_quantity (Some (usage_memory item)) = Raise ValueError \/
    parse_quantity (Some (capacity_str caps (metadata_name item) "memory"))
      = Raise ValueError) items.
Proof.
  revert st. induction items as [|item items IH]; intros st Htu Htc H; simpl in H.
  - discriminate.
  - destruct (Memory.step caps st item) as [st1|e1] eqn:Hstep; cbn [bind] in H.
    + apply memory_step_ok in Hstep
        as (usage & capacity & ug & cg & u & Hu & Hc & Ha & Hb & _).
      pose proof (parse_quantity_simple _ _ Hu) as Hsu.
      pose proof (parse_quantity_simple _ _ Hc) as Hsc.
      destruct (add_simple _ _ Htu Hsu) as (tu & Eu & Hstu).
      destruct (add_simple _ _ Htc Hsc) as (tc & Ec & Hstc).
      assert (simple (Memory.total_usage st1)) by congruence.
      assert (simple (Memory.total_capacity st1)) by congruence.
      destruct (IH st1) as [-> Hex]; auto.
    + injection H as <-.
      destruct (memory_step_raise st item e1 Htu Htc Hstep) as [-> Hor]. auto.
Qed.

End MemoryLoop.

(** ** The two aggregations as a whole *)

Lemma elem_of_map {A B : Type} (f : A -> B) (l : list A) (x : A) :
  x ∈ l -> f x ∈ map f l.
Proof. rewrite !list_elem_of_In. apply in_map. Qed.

Lemma cpu_finish_total (st : Cpu.state) :
  simple (Cpu.total_usage st) -> simple (Cpu.total_capacity st) ->
  exists r, Cpu.finish st = Ok r.
Proof.
  intros Hu Hc. destruct (utilization_simple _ _ Hu Hc) as (u & E & _).
  unfold Cpu.finish. rewrite E. cbn [bind]. eauto.
Qed.

Lemma memory_finish_total (st : Memory.state) :
  simple (Memory.total_usage st) -> simple (Memory.total_capacity st) ->
  exists r, Memory.finish st = Ok r.
Proof.
  intros Hu Hc. destruct (utilization_simple _ _ Hu Hc) as (u & E & _).
  destruct (to_gi_simple _ Hu) as [ug Eug].
  destruct (to_gi_simple _ Hc) as [cg Ecg].
  unfold Memory.finish. rewrite Eug, Ecg. cbn [bind]. rewrite E. cbn [bind]. eauto.
Qed.

(** Everything [get_cluster_cpu] reports, when it returns. *)
Lemma get_cluster_cpu_ok (items : list NodeMetrics) (nodes : list Node) (r : Cpu.report) :
  Cpu.get_cluster_cpu items nodes = Ok r ->
  exists usages capacities total_usage total_capacity u,
    parse_all (cpu_usages items) = Ok usages /\
    parse_all (cpu_capacities nodes items) = Ok capacities /\
    sum_from (PyInt 0) usages = Ok total_usage /\
    sum_from (PyInt 0) capacities = Ok total_capacity /\
    utilization total_usage total_capacity = Ok u /\
    Cpu.cluster r =
      {| Cpu.total_usage_cores := Py.round total_usage 3;
         Cpu.total_capacity_cores := Py.round total_capacity 3;
         Cpu.cluster_utilization_percent := Py.round u 2 |} /\
    map Cpu.node (Cpu.nodes r) = map metadata_name items /\
    (forall i item usage capacity,
        items !! i = Some item -> usages !! i = Some usage ->
        capacities !! i = Some capacity ->
        exists v, utilization usage capacity = Ok v /\
                  Cpu.nodes r !! i =
                    Some (cpu_detail (metadata_name item) usage capacity v)).
Proof.
  unfold Cpu.get_cluster_cpu. intros H.
  apply bind_ok in H as (st & Hloop & H).
  apply cpu_loop_ok in Hloop
    as (usages & capacities & ds & Hus & Hcs & Hsu & Hsc & Hds & Hnames & Hall).
  unfold Cpu.finish in H. apply bind_ok in H as (u & Hu & H). injection H as <-.
  exists usages, capacities, (Cpu.total_usage st), (Cpu.total_capacity st), u.
  simpl in *. subst. auto 10.
Qed.

Lemma get_cluster_memory_ok (items : list NodeMetrics) (nodes : list Node)
    (r : Memory.report) :
  Memory.get_cluster_memory items nodes = Ok r ->
  exists usages capacities total_usage total_capacity ug cg u,
    parse_all (memory_usages items) = Ok usages /\
    parse_all (memory_capacities nodes items) = Ok capacities /\
    sum_from (PyInt 0) usages = Ok total_usage /\
    sum_from (PyInt 0) capacities = Ok total_capacity /\
    Memory.to_gi total_usage = Ok ug /\
    Memory.to_gi total_capacity = Ok cg /\
    utilization total_usage total_capacity = Ok u /\
    Memory.cluster r =
      {| Memory.total_usage_gi := Py.round ug 2;
         Memory.total_capacity_gi := Py.round cg 2;
         Memory.cluster_utilization_percent := Py.round u 2 |} /\
    map Memory.node (Memory.nodes r) = map metadata_name items /\
    (forall i item usage capacity,
        items !! i = Some item -> usages !! i = Some usage ->
        capacities !! i = Some capacity ->
        exists ugi cgi v,
          Memory.to_gi usage = Ok ugi /\ Memory.to_gi capacity = Ok cgi /\
          utilization usage capacity = Ok v /\
          Memory.nodes r !! i =
            Some (memory_detail (metadata_name item) ugi cgi v)).
Proof.
  unfold Memory.get_cluster_memory. intros H.
  apply bind_ok in H as (st & Hloop & H).
  apply memory_loop_ok in Hloop
    as (usages & capacities & ds & Hus & Hcs & Hsu & Hsc & Hds & Hnames & Hall).
  unfold Memory.finish in H.
  apply bind_ok in H as (ug & Hug & H).
  apply bind_ok in H as (cg & Hcg & H).
  apply bind_ok in H as (u & Hu & H). injection H as <-.
  exists usages, capacities, (Memory.total_usage st), (Memory.total_capacity st),
         ug, cg, u.
  simpl in *. subst. auto 12.
Qed.

(** Both aggregations return as soon as every quantity string parses. *)
Lemma get_cluster_cpu_total (items : list NodeMetrics) (nodes : list Node) :
  Forall (fun q => exists v, parse_quantity (Some q) = Ok v) (cpu_usages items) ->
  Forall (fun q => exists v, parse_quantity (Some q) = Ok v) (cpu_capacities nodes items) ->
  exists r, Cpu.get_cluster_cpu items nodes = Ok r.
Proof.
  intros Hu Hc. unfold cpu_usages, cpu_capacities in *.
  rewrite Forall_map in Hu, Hc.
  destruct (cpu_loop_total (node_capacities nodes) items Cpu.init)
    as (st & Hst & H1 & H2); try reflexivity.
  { rewrite Forall_forall in *. intros item Hin. split; [now apply Hu | now apply Hc]. }
  unfold Cpu.get_cluster_cpu. rewrite Hst. cbn [bind]. now apply cpu_finish_total.
Qed.

Lemma get_cluster_memory_total (items : list NodeMetrics) (nodes : list Node) :
  Forall (fun q => exists v, parse_quantity (Some q) = Ok v) (memory_usages items) ->
  Forall (fun q => exists v, parse_quantity (Some q) = Ok v)
         (memory_capacities nodes items) ->
  exists r, Memory.get_cluster_memory items nodes = Ok r.
Proof.
  intros Hu Hc. unfold memory_usages, memory_capacities in *.
  rewrite Forall_map in Hu, Hc.
  destruct (memory_loop_total (node_capacities nodes) items Memory.init)
    as (st & Hst & H1 & H2); try reflexivity.
  { rewrite Forall_forall in *. intros item Hin. split; [now apply Hu | now apply Hc]. }
  unfold Memory.get_cluster_memory. rewrite Hst. cbn [bind].
  now apply memory_finish_total.
Qed.

(** The only exception either aggregation lets out is the ValueError of a
    quantity string that does not parse. *)
Lemma get_cluster_cpu_raise (items : list NodeMetrics) (nodes : list Node) (e : exn) :
  Cpu.get_cluster_cpu items nodes = Raise e ->
  e = ValueError /\
  Exists (fun q => parse_quantity (Some q) = Raise ValueError)
         (cpu_usages items ++ cpu_capacities nodes items).
Proof.
  unfold Cpu.get_cluster_cpu. intros H.
  destruct (for_each _ items Cpu.init) as [st|e1] eqn:Hloop; cbn [bind] in H.
  - destruct (cpu_loop_total (node_capacities nodes) items Cpu.init)
      as (st' & Hst & H1 & H2); try reflexivity.
    { apply cpu_loop_ok in Hloop as (us & cs & _ & Hus & Hcs & _).
      assert (Hu : exists vs, parse_all (map usage_cpu items) = Ok vs) by eauto.
      assert (Hc : exists vs, parse_all (map (fun item =>
                capacity_str (node_capacities nodes) (metadata_name item) "cpu") items)
                = Ok vs) by eauto.
      apply parse_all_ok_iff in Hu, Hc. rewrite Forall_map in Hu, Hc.
      rewrite Forall_forall in *. intros item Hin. split; [now apply Hu | now apply Hc]. }
    assert (st' = st) as -> by congruence.
    destruct (cpu_finish_total st H1 H2) as [r Hr]. congruence.
  - injection H as <-.
    apply cpu_loop_raise in Hloop as [-> Hex]; try reflexivity.
    split; [reflexivity|]. unfold cpu_usages, cpu_capacities.
    rewrite Exists_app, !Exists_exists. rewrite Exists_exists in Hex.
    destruct Hex as (item & Hin & [H|H]); [left|right].
    + exists (usage_cpu item). split; [now apply elem_of_map | exact H].
    + eexists. split; [|exact H].
      exact (elem_of_map (fun item => capacity_str (node_capacities nodes)
                                        (metadata_name item) "cpu") items item Hin).
Qed.

Lemma get_cluster_memory_raise (items : list NodeMetrics) (nodes : list Node) (e : exn) :
  Memory.get_cluster_memory items nodes = Raise e ->
  e = ValueError /\
  Exists (fun q => parse_quantity (Some q) = Raise ValueError)
         (memory_usages items ++ memory_capacities nodes items).
Proof.
  unfold Memory.get_cluster_memory. intros H.
  destruct (for_each _ items Memory.init) as [st|e1] eqn:Hloop; cbn [bind] in H.
  - destruct (memory_loop_total (node_capacities nodes) items Memory.init)
      as (st' & Hst & H1 & H2); try reflexivity.
    { apply memory_loop_ok in Hloop as (us & cs & _ & Hus & Hcs & _).
      assert (Hu : exists vs, parse_all (map usage_memory items) = Ok vs) by eauto.
      assert (Hc : exists vs, parse_all (map (fun item =>
                capacity_str (node_capacities nodes) (metadata_name item) "memory") items)
                = Ok vs) by eauto.
      apply parse_all_ok_iff in Hu, Hc. rewrite Forall_map in Hu, Hc.
      rewrite Forall_forall in *. intros item Hin. split; [now apply Hu | now apply Hc]. }
    assert (st' = st) as -> by congruence.
    destruct (memory_finish_total st H1 H2) as [r Hr]. congruence.
  - injection H as <-.
    apply memory_loop_raise in Hloop as [-> Hex]; try reflexivity.
    split; [reflexivity|]. unfold memory_usages, memory_capacities.
    rewrite Exists_app, !Exists_exists. rewrite Exists_exists in Hex.
    destruct Hex as (item & Hin & [H|H]); [left|right].
    + exists (usage_memory item). split; [now apply elem_of_map | exact H].
    + eexists. split; [|exact H].
      exact (elem_of_map (fun item => capacity_str (node_capacities nodes)
                                        (metadata_name item) "memory") items item Hin).
Qed.

(** ** Per-subject records *)

Lemma lookup_map {A B : Type} (f : A -> B) (l : list A) (i : nat) (x : A) :
  l !! i = Some x -> map f l !! i = Some (f x).
Proof.
  revert i. induction l as [|a l IH]; intros [|i] H; simpl in *;
    try discriminate; [now injection H as -> | now apply IH].
Qed.

(** The record [get_cluster_cpu] reports for the [i]-th metrics item. *)
Lemma cpu_row (items : list NodeMetrics) (nodes : list Node) (r : Cpu.report)
    (i : nat) (item : NodeMetrics) :
  Cpu.get_cluster_cpu items nodes = Ok r -> items !! i = Some item ->
  exists usage capacity v,
    parse_quantity (Some (usage_cpu item)) = Ok usage /\
    parse_quantity
      (Some (capacity_str (node_capacities nodes) (metadata_name item) "cpu"))
      = Ok capacity /\
    utilization usage capacity = Ok v /\
    Cpu.nodes r !! i = Some (cpu_detail (metadata_name item) usage capacity v).
Proof.
  intros H Hi.
  apply get_cluster_cpu_ok in H
    as (usages & capacities & _ & _ & _ & Hus & Hcs & _ & _ & _ & _ & _ & Hall).
  destruct (parse_all_lookup _ _ i _ Hus (lookup_map usage_cpu items i item Hi))
    as (usage & Hu1 & Hu2).
  destruct (parse_all_lookup _ _ i _ Hcs
              (lookup_map (fun item => capacity_str (node_capacities nodes)
                                         (metadata_name item) "cpu") items i item Hi))
    as (capacity & Hc1 & Hc2).
  destruct (Hall i item usage capacity Hi Hu1 Hc1) as (v & Hv & Hd).
  exists usage, capacity, v. auto.
Qed.

Lemma memory_row (items : list NodeMetrics) (nodes : list Node) (r : Memory.report)
    (i : nat) (item : NodeMetrics) :
  Memory.get_cluster_memory items nodes = Ok r -> items !! i = Some item ->
  exists usage capacity ug cg v,
    parse_quantity (Some (usage_memory item)) = Ok usage /\
    parse_quantity
      (Some (capacity_str (node_capacities nodes) (metadata_name item) "memory"))
      = Ok capacity /\
    Memory.to_gi usage = Ok ug /\ Memory.to_gi capacity = Ok cg /\
    utilization usage capacity = Ok v /\
    Memory.nodes r !! i = Some (memory_detail (metadata_name item) ug cg v).
Proof.
  intros H Hi.
  apply get_cluster_memory_ok in H
    as (usages & capacities & _ & _ & _ & _ & _ & Hus & Hcs & _ & _ & _ & _ & _ & _ & _ & Hall).
  destruct (parse_all_lookup _ _ i _ Hus (lookup_map usage_memory items i item Hi))
    as (usage & Hu1 & Hu2).
  destruct (parse_all_lookup _ _ i _ Hcs
              (lookup_map (fun item => capacity_str (node_capacities nodes)
                                         (metadata_name item) "memory") items i item Hi))
    as (capacity & Hc1 & Hc2).
  destruct (Hall i item usage capacity Hi Hu1 Hc1) as (ug & cg & v & Hug & Hcg & Hv & Hd).
  exists usage, capacity, ug, cg, v. auto 10.
Qed.

(** The two arms of the utilization expression. *)
Lemma utilization_div (u c v : pyval) :
  utilization u c = Ok v -> Py.gt c (PyInt 0) = true ->
  exists q, Py.truediv u c = Ok q /\ Py.mul q (PyInt 100) = Ok v.
Proof.
  unfold utilization. intros H G. rewrite G in H.
  apply bind_ok in H as (q & Hq & H). eauto.
Qed.

Lemma utilization_zero (u c v : pyval) :
  utilization u c = Ok v -> Py.gt c (PyInt 0) = false -> v = PyInt 0.
Proof. unfold utilization. intros H G. rewrite G in H. congruence. Qed.

Lemma eq_zero_not_gt (c : pyval) :
  Py.eq c (PyInt 0) = true -> Py.gt c (PyInt 0) = false.
Proof.
  destruct c as [z|f]; unfold Py.eq, Py.gt.
  - intros H. apply Z.eqb_eq in H as ->. reflexivity.
  - destruct (Py.cmp_float_Z f 0) as [[]|]; congruence.
Qed.

Lemma utilization_of_zero (u c v : pyval) :
  utilization u c = Ok v -> Py.eq c (PyInt 0) = true -> v = PyInt 0.
Proof. intros H E. eapply utilization_zero; eauto using eq_zero_not_gt. Qed.

(** ** The capacity listing *)

Lemma node_capacities_absent (nodes : list Node) (name : string)
    (d : gmap string (gmap string string)) :
  Forall (fun n => node_name n <> name) nodes ->
  fold_left (fun d node => <[node_name node := status_capacity node]> d) nodes d
    !! name = d !! name.
Proof.
  intros H. revert d. induction H as [|n nodes Hn _ IH]; intros d; simpl.
  - reflexivity.
  - rewrite IH. now apply lookup_insert_ne.
Qed.

Lemma capacity_str_absent (nodes : list Node) (name key : string) :
  Forall (fun n => node_name n <> name) nodes ->
  capacity_str (node_capacities nodes) name key = "0"%string.
Proof.
  intros H. unfold capacity_str, node_capacities.
  rewrite (node_capacities_absent nodes name ∅ H), lookup_empty. reflexivity.
Qed.

(** ** Claims on parse_quantity *)

Section ParseClaims.

Local Open Scope string_scope.

(** C1: parse_quantity follows a strict precedence.  Empty or null input
    returns 0; a trailing [m] strips the suffix and divides the parsed
    remainder by 1000; a trailing [n] divides it by 1,000,000,000; otherwise
    the suffixes Ki, Mi, Gi, Ti, K, M, G, T are tested in that order, the
    first match is stripped and the remainder multiplied by 1024^k or
    1000^k, a two-letter suffix counting as a whole; a non-empty string with
    none of the suffixes is parsed as a bare float.  In particular
    parse("5Ki") = 5120, parse("5K") = 5000, parse("250m") = 0.25,
    parse("1000000000n") = 1.0, parse("") = 0 and parse("4") = 4.0. *)
Theorem parse_quantity_precedence :
  parse_quantity None = Ok (PyInt 0) /\
  parse_quantity (Some "") = Ok (PyInt 0) /\
  (forall r, parse_quantity (Some (r ++ "m")) =
             (let* x := PyFloat.float r in Py.truediv x (PyInt 1000))) /\
  (forall r, parse_quantity (Some (r ++ "n")) =
             (let* x := PyFloat.float r in Py.truediv x (PyInt 1000000000))) /\
  units = [ ("Ki", 1024 ^ 1); ("Mi", 1024 ^ 2); ("Gi", 1024 ^ 3); ("Ti", 1024 ^ 4);
            ("K", 1000 ^ 1); ("M", 1000 ^ 2); ("G", 1000 ^ 3); ("T", 1000 ^ 4) ] /\
  Forall (fun '(suffix, multiplier) => forall r,
            parse_quantity (Some (r ++ suffix)) =
            (let* x := PyFloat.float r in Py.mul x (PyInt multiplier))) units /\
  (forall s, s <> "" ->
             forallb (fun suffix => negb (Str.endswith s suffix)) known_suffixes = true ->
             parse_quantity (Some s) = PyFloat.float s) /\
  parse_quantity (Some "5Ki") = Ok (PyFloat (F64.of_Z 5120)) /\
  parse_quantity (Some "5K") = Ok (PyFloat (F64.of_Z 5000)) /\
  parse_quantity (Some "250m") = Ok (PyFloat (F64.of_decimal false 25 (-2))) /\
  parse_quantity (Some "1000000000n") = Ok (PyFloat (F64.of_Z 1)) /\
  parse_quantity (Some "4") = Ok (PyFloat (F64.of_Z 4)).
Proof.
  split; [reflexivity|]. split; [reflexivity|].
  split; [exact parse_quantity_milli|]. split; [exact parse_quantity_nano|].
  split; [reflexivity|]. split; [exact parse_quantity_unit|].
  split; [exact parse_quantity_bare|].
  repeat split; vm_compute; reflexivity.
Qed.

(** The bare-float case of C1 at the string "4". *)
Lemma parse_quantity_precedence_witness :
  parse_quantity (Some "4") = PyFloat.float "4".
Proof.
  destruct parse_quantity_precedence as (_ & _ & _ & _ & _ & _ & Hbare & _).
  apply Hbare; [discriminate | reflexivity].
Defined.

(** C5: parse_quantity fails exactly when the string is non-empty and the
    remainder left by the suffix handling (the whole string without a known
    suffix) is not a float literal; the failure is float's ValueError, there
    is no other exception, a result is returned only for an empty or null
    input or a valid remainder, and the aggregations fail with the same
    ValueError instead of substituting a number (the tool-call server
    reports it as an error payload of type ValueError). *)
Theorem parse_quantity_error_modes :
  (forall q e, parse_quantity q = Raise e -> e = ValueError) /\
  (forall s, parse_quantity (Some s) = Raise ValueError <->
             s <> "" /\ PyFloat.of_chars (Str.chars (stripped_remainder s)) = None) /\
  (forall s v, parse_quantity (Some s) = Ok v -> s <> "" ->
               exists f, PyFloat.of_chars (Str.chars (stripped_remainder s)) = Some f) /\
  (forall items nodes,
      Exists (fun q => parse_quantity (Some q) = Raise ValueError)
             (cpu_usages items ++ cpu_capacities nodes items) ->
      Cpu.get_cluster_cpu items nodes = Raise ValueError) /\
  (forall items nodes,
      Exists (fun q => parse_quantity (Some q) = Raise ValueError)
             (memory_usages items ++ memory_capacities nodes items) ->
      Memory.get_cluster_memory items nodes = Raise ValueError) /\
  (forall items nodes,
      Exists (fun q => parse_quantity (Some q) = Raise ValueError)
             (cpu_usages items ++ cpu_capacities nodes items) ->
      call_tool (Cpu.get_cluster_cpu items nodes) = ErrorReply "ValueError").
Proof.
  assert (Hfloat : forall r, PyFloat.float r = Raise ValueError <->
                             PyFloat.of_chars (Str.chars r) = None).
  { intros r. unfold PyFloat.float. destruct (PyFloat.of_chars _); split; congruence. }
  assert (Hcpu : forall items nodes,
      Exists (fun q => parse_quantity (Some q) = Raise ValueError)
             (cpu_usages items ++ cpu_capacities nodes items) ->
      Cpu.get_cluster_cpu items nodes = Raise ValueError).
  { intros items nodes Hex.
    destruct (Cpu.get_cluster_cpu items nodes) as [r|e] eqn:E.
    + exfalso. apply get_cluster_cpu_ok in E as (us & cs & _ & _ & _ & Hus & Hcs & _).
      assert (Hu : exists vs, parse_all (cpu_usages items) = Ok vs) by eauto.
      assert (Hc : exists vs, parse_all (cpu_capacities nodes items) = Ok vs) by eauto.
      apply parse_all_ok_iff in Hu, Hc.
      apply Exists_exists in Hex as (q & Hin & Hq).
      rewrite Forall_forall in Hu, Hc.
      apply elem_of_app in Hin as [Hin|Hin];
        [destruct (Hu q Hin) | destruct (Hc q Hin)]; congruence.
    + now apply get_cluster_cpu_raise in E as [-> _]. }
  split; [exact parse_quantity_raises|]. split; [|split; [|split; [|split]]].
  - intros s. rewrite <- Hfloat. split.
    + intros H. destruct (String.eqb_spec s "") as [->|Hne]; [discriminate|].
      split; [assumption|].
      destruct (parse_quantity_outcome s Hne) as [(f & g & _ & E)|[E _]]; congruence.
    + intros [Hne H].
      destruct (parse_quantity_outcome s Hne) as [(f & g & E & _)|[_ E]]; congruence.
  - intros s v H Hne.
    destruct (parse_quantity_outcome s Hne) as [(f & g & E & _)|[_ E]]; [|congruence].
    unfold PyFloat.float in E. destruct (PyFloat.of_chars _); [eauto | discriminate].
  - exact Hcpu.
  - intros items nodes Hex.
    destruct (Memory.get_cluster_memory items nodes) as [r|e] eqn:E.
    + exfalso.
      apply get_cluster_memory_ok in E as (us & cs & _ & _ & _ & _ & _ & Hus & Hcs & _).
      assert (Hu : exists vs, parse_all (memory_usages items) = Ok vs) by eauto.
      assert (Hc : exists vs, parse_all (memory_capacities nodes items) = Ok vs) by eauto.
      apply parse_all_ok_iff in Hu, Hc.
      apply Exists_exists in Hex as (q & Hin & Hq).
      rewrite Forall_forall in Hu, Hc.
      apply elem_of_app in Hin as [Hin|Hin];
        [destruct (Hu q Hin) | destruct (Hc q Hin)]; congruence.
    + now apply get_cluster_memory_raise in E as [-> _].
  - intros items nodes Hex. now rewrite (Hcpu items nodes Hex).
Qed.

(** C5 at the string "12x": no suffix, not a literal, ValueError. *)
Lemma parse_quantity_error_modes_witness :
  parse_quantity (Some "12x") = Raise ValueError.
Proof.
  destruct parse_quantity_error_modes as (_ & Hiff & _).
  apply Hiff. split; [discriminate | reflexivity].
Defined.

End ParseClaims.

(** ** Claims on the utilization percentages *)

Section UtilizationClaims.

Local Open Scope string_scope.

(** C2: a capacity of 0 never causes a division error.  The division is
    evaluated only under the guard [capacity > 0], where it cannot fail, and
    the expression is 0 otherwise; neither aggregation lets any exception
    out but the ValueError of parse_quantity; a subject whose capacity is 0
    is reported with utilization 0, and a total capacity of 0 gives a
    cluster-wide utilization of 0. *)
Theorem zero_capacity_never_divides :
  (forall u c, Py.gt c (PyInt 0) = false -> utilization u c = Ok (PyInt 0)) /\
  (forall u c, simple u -> simple c -> Py.gt c (PyInt 0) = true ->
               exists q, Py.truediv u c = Ok q) /\
  (forall items nodes e, Cpu.get_cluster_cpu items nodes = Raise e -> e = ValueError) /\
  (forall items nodes e,
      Memory.get_cluster_memory items nodes = Raise e -> e = ValueError) /\
  (forall items nodes r i item capacity,
      Cpu.get_cluster_cpu items nodes = Ok r -> items !! i = Some item ->
      parse_quantity
        (Some (capacity_str (node_capacities nodes) (metadata_name item) "cpu"))
        = Ok capacity ->
      Py.eq capacity (PyInt 0) = true ->
      exists d, Cpu.nodes r !! i = Some d /\ Cpu.utilization_percent d = PyInt 0) /\
  (forall items nodes r i item capacity,
      Memory.get_cluster_memory items nodes = Ok r -> items !! i = Some item ->
      parse_quantity
        (Some (capacity_str (node_capacities nodes) (metadata_name item) "memory"))
        = Ok capacity ->
      Py.eq capacity (PyInt 0) = true ->
      exists d, Memory.nodes r !! i = Some d /\ Memory.utilization_percent d = PyInt 0) /\
  (forall items nodes r capacities total_capacity,
      Cpu.get_cluster_cpu items nodes = Ok r ->
      parse_all (cpu_capacities nodes items) = Ok capacities ->
      sum_from (PyInt 0) capacities = Ok total_capacity ->
      Py.eq total_capacity (PyInt 0) = true ->
      Cpu.cluster_utilization_percent (Cpu.cluster r) = PyInt 0) /\
  (forall items nodes r capacities total_capacity,
      Memory.get_cluster_memory items nodes = Ok r ->
      parse_all (memory_capacities nodes items) = Ok capacities ->
      sum_from (PyInt 0) capacities = Ok total_capacity ->
      Py.eq total_capacity (PyInt 0) = true ->
      Memory.cluster_utilization_percent (Memory.cluster r) = PyInt 0).
Proof.
  split; [exact utilization_guard|]. split.
  { intros u c Hu Hc G. destruct (gt_zero_simple c Hc G) as (f & -> & Hf).
    destruct (truediv_simple u f Hu Hf) as [g Hg]. eauto. }
  split. { intros items nodes e H. now apply get_cluster_cpu_raise in H. }
  split. { intros items nodes e H. now apply get_cluster_memory_raise in H. }
  split.
  { intros items nodes r i item capacity H Hi Hc Hz.
    destruct (cpu_row items nodes r i item H Hi) as (usage & c & v & _ & Hc' & Hv & Hd).
    assert (c = capacity) as -> by congruence.
    apply (utilization_of_zero _ _ _ Hv) in Hz as ->.
    eexists. split; [exact Hd | reflexivity]. }
  split.
  { intros items nodes r i item capacity H Hi Hc Hz.
    destruct (memory_row items nodes r i item H Hi)
      as (usage & c & ug & cg & v & _ & Hc' & _ & _ & Hv & Hd).
    assert (c = capacity) as -> by congruence.
    apply (utilization_of_zero _ _ _ Hv) in Hz as ->.
    eexists. split; [exact Hd | reflexivity]. }
  split.
  { intros items nodes r capacities tc H Hcs Hsum Hz.
    apply get_cluster_cpu_ok in H
      as (us & cs & tu & tc' & u & _ & Hcs' & _ & Hsum' & Hu & -> & _).
    assert (cs = capacities) as -> by congruence.
    assert (tc' = tc) as -> by congruence.
    apply (utilization_of_zero _ _ _ Hu) in Hz as ->. reflexivity. }
  { intros items nodes r capacities tc H Hcs Hsum Hz.
    apply get_cluster_memory_ok in H
      as (us & cs & tu & tc' & ug & cg & u & _ & Hcs' & _ & Hsum' & _ & _ & Hu & -> & _).
    assert (cs = capacities) as -> by congruence.
    assert (tc' = tc) as -> by congruence.
    apply (utilization_of_zero _ _ _ Hu) in Hz as ->. reflexivity. }
Qed.

(** C2 on a node that reports capacity "0" while using 250m. *)
Lemma zero_capacity_never_divides_witness :
  exists r d,
    Cpu.get_cluster_cpu idle_items idle_nodes = Ok r /\
    Cpu.nodes r !! 0%nat = Some d /\ Cpu.utilization_percent d = PyInt 0.
Proof.
  destruct zero_capacity_never_divides as (_ & _ & _ & _ & Hrow & _).
  destruct (Cpu.get_cluster_cpu idle_items idle_nodes) as [r|e] eqn:E;
    [|vm_compute in E; discriminate].
  destruct (Hrow idle_items idle_nodes r 0%nat (metrics_item "n1" "250m" "1Gi")
              (PyFloat F64.zero) E)
    as (d & Hd & Hu); [reflexivity | vm_compute; reflexivity | reflexivity |].
  exists r, d. auto.
Defined.

(** C3: utilization percentages are never clamped.  For every subject with
    capacity > 0, and for the cluster when the total capacity is > 0, the
    reported utilization is [usage / capacity * 100], rounded to 2 decimals
    like every percentage and with no upper bound applied, also when usage
    exceeds capacity: usage 12 of capacity 10 is reported as 120.0. *)
Theorem utilization_not_clamped :
  (forall items nodes r i item,
      Cpu.get_cluster_cpu items nodes = Ok r -> items !! i = Some item ->
      exists usage capacity d,
        parse_quantity (Some (usage_cpu item)) = Ok usage /\
        parse_quantity
          (Some (capacity_str (node_capacities nodes) (metadata_name item) "cpu"))
          = Ok capacity /\
        Cpu.nodes r !! i = Some d /\
        (Py.gt capacity (PyInt 0) = true ->
         exists q p, Py.truediv usage capacity = Ok q /\
                     Py.mul q (PyInt 100) = Ok p /\
                     Cpu.utilization_percent d = Py.round p 2)) /\
  (forall items nodes r i item,
      Memory.get_cluster_memory items nodes = Ok r -> items !! i = Some item ->
      exists usage capacity d,
        parse_quantity (Some (usage_memory item)) = Ok usage /\
        parse_quantity
          (Some (capacity_str (node_capacities nodes) (metadata_name item) "memory"))
          = Ok capacity /\
        Memory.nodes r !! i = Some d /\
        (Py.gt capacity (PyInt 0) = true ->
         exists q p, Py.truediv usage capacity = Ok q /\
                     Py.mul q (PyInt 100) = Ok p /\
                     Memory.utilization_percent d = Py.round p 2)) /\
  (forall items nodes r,
      Cpu.get_cluster_cpu items nodes = Ok r ->
      exists usages capacities total_usage total_capacity,
        parse_all (cpu_usages items) = Ok usages /\
        parse_all (cpu_capacities nodes items) = Ok capacities /\
        sum_from (PyInt 0) usages = Ok total_usage /\
        sum_from (PyInt 0) capacities = Ok total_capacity /\
        (Py.gt total_capacity (PyInt 0) = true ->
         exists q p, Py.truediv total_usage total_capacity = Ok q /\
                     Py.mul q (PyInt 100) = Ok p /\
                     Cpu.cluster_utilization_percent (Cpu.cluster r) = Py.round p 2)) /\
  (forall items nodes r,
      Memory.get_cluster_memory items nodes = Ok r ->
      exists usages capacities total_usage total_capacity,
        parse_all (memory_usages items) = Ok usages /\
        parse_all (memory_capacities nodes items) = Ok capacities /\
        sum_from (PyInt 0) usages = Ok total_usage /\
        sum_from (PyInt 0) capacities = Ok total_capacity /\
        (Py.gt total_capacity (PyInt 0) = true ->
         exists q p, Py.truediv total_usage total_capacity = Ok q /\
                     Py.mul q (PyInt 100) = Ok p /\
                     Memory.cluster_utilization_percent (Memory.cluster r)
                       = Py.round p 2)) /\
  Cpu.get_cluster_cpu over_items over_nodes =
    Ok {| Cpu.cluster :=
            {| Cpu.total_usage_cores := PyFloat (F64.of_Z 12);
               Cpu.total_capacity_cores := PyFloat (F64.of_Z 10);
               Cpu.cluster_utilization_percent := PyFloat (F64.of_Z 120) |};
          Cpu.nodes :=
            [ {| Cpu.node := "n1";
                 Cpu.usage_cores := PyFloat (F64.of_Z 12);
                 Cpu.capacity_cores := PyFloat (F64.of_Z 10);
                 Cpu.utilization_percent := PyFloat (F64.of_Z 120) |} ] |} /\
  Py.gt (PyFloat (F64.of_Z 120)) (PyInt 100) = true.
Proof.
  split.
  { intros items nodes r i item H Hi.
    destruct (cpu_row items nodes r i item H Hi) as (usage & c & v & Hu & Hc & Hv & Hd).
    exists usage, c, (cpu_detail (metadata_name item) usage c v).
    repeat split; auto. intros G.
    destruct (utilization_div _ _ _ Hv G) as (q & Hq & Hp). eauto. }
  split.
  { intros items nodes r i item H Hi.
    destruct (memory_row items nodes r i item H Hi)
      as (usage & c & ug & cg & v & Hu & Hc & _ & _ & Hv & Hd).
    exists usage, c, (memory_detail (metadata_name item) ug cg v).
    repeat split; auto. intros G.
    destruct (utilization_div _ _ _ Hv G) as (q & Hq & Hp). eauto. }
  split.
  { intros items nodes r H.
    apply get_cluster_cpu_ok in H
      as (us & cs & tu & tc & u & Hus & Hcs & Hsu & Hsc & Hu & -> & _).
    exists us, cs, tu, tc. repeat split; auto. intros G.
    destruct (utilization_div _ _ _ Hu G) as (q & Hq & Hp). eauto. }
  split.
  { intros items nodes r H.
    apply get_cluster_memory_ok in H
      as (us & cs & tu & tc & ug & cg & u & Hus & Hcs & Hsu & Hsc & _ & _ & Hu & -> & _).
    exists us, cs, tu, tc. repeat split; auto. intros G.
    destruct (utilization_div _ _ _ Hu G) as (q & Hq & Hp). eauto. }
  split; vm_compute; reflexivity.
Qed.

(** C3 on the memory side: 12 bytes used of 10 is reported as 120.0. *)
Lemma utilization_not_clamped_witness :
  exists r d,
    Memory.get_cluster_memory over_items over_nodes = Ok r /\
    Memory.nodes r !! 0%nat = Some d /\
    Memory.utilization_percent d = PyFloat (F64.of_Z 120).
Proof.
  destruct utilization_not_clamped as (_ & Hrow & _).
  destruct (Memory.get_cluster_memory over_items over_nodes) as [r|e] eqn:E;
    [|vm_compute in E; discriminate].
  destruct (Hrow over_items over_nodes r 0%nat (metrics_item "n1" "12" "12") E eq_refl)
    as (usage & capacity & d & Hu & Hc & Hd & Hgt).
  vm_compute in Hu, Hc. injection Hu as <-. injection Hc as <-.
  destruct Hgt as (q & p & Hq & Hp & Hr); [reflexivity|].
  vm_compute in Hq. injection Hq as <-.
  vm_compute in Hp. injection Hp as <-.
  exists r, d. repeat split; [exact Hd|]. rewrite Hr. vm_compute. reflexivity.
Defined.

End UtilizationClaims.

(** ** Claims on totals, ordering, the empty listing and missing capacities *)

Section AggregationClaims.

Local Open Scope string_scope.

(** C6: the totals are accumulated from the unrounded parsed values.  When
    the loop ends, [total_usage] is the left-to-right sum, started at 0, of
    the parsed usage values and [total_capacity] that of the parsed
    capacities; the report shows them rounded for display only then (memory:
    after conversion to GiB), and its cluster-wide utilization is the
    rounding of [total_usage / total_capacity * 100] when the total capacity
    is > 0 and of 0 otherwise.  With two nodes using 0.0004 cores each, both
    per-node figures display 0.0 and the total displays 0.001. *)
Theorem totals_accumulate_unrounded :
  (forall items nodes r,
      Cpu.get_cluster_cpu items nodes = Ok r ->
      exists st usages capacities u,
        for_each (Cpu.step (node_capacities nodes)) items Cpu.init = Ok st /\
        parse_all (cpu_usages items) = Ok usages /\
        parse_all (cpu_capacities nodes items) = Ok capacities /\
        sum_from (PyInt 0) usages = Ok (Cpu.total_usage st) /\
        sum_from (PyInt 0) capacities = Ok (Cpu.total_capacity st) /\
        (Py.gt (Cpu.total_capacity st) (PyInt 0) = true ->
         exists q, Py.truediv (Cpu.total_usage st) (Cpu.total_capacity st) = Ok q /\
                   Py.mul q (PyInt 100) = Ok u) /\
        (Py.gt (Cpu.total_capacity st) (PyInt 0) = false -> u = PyInt 0) /\
        Cpu.cluster r =
          {| Cpu.total_usage_cores := Py.round (Cpu.total_usage st) 3;
             Cpu.total_capacity_cores := Py.round (Cpu.total_capacity st) 3;
             Cpu.cluster_utilization_percent := Py.round u 2 |}) /\
  (forall items nodes r,
      Memory.get_cluster_memory items nodes = Ok r ->
      exists st usages capacities ug cg u,
        for_each (Memory.step (node_capacities nodes)) items Memory.init = Ok st /\
        parse_all (memory_usages items) = Ok usages /\
        parse_all (memory_capacities nodes items) = Ok capacities /\
        sum_from (PyInt 0) usages = Ok (Memory.total_usage st) /\
        sum_from (PyInt 0) capacities = Ok (Memory.total_capacity st) /\
        Py.truediv (Memory.total_usage st) (PyInt (1024 ^ 3)) = Ok ug /\
        Py.truediv (Memory.total_capacity st) (PyInt (1024 ^ 3)) = Ok cg /\
        (Py.gt (Memory.total_capacity st) (PyInt 0) = true ->
         exists q, Py.truediv (Memory.total_usage st) (Memory.total_capacity st) = Ok q /\
                   Py.mul q (PyInt 100) = Ok u) /\
        (Py.gt (Memory.total_capacity st) (PyInt 0) = false -> u = PyInt 0) /\
        Memory.cluster r =
          {| Memory.total_usage_gi := Py.round ug 2;
             Memory.total_capacity_gi := Py.round cg 2;
             Memory.cluster_utilization_percent := Py.round u 2 |}) /\
  (exists r,
      Cpu.get_cluster_cpu two_items one_node = Ok r /\
      map Cpu.usage_cores (Cpu.nodes r) = [PyFloat F64.zero; PyFloat F64.zero] /\
      Cpu.total_usage_cores (Cpu.cluster r) = PyFloat (F64.of_decimal false 1 (-3))).
Proof.
  split.
  { intros items nodes r H. unfold Cpu.get_cluster_cpu in H.
    apply bind_ok in H as (st & Hloop & H).
    pose proof (cpu_loop_ok _ _ _ _ Hloop)
      as (us & cs & _ & Hus & Hcs & Hsu & Hsc & _).
    unfold Cpu.finish in H. apply bind_ok in H as (u & Hu & H). injection H as <-.
    exists st, us, cs, u. simpl. repeat split; auto.
    - intros G. exact (utilization_div _ _ _ Hu G).
    - intros G. exact (utilization_zero _ _ _ Hu G). }
  split.
  { intros items nodes r H. unfold Memory.get_cluster_memory in H.
    apply bind_ok in H as (st & Hloop & H).
    pose proof (memory_loop_ok _ _ _ _ Hloop)
      as (us & cs & _ & Hus & Hcs & Hsu & Hsc & _).
    unfold Memory.finish in H.
    apply bind_ok in H as (ug & Hug & H).
    apply bind_ok in H as (cg & Hcg & H).
    apply bind_ok in H as (u & Hu & H). injection H as <-.
    exists st, us, cs, ug, cg, u. simpl. repeat split; auto.
    - intros G. exact (utilization_div _ _ _ Hu G).
    - intros G. exact (utilization_zero _ _ _ Hu G). }
  destruct (Cpu.get_cluster_cpu two_items one_node) as [r|e] eqn:E;
    [|vm_compute in E; discriminate].
  vm_compute in E. injection E as <-.
  eexists. split; [reflexivity|]. vm_compute. repeat split.
Qed.

(** C6 on the two-node listing: the total is the sum of the two parsed
    usages, 0.0004 + 0.0004, and is displayed rounded to 0.001. *)
Lemma totals_accumulate_unrounded_witness :
  exists r st,
    Cpu.get_cluster_cpu two_items one_node = Ok r /\
    sum_from (PyInt 0)
      [PyFloat (F64.of_decimal false 4 (-4)); PyFloat (F64.of_decimal false 4 (-4))]
      = Ok (Cpu.total_usage st) /\
    Cpu.total_usage_cores (Cpu.cluster r) = Py.round (Cpu.total_usage st) 3.
Proof.
  destruct totals_accumulate_unrounded as (Hcpu & _).
  destruct (Cpu.get_cluster_cpu two_items one_node) as [r|e] eqn:E;
    [|vm_compute in E; discriminate].
  destruct (Hcpu two_items one_node r E)
    as (st & us & cs & u & _ & Hus & _ & Hsu & _ & _ & _ & Hr).
  vm_compute in Hus. injection Hus as <-.
  exists r, st. split; [reflexivity|]. split; [exact Hsu|]. now rewrite Hr.
Defined.

(** C7: the per-subject list has one record per metrics item, in the order
    of the items; a permutation of the items is aggregated as well and its
    records come out in the permuted order. *)
Theorem output_order_is_input_order (items items' : list NodeMetrics) (nodes : list Node) :
  Permutation items items' ->
  (forall r, Cpu.get_cluster_cpu items nodes = Ok r ->
     map Cpu.node (Cpu.nodes r) = map metadata_name items /\
     length (Cpu.nodes r) = length items /\
     exists r', Cpu.get_cluster_cpu items' nodes = Ok r' /\
                map Cpu.node (Cpu.nodes r') = map metadata_name items') /\
  (forall r, Memory.get_cluster_memory items nodes = Ok r ->
     map Memory.node (Memory.nodes r) = map metadata_name items /\
     length (Memory.nodes r) = length items /\
     exists r', Memory.get_cluster_memory items' nodes = Ok r' /\
                map Memory.node (Memory.nodes r') = map metadata_name items').
Proof.
  intros Hperm. split; intros r H.
  - pose proof (get_cluster_cpu_ok _ _ _ H)
      as (us & cs & _ & _ & _ & Hus & Hcs & _ & _ & _ & _ & Hnames & _).
    split; [exact Hnames|]. split.
    { rewrite <- (length_map Cpu.node), Hnames. apply length_map. }
    destruct (get_cluster_cpu_total items' nodes) as [r' Hr'].
    + eapply Permutation_Forall; [apply Permutation_map, Hperm|].
      apply parse_all_ok_iff. eauto.
    + eapply Permutation_Forall; [apply Permutation_map, Hperm|].
      apply parse_all_ok_iff. eauto.
    + exists r'. split; [exact Hr'|].
      now apply get_cluster_cpu_ok in Hr'
        as (_ & _ & _ & _ & _ & _ & _ & _ & _ & _ & _ & Hn & _).
  - pose proof (get_cluster_memory_ok _ _ _ H)
      as (us & cs & _ & _ & _ & _ & _ & Hus & Hcs & _ & _ & _ & _ & _ & _ & Hnames & _).
    split; [exact Hnames|]. split.
    { rewrite <- (length_map Memory.node), Hnames. apply length_map. }
    destruct (get_cluster_memory_total items' nodes) as [r' Hr'].
    + eapply Permutation_Forall; [apply Permutation_map, Hperm|].
      apply parse_all_ok_iff. eauto.
    + eapply Permutation_Forall; [apply Permutation_map, Hperm|].
      apply parse_all_ok_iff. eauto.
    + exists r'. split; [exact Hr'|].
      now apply get_cluster_memory_ok in Hr'
        as (_ & _ & _ & _ & _ & _ & _ & _ & _ & _ & _ & _ & _ & _ & _ & Hn & _).
Qed.

(** C7 on the two-node listing and its reversal. *)
Lemma output_order_is_input_order_witness :
  exists r r',
    Cpu.get_cluster_cpu two_items one_node = Ok r /\
    map Cpu.node (Cpu.nodes r) = ["n1"; "n2"] /\
    Cpu.get_cluster_cpu (rev two_items) one_node = Ok r' /\
    map Cpu.node (Cpu.nodes r') = ["n2"; "n1"].
Proof.
  destruct (Cpu.get_cluster_cpu two_items one_node) as [r|e] eqn:E;
    [|vm_compute in E; discriminate].
  destruct (output_order_is_input_order two_items (rev two_items) one_node
              (Permutation_rev two_items)) as [Hcpu _].
  destruct (Hcpu r E) as (Hn & _ & r' & Hr' & Hn').
  exists r, r'. auto.
Defined.

(** C8: aggregating an empty metrics listing is not an error; the totals
    and the utilization are 0 and the per-subject list is empty. *)
Theorem empty_listing_reports_zero (nodes : list Node) :
  Cpu.get_cluster_cpu [] nodes =
    Ok {| Cpu.cluster :=
            {| Cpu.total_usage_cores := PyInt 0;
               Cpu.total_capacity_cores := PyInt 0;
               Cpu.cluster_utilization_percent := PyInt 0 |};
          Cpu.nodes := [] |} /\
  Memory.get_cluster_memory [] nodes =
    Ok {| Memory.cluster :=
            {| Memory.total_usage_gi := PyFloat F64.zero;
               Memory.total_capacity_gi := PyFloat F64.zero;
               Memory.cluster_utilization_percent := PyInt 0 |};
          Memory.nodes := [] |} /\
  Py.eq (PyFloat F64.zero) (PyInt 0) = true.
Proof. repeat split. Qed.

End AggregationClaims.

Section MissingCapacity.

Local Open Scope string_scope.

Lemma listed_or_absent (nodes : list Node) (name : string) :
  Exists (fun n => node_name n = name) nodes \/
  Forall (fun n => node_name n <> name) nodes.
Proof.
  induction nodes as [|n nodes [IH|IH]].
  - right. constructor.
  - left. now constructor 2.
  - destruct (String.eqb_spec (node_name n) name) as [E|E].
    + left. now constructor 1.
    + right. now constructor.
Qed.

Lemma parse_zero : parse_quantity (Some "0") = Ok (PyFloat F64.zero).
Proof. reflexivity. Qed.

(** C9: a subject of the metrics listing that has no entry in the capacity
    listing does not make the aggregation fail.  Its capacity string is the
    default "0", which parses to 0.0: the iteration on it succeeds as soon
    as its usage parses and adds 0.0 to the total capacity, the subject is
    reported with capacity 0.0 and utilization 0, and the aggregation
    returns whenever the usages and the capacities of the listed subjects
    parse. *)
Theorem missing_capacity_defaults_to_zero (items : list NodeMetrics) (nodes : list Node) :
  (Forall (fun q => exists v, parse_quantity (Some q) = Ok v) (cpu_usages items) ->
   Forall (fun item =>
             Exists (fun n => node_name n = metadata_name item) nodes ->
             exists v, parse_quantity
                         (Some (capacity_str (node_capacities nodes)
                                  (metadata_name item) "cpu")) = Ok v) items ->
   exists r, Cpu.get_cluster_cpu items nodes = Ok r) /\
  (Forall (fun q => exists v, parse_quantity (Some q) = Ok v) (memory_usages items) ->
   Forall (fun item =>
             Exists (fun n => node_name n = metadata_name item) nodes ->
             exists v, parse_quantity
                         (Some (capacity_str (node_capacities nodes)
                                  (metadata_name item) "memory")) = Ok v) items ->
   exists r, Memory.get_cluster_memory items nodes = Ok r) /\
  (forall i item,
      items !! i = Some item ->
      Forall (fun n => node_name n <> metadata_name item) nodes ->
      capacity_str (node_capacities nodes) (metadata_name item) "cpu" = "0" /\
      capacity_str (node_capacities nodes) (metadata_name item) "memory" = "0" /\
      parse_quantity (Some "0") = Ok (PyFloat F64.zero) /\
      (forall st usage,
          simple (Cpu.total_usage st) -> simple (Cpu.total_capacity st) ->
          parse_quantity (Some (usage_cpu item)) = Ok usage ->
          exists st', Cpu.step (node_capacities nodes) st item = Ok st' /\
                      Py.add (Cpu.total_capacity st) (PyFloat F64.zero)
                        = Ok (Cpu.total_capacity st')) /\
      (forall st usage,
          simple (Memory.total_usage st) -> simple (Memory.total_capacity st) ->
          parse_quantity (Some (usage_memory item)) = Ok usage ->
          exists st', Memory.step (node_capacities nodes) st item = Ok st' /\
                      Py.add (Memory.total_capacity st) (PyFloat F64.zero)
                        = Ok (Memory.total_capacity st')) /\
      (forall r, Cpu.get_cluster_cpu items nodes = Ok r ->
         exists d capacities,
           Cpu.nodes r !! i = Some d /\
           Cpu.capacity_cores d = PyFloat F64.zero /\
           Cpu.utilization_percent d = PyInt 0 /\
           parse_all (cpu_capacities nodes items) = Ok capacities /\
           capacities !! i = Some (PyFloat F64.zero)) /\
      (forall r, Memory.get_cluster_memory items nodes = Ok r ->
         exists d capacities,
           Memory.nodes r !! i = Some d /\
           Memory.capacity_gi d = PyFloat F64.zero /\
           Memory.utilization_percent d = PyInt 0 /\
           parse_all (memory_capacities nodes items) = Ok capacities /\
           capacities !! i = Some (PyFloat F64.zero))).
Proof.
  assert (Hcap : forall key,
    Forall (fun item =>
              Exists (fun n => node_name n = metadata_name item) nodes ->
              exists v, parse_quantity
                          (Some (capacity_str (node_capacities nodes)
                                   (metadata_name item) key)) = Ok v) items ->
    Forall (fun q => exists v, parse_quantity (Some q) = Ok v)
           (map (fun item => capacity_str (node_capacities nodes)
                               (metadata_name item) key) items)).
  { intros key H. rewrite Forall_map. eapply Forall_impl; [exact H|].
    intros item Hitem. simpl.
    destruct (listed_or_absent nodes (metadata_name item)) as [Hl|Ha]; [auto|].
    rewrite capacity_str_absent by assumption. eauto using parse_zero. }
  split. { intros Hu Hc. apply get_cluster_cpu_total; [exact Hu|].
           exact (Hcap "cpu" Hc). }
  split. { intros Hu Hc. apply get_cluster_memory_total; [exact Hu|].
           exact (Hcap "memory" Hc). }
  intros i item Hi Habs.
  pose proof (capacity_str_absent nodes (metadata_name item) "cpu" Habs) as Ecpu.
  pose proof (capacity_str_absent nodes (metadata_name item) "memory" Habs) as Emem.
  split; [exact Ecpu|]. split; [exact Emem|]. split; [exact parse_zero|].
  split.
  { intros st usage Htu Htc Hu.
    destruct (cpu_step_total (node_capacities nodes) st item usage (PyFloat F64.zero)
                Htu Htc Hu) as (st' & Hst & _).
    { rewrite Ecpu. exact parse_zero. }
    exists st'. split; [exact Hst|].
    apply cpu_step_ok in Hst as (u' & c' & _ & _ & Hc' & _ & Hadd & _).
    rewrite Ecpu, parse_zero in Hc'. now injection Hc' as <-. }
  split.
  { intros st usage Htu Htc Hu.
    destruct (memory_step_total (node_capacities nodes) st item usage (PyFloat F64.zero)
                Htu Htc Hu) as (st' & Hst & _).
    { rewrite Emem. exact parse_zero. }
    exists st'. split; [exact Hst|].
    apply memory_step_ok in Hst as (u' & c' & _ & _ & _ & _ & Hc' & _ & Hadd & _).
    rewrite Emem, parse_zero in Hc'. now injection Hc' as <-. }
  split.
  { intros r H.
    destruct (cpu_row items nodes r i item H Hi) as (usage & c & v & _ & Hc & Hv & Hd).
    rewrite Ecpu, parse_zero in Hc. injection Hc as <-.
    apply get_cluster_cpu_ok in H as (_ & cs & _ & _ & _ & _ & Hcs & _).
    exists (cpu_detail (metadata_name item) usage (PyFloat F64.zero) v), cs.
    split; [exact Hd|]. split; [reflexivity|]. split.
    - simpl. now rewrite (utilization_zero _ _ _ Hv eq_refl).
    - split; [exact Hcs|].
      destruct (parse_all_lookup _ _ i _ Hcs
                  (lookup_map (fun item => capacity_str (node_capacities nodes)
                                 (metadata_name item) "cpu") items i item Hi))
        as (c & Hc1 & Hc2).
      rewrite Ecpu, parse_zero in Hc2. now injection Hc2 as <-. }
  { intros r H.
    destruct (memory_row items nodes r i item H Hi)
      as (usage & c & ug & cg & v & _ & Hc & _ & Hcg & Hv & Hd).
    rewrite Emem, parse_zero in Hc. injection Hc as <-.
    vm_compute in Hcg. injection Hcg as <-.
    apply get_cluster_memory_ok in H as (_ & cs & _ & _ & _ & _ & _ & _ & Hcs & _).
    exists (memory_detail (metadata_name item) ug (PyFloat (S754_zero false)) v), cs.
    split; [exact Hd|]. split; [reflexivity|]. split.
    - simpl. now rewrite (utilization_zero _ _ _ Hv eq_refl).
    - split; [exact Hcs|].
      destruct (parse_all_lookup _ _ i _ Hcs
                  (lookup_map (fun item => capacity_str (node_capacities nodes)
                                 (metadata_name item) "memory") items i item Hi))
        as (c & Hc1 & Hc2).
      rewrite Emem, parse_zero in Hc2. now injection Hc2 as <-. }
Qed.

(** C9 on the two-node listing, whose node n2 has no capacity entry. *)
Lemma missing_capacity_defaults_to_zero_witness :
  exists r d,
    Cpu.get_cluster_cpu two_items one_node = Ok r /\
    Cpu.nodes r !! 1%nat = Some d /\
    Cpu.node d = "n2" /\
    Cpu.capacity_cores d = PyFloat F64.zero /\
    Cpu.utilization_percent d = PyInt 0.
Proof.
  destruct (missing_capacity_defaults_to_zero two_items one_node) as (Hok & _ & Hrow).
  destruct Hok as [r Hr].
  { repeat constructor; eexists; vm_compute; reflexivity. }
  { repeat constructor; intros _; eexists; vm_compute; reflexivity. }
  destruct (Hrow 1%nat (metrics_item "n2" "0.0004" "3000000000") eq_refl)
    as (_ & _ & _ & _ & _ & Hcpu & _).
  { repeat constructor. discriminate. }
  destruct (Hcpu r Hr) as (d & cs & Hd & Hc & Hu & _).
  exists r, d. repeat split; auto.
  pose proof Hr as Hr'. vm_compute in Hr'. injection Hr' as <-.
  vm_compute in Hd. now injection Hd as <-.
Defined.

End MissingCapacity.

(** ** float(): the last character of an accepted string *)

Section FloatFacts.

Import PyFloat.

Lemma lstrip_snoc (l : list ascii) (c : ascii) :
  is_space c = false -> lstrip (l ++ [c]) = lstrip l ++ [c].
Proof.
  intros Hc. induction l as [|a l IH]; simpl.
  - now rewrite Hc.
  - destruct (is_space a); [exact IH | reflexivity].
Qed.

Lemma strip_snoc (l : list ascii) (c : ascii) :
  is_space c = false -> strip (l ++ [c]) = lstrip l ++ [c].
Proof.
  intros Hc. unfold strip. rewrite lstrip_snoc by assumption.
  rewrite rev_app_distr. simpl. rewrite Hc. simpl. now rewrite rev_involutive.
Qed.

(** The underscore filter keeps the last character, which is no underscore. *)
Lemma drop_underscores_snoc (b : list ascii) (p c : ascii) (r : list ascii) :
  drop_underscores p (b ++ [c]) = Some r ->
  Ascii.eqb c "_" = false /\ exists r', r = r' ++ [c].
Proof.
  revert p r. induction b as [|a b IH]; intros p r; simpl.
  - destruct (Ascii.eqb c "_") eqn:Ec.
    + destruct (is_digit p); discriminate.
    + destruct (Ascii.eqb p "_" && negb (is_digit c)); [discriminate|].
      simpl. intros [= <-]. split; [reflexivity|]. now exists [].
  - destruct (Ascii.eqb a "_").
    + destruct (is_digit p); [apply IH | discriminate].
    + destruct (Ascii.eqb p "_" && negb (is_digit a)); [discriminate|].
      destruct (drop_underscores a (b ++ [c])) as [r0|] eqn:E; [|discriminate].
      simpl. intros [= <-]. destruct (IH a r0 E) as [Hc [r' ->]].
      split; [exact Hc|]. now exists (a :: r').
Qed.

(** Without a digit in the output there was no underscore in the input. *)
Lemma drop_underscores_no_digit (b : list ascii) (p : ascii) (r : list ascii) :
  drop_underscores p b = Some r ->
  is_digit p = false -> forallb (fun c => negb (is_digit c)) r = true ->
  b = r.
Proof.
  revert p r. induction b as [|a b IH]; intros p r; simpl.
  - destruct (Ascii.eqb p "_"); [discriminate|]. now intros [= <-].
  - destruct (Ascii.eqb a "_").
    + intros H Hp. rewrite Hp in H. discriminate.
    + destruct (Ascii.eqb p "_" && negb (is_digit a)); [discriminate|].
      destruct (drop_underscores a b) as [r0|] eqn:E; [|discriminate].
      simpl. intros [= <-] _ Hr. simpl in Hr.
      apply andb_true_iff in Hr as [Ha Hr]. apply negb_true_iff in Ha.
      f_equal. exact (IH a r0 E Ha Hr).
Qed.

Lemma span_digits_spec (l ds r : list ascii) :
  span_digits l = (ds, r) ->
  l = ds ++ r /\ Forall (fun c => is_digit c = true) ds.
Proof.
  revert ds r. induction l as [|c l IH]; intros ds r; simpl.
  - intros [= <- <-]. split; [reflexivity | constructor].
  - destruct (is_digit c) eqn:Hc.
    + destruct (span_digits l) as [ds0 r0]. intros [= <- <-].
      destruct (IH ds0 r0 eq_refl) as [-> Hds]. split; [reflexivity|].
      now constructor.
    + intros [= <- <-]. split; [reflexivity | constructor].
Qed.

Lemma ends_in_app (P : ascii -> Prop) (a b : list ascii) :
  ends_in P b -> ends_in P (a ++ b).
Proof. intros (l' & c & -> & Hc). exists (a ++ l'), c. now rewrite app_assoc. Qed.

Lemma ends_in_cons (P : ascii -> Prop) (a : ascii) (b : list ascii) :
  ends_in P b -> ends_in P (a :: b).
Proof. apply (ends_in_app P [a]). Qed.

Lemma ends_in_snoc (P : ascii -> Prop) (l : list ascii) (c : ascii) :
  ends_in P (l ++ [c]) -> P c.
Proof.
  intros (l' & c' & E & Hc). apply app_inj_tail in E as [_ ->]. exact Hc.
Qed.

Lemma ends_in_Forall (P : ascii -> Prop) (l : list ascii) :
  Forall P l -> l <> [] -> ends_in P l.
Proof.
  intros H Hne. destruct (exists_last Hne) as (l' & c & ->).
  exists l', c. split; [reflexivity|].
  apply Forall_app in H as [_ H]. now apply Forall_inv in H.
Qed.

Lemma split_sign_spec (l : list ascii) (s : bool) (r : list ascii) :
  split_sign l = (s, r) -> l = r \/ exists c, l = c :: r.
Proof.
  unfold split_sign. destruct l as [|c l]; [intros [= <- <-]; now left|].
  destruct (Ascii.eqb c "-"); [intros [= <- <-]; eauto|].
  destruct (Ascii.eqb c "+"); intros [= <- <-]; eauto.
Qed.

Lemma ends_in_unsigned (P : ascii -> Prop) (l : list ascii) (s : bool) (r : list ascii) :
  split_sign l = (s, r) -> ends_in P r -> ends_in P l.
Proof.
  intros H Hr. apply split_sign_spec in H as [-> | [c ->]];
    [exact Hr | now apply ends_in_cons].
Qed.

(** A decimal literal ends with a digit or with the decimal point. *)
Lemma parse_decimal_last (l : list ascii) (f : spec_float) :
  parse_decimal l = Some f -> ends_in digit_or_dot l.
Proof.
  unfold parse_decimal.
  destruct (split_sign l) as [s l1] eqn:Hs.
  destruct (span_digits l1) as [ip l2] eqn:Hip.
  apply span_digits_spec in Hip as [-> Hipd].
  intros H. apply (ends_in_unsigned _ _ _ _ Hs). clear Hs.
  assert (Hdig : forall ds, Forall (fun c => is_digit c = true) ds -> ds <> [] ->
                            ends_in digit_or_dot ds).
  { intros ds Hds Hne. apply ends_in_Forall; [|exact Hne].
    eapply Forall_impl; [exact Hds|]. intros c Hc. now left. }
  assert (Hexp' : forall c r m fl,
    (if is_e c then
       let '(es, r1) := split_sign r in
       let '(ed, r2) := span_digits r1 in
       match ed, r2 with
       | _ :: _, [] =>
           Some (F64.of_decimal s m ((if es then - Z_of_digits ed else Z_of_digits ed) - fl))
       | _, _ => None
       end
     else None) = Some f -> ends_in digit_or_dot (c :: r)).
  { intros c r m fl E. destruct (is_e c); [|discriminate].
    destruct (split_sign r) as [es r1] eqn:Hes.
    destruct (span_digits r1) as [ed r2] eqn:Hed.
    apply span_digits_spec in Hed as [-> Hedd].
    destruct ed as [|d ed]; [discriminate|]. destruct r2; [|discriminate].
    apply ends_in_cons, (ends_in_unsigned _ _ _ _ Hes).
    rewrite app_nil_r. now apply Hdig. }
  destruct l2 as [|c l2].
  - rewrite app_nil_r in *. destruct ip as [|d ip]; [discriminate|].
    now apply Hdig.
  - destruct (Ascii.eqb_spec c ".") as [->|Hc].
    + destruct (span_digits l2) as [fp l3] eqn:Hfp.
      apply span_digits_spec in Hfp as [-> Hfpd].
      destruct (ip ++ fp) as [|d ds] eqn:Hds; [discriminate|].
      apply ends_in_app. destruct l3 as [|c3 l3].
      * rewrite app_nil_r. destruct fp as [|d0 fp].
        -- exists [], "."%char. split; [reflexivity | now right].
        -- now apply ends_in_cons, Hdig.
      * apply ends_in_cons, ends_in_app. eapply Hexp'; eassumption.
    + destruct (ip ++ []) as [|d ds] eqn:Hds; [discriminate|].
      apply ends_in_app. eapply Hexp'; eassumption.
Qed.


Lemma split_sign_sign (l : list ascii) (s : bool) (r : list ascii) :
  split_sign l = (s, r) -> l = r \/ l = "-"%char :: r \/ l = "+"%char :: r.
Proof.
  unfold split_sign. destruct l as [|c l]; [intros [= <- <-]; now left|].
  destruct (Ascii.eqb_spec c "-") as [->|_]; [intros [= <- <-]; auto|].
  destruct (Ascii.eqb_spec c "+") as [->|_]; intros [= <- <-]; auto.
Qed.

Lemma parse_inf_nan_inv (l : list ascii) (f : spec_float) :
  parse_inf_nan l = Some f ->
  exists s w, split_sign l = (s, w) /\
    (map lower w = Str.chars "inf" \/ map lower w = Str.chars "infinity" \/
     map lower w = Str.chars "nan").
Proof.
  unfold parse_inf_nan. destruct (split_sign l) as [s w]. intros H.
  exists s, w. split; [reflexivity|].
  destruct (String.eqb_spec (Str.of_chars (map lower w)) "inf") as [E|_].
  { left. rewrite <- E. now rewrite chars_of_chars. }
  destruct (String.eqb_spec (Str.of_chars (map lower w)) "infinity") as [E|_].
  { right; left. rewrite <- E. now rewrite chars_of_chars. }
  destruct (String.eqb_spec (Str.of_chars (map lower w)) "nan") as [E|_].
  { right; right. rewrite <- E. now rewrite chars_of_chars. }
  discriminate.
Qed.

Lemma map_lower_snoc (w : list ascii) (k : list ascii) (x : ascii) :
  map lower w = k ++ [x] ->
  exists w0 c, w = w0 ++ [c] /\ map lower w0 = k /\ lower c = x.
Proof.
  intros H. destruct (exists_last (l := w)) as (w0 & c & ->).
  { intros ->. now destruct k. }
  rewrite map_app in H. simpl in H. apply app_inj_tail in H as [H1 H2]. eauto.
Qed.

(** [inf], [infinity] and [nan] end with f, y or n, in either case. *)
Lemma parse_inf_nan_last (l : list ascii) (f : spec_float) :
  parse_inf_nan l = Some f -> ends_in inf_nan_last l.
Proof.
  intros H. apply parse_inf_nan_inv in H as (s & w & Hs & H).
  apply (ends_in_unsigned _ _ _ _ Hs). unfold inf_nan_last.
  destruct H as [H|[H|H]].
  - apply (map_lower_snoc w (Str.chars "in") "f") in H as (w0 & c & -> & _ & Hc).
    exists w0, c. auto.
  - apply (map_lower_snoc w (Str.chars "infinit") "y") in H as (w0 & c & -> & _ & Hc).
    exists w0, c. auto.
  - apply (map_lower_snoc w (Str.chars "na") "n") in H as (w0 & c & -> & _ & Hc).
    exists w0, c. auto.
Qed.

(** An accepted string ends with whitespace, a digit, the decimal point or
    the last letter of inf, infinity or nan. *)
Lemma of_chars_last (l : list ascii) (c : ascii) (f : spec_float) :
  of_chars (l ++ [c]) = Some f -> is_space c = false ->
  digit_or_dot c \/ inf_nan_last c.
Proof.
  unfold of_chars. intros H Hc. rewrite strip_snoc in H by assumption.
  destruct (drop_underscores "000" (lstrip l ++ [c])) as [r|] eqn:E; [|discriminate].
  apply drop_underscores_snoc in E as [_ [r' ->]].
  destruct (parse_decimal (r' ++ [c])) as [g|] eqn:D.
  - left. apply parse_decimal_last in D. now apply ends_in_snoc in D.
  - right. apply parse_inf_nan_last in H. now apply ends_in_snoc in H.
Qed.

Lemma float_rejects_last (s : string) (c : ascii) :
  is_space c = false -> is_digit c = false -> c <> "."%char ->
  lower c <> "f"%char -> lower c <> "y"%char -> lower c <> "n"%char ->
  PyFloat.float (s ++ String c "") = Raise ValueError.
Proof.
  intros Hsp Hd Hdot Hf Hy Hn. unfold PyFloat.float. rewrite chars_app.
  change (Str.chars (String c "")) with [c].
  destruct (of_chars (Str.chars s ++ [c])) as [f|] eqn:E; [|reflexivity].
  destruct (of_chars_last _ _ _ E Hsp) as [[H|H]|[H|[H|H]]]; congruence.
Qed.

Lemma lower_n (c : ascii) : lower c = "n"%char -> c = "n"%char \/ c = "N"%char.
Proof.
  destruct c as [[] [] [] [] [] [] [] []]; vm_compute; intros H;
    solve [discriminate | auto].
Qed.

Lemma lower_a (c : ascii) : lower c = "a"%char -> c = "a"%char \/ c = "A"%char.
Proof.
  destruct c as [[] [] [] [] [] [] [] []]; vm_compute; intros H;
    solve [discriminate | auto].
Qed.

(** The one accepted string that ends with a capital N is "naN" (signed or
    not, in either case): what precedes the N is not accepted. *)
Lemma of_chars_before_N (l : list ascii) (f : spec_float) :
  of_chars (l ++ ["N"%char]) = Some f -> of_chars l = None.
Proof.
  intros H. unfold of_chars in H. rewrite strip_snoc in H by reflexivity.
  destruct (drop_underscores "000" (lstrip l ++ ["N"%char])) as [r|] eqn:E;
    [|discriminate].
  destruct (drop_underscores_snoc _ _ _ _ E) as [_ [r' ->]].
  destruct (parse_decimal (r' ++ ["N"%char])) as [g|] eqn:D.
  { apply parse_decimal_last, ends_in_snoc in D. destruct D; discriminate. }
  apply parse_inf_nan_inv in H as (s & w & Hs & H).
  assert (Hw : map lower w = Str.chars "nan" /\ exists w0, w = w0 ++ ["N"%char]).
  { assert (Hne : w <> []) by (intros ->; destruct H as [H|[H|H]]; discriminate).
    destruct (exists_last Hne) as (w0 & c & ->).
    assert (c = "N"%char) as ->.
    { apply split_sign_sign in Hs as [Hs|[Hs|Hs]].
      - now apply app_inj_tail in Hs as [_ <-].
      - rewrite (app_comm_cons w0 [c] "-"%char) in Hs. now apply app_inj_tail in Hs as [_ <-].
      - rewrite (app_comm_cons w0 [c] "+"%char) in Hs. now apply app_inj_tail in Hs as [_ <-]. }
    split; [|eauto].
    destruct H as [H|[H|H]]; [exfalso | exfalso | exact H]; rewrite map_app in H.
    - change (Str.chars "inf") with (Str.chars "in" ++ ["f"%char]) in H.
      apply app_inj_tail in H as [_ H]. vm_compute in H. discriminate.
    - change (Str.chars "infinity") with (Str.chars "infinit" ++ ["y"%char]) in H.
      apply app_inj_tail in H as [_ H]. vm_compute in H. discriminate. }
  destruct Hw as [Hnan [w0 ->]]. clear H.
  rewrite map_app in Hnan.
  change (Str.chars "nan") with (Str.chars "na" ++ ["n"%char]) in Hnan.
  apply app_inj_tail in Hnan as [Hna _].
  destruct w0 as [|x [|y [|z w0]]]; try discriminate.
  injection Hna as Hx Hy. apply lower_n in Hx. apply lower_a in Hy.
  assert (Hl : lstrip l = r').
  { assert (Hb : lstrip l ++ ["N"%char] = r' ++ ["N"%char]).
    { apply (drop_underscores_no_digit _ _ _ E); [reflexivity|].
      apply split_sign_sign in Hs as [Hs|[Hs|Hs]]; rewrite Hs;
        destruct Hx as [-> | ->], Hy as [-> | ->]; reflexivity. }
    now apply app_inj_tail in Hb as [Hb _]. }
  assert (Hr' : In r' (flat_map (fun sg => map (app sg)
                  (map Str.chars ["na"; "nA"; "Na"; "NA"]%string))
                  [[]; ["-"%char]; ["+"%char]])).
  { apply split_sign_sign in Hs as [Hs|[Hs|Hs]];
      [change ([x; y] ++ ["N"%char]) with ([] ++ [x; y] ++ ["N"%char]) in Hs | |];
      [ | rewrite (app_comm_cons [x; y] ["N"%char] "-"%char) in Hs
        | rewrite (app_comm_cons [x; y] ["N"%char] "+"%char) in Hs ];
      apply app_inj_tail in Hs as [-> _];
      destruct Hx as [-> | ->], Hy as [-> | ->]; simpl; tauto. }
  unfold of_chars, strip. rewrite Hl.
  simpl in Hr'.
  repeat (destruct Hr' as [<- | Hr']; [vm_compute; reflexivity|]).
  destruct Hr'.
Qed.

Lemma float_rejects_N (s : string) (x : pyval) :
  PyFloat.float s = Ok x -> PyFloat.float (s ++ "N") = Raise ValueError.
Proof.
  unfold PyFloat.float. rewrite chars_app. change (Str.chars "N") with ["N"%char].
  destruct (of_chars (Str.chars s ++ ["N"%char])) as [f|] eqn:E; [|reflexivity].
  apply of_chars_before_N in E. rewrite E. discriminate.
Qed.

End FloatFacts.

(** ** Claim on letter case *)

Section CaseClaims.

Local Open Scope string_scope.

Lemma miscased_suffixes_eq :
  miscased_suffixes =
  [ "N"; "ki"; "kI"; "KI"; "mi"; "mI"; "MI"; "gi"; "gI"; "GI"; "ti"; "tI"; "TI";
    "k"; "g"; "t" ].
Proof. reflexivity. Qed.

Lemma snoc_two (s : string) (a b : ascii) :
  s ++ String a (String b "") = (s ++ String a "") ++ String b "".
Proof. now rewrite append_assoc. Qed.

Ltac no_suffix :=
  unfold known_suffixes, units; cbn [map fst forallb];
  unfold Str.endswith; rewrite !chars_app, !rev_app_distr; reflexivity.

Ltac rejects_last :=
  apply float_rejects_last; first [reflexivity | discriminate].

(** C10: suffix matching is case-sensitive.  A numeric string followed by
    a suffix that differs from m, n, Ki, Mi, Gi, Ti, K, M, G or T in letter
    case only (and is none of them) triggers no suffix test, so no
    multiplier is applied; the whole string goes to float, which rejects
    it with ValueError. *)
Theorem suffix_match_is_case_sensitive (s v : string) :
  In v miscased_suffixes ->
  (exists x, PyFloat.float s = Ok x) ->
  forallb (fun suffix => negb (Str.endswith (s ++ v) suffix)) known_suffixes = true /\
  parse_quantity (Some (s ++ v)) = PyFloat.float (s ++ v) /\
  parse_quantity (Some (s ++ v)) = Raise ValueError.
Proof.
  intros Hin [x Hx]. rewrite miscased_suffixes_eq in Hin.
  assert (Hnone : forallb (fun suffix => negb (Str.endswith (s ++ v) suffix))
                    known_suffixes = true).
  { simpl in Hin.
    repeat (destruct Hin as [<- | Hin]; [no_suffix|]). destruct Hin. }
  assert (Hbare : parse_quantity (Some (s ++ v)) = PyFloat.float (s ++ v)).
  { apply parse_quantity_bare; [|exact Hnone].
    apply String.eqb_neq, nonempty_app. intros ->. simpl in Hin. intuition discriminate. }
  split; [exact Hnone|]. split; [exact Hbare|]. rewrite Hbare.
  simpl in Hin.
  destruct Hin as [<- | Hin]; [exact (float_rejects_N s x Hx)|].
  repeat (destruct Hin as [<- | Hin]; [try rewrite snoc_two; rejects_last|]).
  destruct Hin.
Qed.

(** C10 at "5ki", "5KI", "5k" and "5N". *)
Lemma suffix_match_is_case_sensitive_witness :
  parse_quantity (Some "5ki") = Raise ValueError /\
  parse_quantity (Some "5KI") = Raise ValueError /\
  parse_quantity (Some "5k") = Raise ValueError /\
  parse_quantity (Some "5N") = Raise ValueError.
Proof.
  assert (H5 : exists x, PyFloat.float "5" = Ok x) by (eexists; reflexivity).
  split; [|split; [|split]].
  - apply (suffix_match_is_case_sensitive "5" "ki"); [simpl; tauto | exact H5].
  - apply (suffix_match_is_case_sensitive "5" "KI"); [simpl; tauto | exact H5].
  - apply (suffix_match_is_case_sensitive "5" "k"); [simpl; tauto | exact H5].
  - apply (suffix_match_is_case_sensitive "5" "N"); [simpl; tauto | exact H5].
Defined.

End CaseClaims.

(** ** The pod loop *)

(** What one iteration of the container loop did, when it returned. *)
Lemma container_step_ok (st st' : Pods.state) (c : ContainerMetrics) :
  Pods.container_step st c = Ok st' ->
  exists cpu mem mi,
    parse_quantity (Some (container_cpu c)) = Ok cpu /\
    parse_quantity (Some (container_memory c)) = Ok mem /\
    Py.add (Pods.total_cpu st) cpu = Ok (Pods.total_cpu st') /\
    Py.add (Pods.total_mem st) mem = Ok (Pods.total_mem st') /\
    Py.truediv mem (PyInt (1024 ^ 2)) = Ok mi /\
    Pods.containers_metrics st' =
      Pods.containers_metrics st ++
      [ {| Pods.name := container_name c;
           Pods.cpu_cores := Py.round cpu 3;
           Pods.memory_mi := Py.round mi 2 |} ].
Proof.
  unfold Pods.container_step. intros H.
  apply bind_ok in H as (cpu & Hcpu & H).
  apply bind_ok in H as (mem & Hmem & H).
  apply bind_ok in H as (tc & Htc & H).
  apply bind_ok in H as (tm & Htm & H).
  apply bind_ok in H as (mi & Hmi & H).
  injection H as <-. exists cpu, mem, mi. simpl. auto 10.
Qed.

(** The container loop, when it returned. *)
Lemma container_loop_ok (cs : list ContainerMetrics) (st st' : Pods.state) :
  for_each Pods.container_step cs st = Ok st' ->
  exists cpus mems ds,
    parse_all (map container_cpu cs) = Ok cpus /\
    parse_all (map container_memory cs) = Ok mems /\
    sum_from (Pods.total_cpu st) cpus = Ok (Pods.total_cpu st') /\
    sum_from (Pods.total_mem st) mems = Ok (Pods.total_mem st') /\
    Pods.containers_metrics st' = Pods.containers_metrics st ++ ds /\
    (forall i c cpu mem,
        cs !! i = Some c -> cpus !! i = Some cpu -> mems !! i = Some mem ->
        exists mi, Py.truediv mem (PyInt (1024 ^ 2)) = Ok mi /\
                   ds !! i = Some {| Pods.name := container_name c;
                                     Pods.cpu_cores := Py.round cpu 3;
                                     Pods.memory_mi := Py.round mi 2 |}).
Proof.
  revert st. induction cs as [|c cs IH]; intros st H; simpl in H.
  - injection H as <-. exists [], [], []. simpl.
    rewrite app_nil_r. repeat split; auto. intros i ? ? ? Hi. discriminate.
  - apply bind_ok in H as (st1 & Hstep & H).
    apply container_step_ok in Hstep
      as (cpu & mem & mi & Hcpu & Hmem & Htc & Htm & Hmi & Hd).
    apply IH in H as (cpus & mems & ds & Hcs & Hms & Hsc & Hsm & Hds & Hall).
    eexists (cpu :: cpus), (mem :: mems), (_ :: ds).
    simpl. rewrite Hcpu, Hmem, Hcs, Hms. cbn [bind].
    unfold sum_from in *. simpl. rewrite Htc, Htm. cbn [bind].
    repeat split; auto.
    + rewrite Hds, Hd, <- app_assoc. reflexivity.
    + intros [|i] c' cpu' mem' Hi Hx Hy; simpl in *.
      * injection Hi as <-. injection Hx as <-. injection Hy as <-. eauto.
      * eapply Hall; eauto.
Qed.

(** The record appended for one pod. *)
Lemma pod_step_ok (acc acc' : list Pods.pod_detail) (item : PodMetrics) :
  Pods.pod_step acc item = Ok acc' ->
  exists cpus mems total_cpu total_mem mi d,
    parse_all (map container_cpu (pod_containers item)) = Ok cpus /\
    parse_all (map container_memory (pod_containers item)) = Ok mems /\
    sum_from (PyInt 0) cpus = Ok total_cpu /\
    sum_from (PyInt 0) mems = Ok total_mem /\
    Py.truediv total_mem (PyInt (1024 ^ 2)) = Ok mi /\
    acc' = acc ++ [d] /\
    Pods.total_cpu_cores d = Py.round total_cpu 3 /\
    Pods.total_memory_mi d = Py.round mi 2 /\
    (forall i c cpu mem,
        pod_containers item !! i = Some c -> cpus !! i = Some cpu ->
        mems !! i = Some mem ->
        exists cmi, Py.truediv mem (PyInt (1024 ^ 2)) = Ok cmi /\
                    Pods.containers d !! i =
                      Some {| Pods.name := container_name c;
                              Pods.cpu_cores := Py.round cpu 3;
                              Pods.memory_mi := Py.round cmi 2 |}).
Proof.
  unfold Pods.pod_step. intros H.
  apply bind_ok in H as (st & Hloop & H).
  apply bind_ok in H as (mi & Hmi & H). injection H as <-.
  apply container_loop_ok in Hloop as (cpus & mems & ds & Hcs & Hms & Hsc & Hsm & Hds & Hall).
  simpl in Hds. subst ds.
  exists cpus, mems, (Pods.total_cpu st), (Pods.total_mem st), mi.
  eexists. repeat split; eauto.
Qed.
(** ** Claim on units and rounding *)

Section RoundingClaims.

Local Open Scope string_scope.

(** C4, as the code has it: the memory aggregation reports usage and
    capacity in gibibytes, [bytes / 1024^3] rounded to 2 decimals, per node
    and for the cluster, and its cluster dict has exactly the three keys
    total_usage_gi, total_capacity_gi and utilization_percent; percentages
    are rounded to 2 decimals and core figures to 3; the pod aggregation
    reports memory in mebibytes, [bytes / 1024^2] rounded to 2 decimals, and
    cores rounded to 3.  A usage of 2 * 1024^3 bytes is reported as
    usage_gi = 2.0. *)
Theorem memory_reported_in_gibibytes :
  (forall items nodes r,
      Memory.get_cluster_memory items nodes = Ok r ->
      exists usages capacities total_usage total_capacity ug cg u,
        parse_all (memory_usages items) = Ok usages /\
        parse_all (memory_capacities nodes items) = Ok capacities /\
        sum_from (PyInt 0) usages = Ok total_usage /\
        sum_from (PyInt 0) capacities = Ok total_capacity /\
        Py.truediv total_usage (PyInt (1024 ^ 3)) = Ok ug /\
        Py.truediv total_capacity (PyInt (1024 ^ 3)) = Ok cg /\
        utilization total_usage total_capacity = Ok u /\
        Memory.cluster_items (Memory.cluster r) =
          [ ("total_usage_gi", Py.round ug 2);
            ("total_capacity_gi", Py.round cg 2);
            ("utilization_percent", Py.round u 2) ]) /\
  (forall items nodes r i item,
      Memory.get_cluster_memory items nodes = Ok r -> items !! i = Some item ->
      exists usage capacity ug cg u,
        parse_quantity (Some (usage_memory item)) = Ok usage /\
        parse_quantity
          (Some (capacity_str (node_capacities nodes) (metadata_name item) "memory"))
          = Ok capacity /\
        Py.truediv usage (PyInt (1024 ^ 3)) = Ok ug /\
        Py.truediv capacity (PyInt (1024 ^ 3)) = Ok cg /\
        utilization usage capacity = Ok u /\
        Memory.nodes r !! i =
          Some {| Memory.node := metadata_name item;
                  Memory.usage_gi := Py.round ug 2;
                  Memory.capacity_gi := Py.round cg 2;
                  Memory.utilization_percent := Py.round u 2 |}) /\
  (forall items nodes r,
      Cpu.get_cluster_cpu items nodes = Ok r ->
      exists usages capacities total_usage total_capacity u,
        parse_all (cpu_usages items) = Ok usages /\
        parse_all (cpu_capacities nodes items) = Ok capacities /\
        sum_from (PyInt 0) usages = Ok total_usage /\
        sum_from (PyInt 0) capacities = Ok total_capacity /\
        utilization total_usage total_capacity = Ok u /\
        Cpu.cluster r =
          {| Cpu.total_usage_cores := Py.round total_usage 3;
             Cpu.total_capacity_cores := Py.round total_capacity 3;
             Cpu.cluster_utilization_percent := Py.round u 2 |}) /\
  (forall items nodes r i item,
      Cpu.get_cluster_cpu items nodes = Ok r -> items !! i = Some item ->
      exists usage capacity u,
        parse_quantity (Some (usage_cpu item)) = Ok usage /\
        parse_quantity
          (Some (capacity_str (node_capacities nodes) (metadata_name item) "cpu"))
          = Ok capacity /\
        utilization usage capacity = Ok u /\
        Cpu.nodes r !! i =
          Some {| Cpu.node := metadata_name item;
                  Cpu.usage_cores := Py.round usage 3;
                  Cpu.capacity_cores := Py.round capacity 3;
                  Cpu.utilization_percent := Py.round u 2 |}) /\
  (forall acc acc' item,
      Pods.pod_step acc item = Ok acc' ->
      exists mems total_mem mi d,
        parse_all (map container_memory (pod_containers item)) = Ok mems /\
        sum_from (PyInt 0) mems = Ok total_mem /\
        Py.truediv total_mem (PyInt (1024 ^ 2)) = Ok mi /\
        acc' = (acc ++ [d])%list /\
        Pods.total_memory_mi d = Py.round mi 2) /\
  Pods.get_pod_metrics one_pod =
    Ok [ {| Pods.pod := "p1"; Pods.namespace := "default";
            Pods.total_cpu_cores := PyFloat (F64.of_decimal false 25 (-2));
            Pods.total_memory_mi := PyFloat (F64.of_Z 2048);
            Pods.containers :=
              [ {| Pods.name := "c1";
                   Pods.cpu_cores := PyFloat (F64.of_decimal false 25 (-2));
                   Pods.memory_mi := PyFloat (F64.of_Z 2048) |} ] |} ] /\
  (exists r,
      Memory.get_cluster_memory gib_items one_node = Ok r /\
      parse_quantity (Some "2147483648") = Ok (PyFloat (F64.of_Z (2 * 1024 ^ 3))) /\
      map Memory.usage_gi (Memory.nodes r) = [PyFloat (F64.of_Z 2)] /\
      Memory.cluster_items (Memory.cluster r) =
        [ ("total_usage_gi", PyFloat (F64.of_Z 2));
          ("total_capacity_gi", PyFloat (F64.of_Z 4));
          ("utilization_percent", PyFloat (F64.of_Z 50)) ]).
Proof.
  split.
  { intros items nodes r H.
    apply get_cluster_memory_ok in H
      as (us & cs & tu & tc & ug & cg & u & Hus & Hcs & Hsu & Hsc & Hug & Hcg & Hu & Hr & _).
    exists us, cs, tu, tc, ug, cg, u. unfold Memory.cluster_items. rewrite Hr.
    repeat split; auto. }
  split.
  { intros items nodes r i item H Hi.
    destruct (memory_row items nodes r i item H Hi)
      as (usage & c & ug & cg & v & Hu & Hc & Hug & Hcg & Hv & Hd).
    exists usage, c, ug, cg, v. repeat split; auto. }
  split.
  { intros items nodes r H.
    apply get_cluster_cpu_ok in H
      as (us & cs & tu & tc & u & Hus & Hcs & Hsu & Hsc & Hu & Hr & _).
    exists us, cs, tu, tc, u. repeat split; auto. }
  split.
  { intros items nodes r i item H Hi.
    destruct (cpu_row items nodes r i item H Hi) as (usage & c & v & Hu & Hc & Hv & Hd).
    exists usage, c, v. repeat split; auto. }
  split.
  { intros acc acc' item H.
    apply pod_step_ok in H
      as (cpus & mems & tcpu & tmem & mi & d & _ & Hms & _ & Hsm & Hmi & -> & _ & Hd & _).
    exists mems, tmem, mi, d. repeat split; auto. }
  split; [vm_compute; reflexivity|].
  destruct (Memory.get_cluster_memory gib_items one_node) as [r|e] eqn:E;
    [|vm_compute in E; discriminate].
  vm_compute in E. injection E as <-.
  eexists. split; [reflexivity|]. vm_compute. repeat split.
Qed.

(** The memory report at the 2 GiB listing. *)
Lemma memory_reported_in_gibibytes_witness :
  exists r d,
    Memory.get_cluster_memory gib_items one_node = Ok r /\
    Memory.nodes r !! 0%nat = Some d /\
    Memory.usage_gi d = PyFloat (F64.of_Z 2).
Proof.
  destruct memory_reported_in_gibibytes as (_ & Hrow & _).
  destruct (Memory.get_cluster_memory gib_items one_node) as [r|e] eqn:E;
    [|vm_compute in E; discriminate].
  destruct (Hrow gib_items one_node r 0%nat (metrics_item "n1" "1" "2147483648") E eq_refl)
    as (usage & capacity & ug & cg & u & Hu & _ & Hug & _ & _ & Hd).
  vm_compute in Hu. injection Hu as <-.
  vm_compute in Hug. injection Hug as <-.
  eexists r, _. split; [reflexivity|]. split; [exact Hd|]. reflexivity.
Defined.

(** C4 as stated fails: the raw byte totals are not part of the report.
    On the two-node listing the totals are 5147483648 bytes used of
    4294967296, and no value of the cluster dict equals either; and two
    listings that differ by one byte of usage give the same report. *)
Lemma raw_byte_totals_not_reported :
  (exists r,
      Memory.get_cluster_memory two_items one_node = Ok r /\
      (let* usages := parse_all (memory_usages two_items) in
       sum_from (PyInt 0) usages) = Ok (PyFloat (F64.of_Z 5147483648)) /\
      (let* capacities := parse_all (memory_capacities one_node two_items) in
       sum_from (PyInt 0) capacities) = Ok (PyFloat (F64.of_Z 4294967296)) /\
      map fst (Memory.cluster_items (Memory.cluster r)) =
        ["total_usage_gi"; "total_capacity_gi"; "utilization_percent"] /\
      existsb (fun kv => Py.eq (snd kv) (PyInt 5147483648))
              (Memory.cluster_items (Memory.cluster r)) = false /\
      existsb (fun kv => Py.eq (snd kv) (PyInt 4294967296))
              (Memory.cluster_items (Memory.cluster r)) = false) /\
  parse_all (memory_usages gib_items) = Ok [PyFloat (F64.of_Z 2147483648)] /\
  parse_all (memory_usages gib_items') = Ok [PyFloat (F64.of_Z 2147483649)] /\
  Memory.get_cluster_memory gib_items one_node =
    Memory.get_cluster_memory gib_items' one_node.
Proof.
  split; [|vm_compute; repeat split].
  destruct (Memory.get_cluster_memory two_items one_node) as [r|e] eqn:E;
    [|vm_compute in E; discriminate].
  vm_compute in E. injection E as <-.
  eexists. split; [reflexivity|]. vm_compute. repeat split.
Qed.

End RoundingClaims.

(** * Properties of the rest of the servers *)

(** ** Dict comprehensions: the last entry of a key wins *)

Section Comprehension.

Context {A V : Type} (key : A -> string) (val : A -> V).

Lemma comprehension_lookup (l : list A) (k : string) :
  fold_left (fun d a => <[key a := val a]> d) l (∅ : gmap string V) !! k
  = val <$> List.find (fun a => String.eqb (key a) k) (rev l).
Proof.
  induction l as [|a l IH] using rev_ind; [reflexivity|].
  rewrite fold_left_app, rev_app_distr. simpl.
  destruct (String.eqb_spec (key a) k) as [->|Hne].
  - now rewrite lookup_insert_eq.
  - rewrite lookup_insert_ne by assumption. exact IH.
Qed.

Lemma find_rev_none (l : list A) (k : string) :
  List.find (fun a => String.eqb (key a) k) (rev l) = None <->
  Forall (fun a => key a <> k) l.
Proof.
  rewrite Forall_forall. split.
  - intros H a Ha E. apply list_elem_of_In, in_rev in Ha.
    apply (find_none _ _ H) in Ha. apply String.eqb_neq in Ha. contradiction.
  - intros H. destruct (List.find _ _) as [a|] eqn:E; [|reflexivity].
    apply find_some in E as [Hin E]. apply String.eqb_eq in E.
    apply in_rev, list_elem_of_In in Hin. now destruct (H a Hin).
Qed.

End Comprehension.

Section CapacityLookup.

Local Open Scope string_scope.

(** X1: the capacity string an aggregation uses for a node name is read
    from the last node of that name in the node listing; it is "0" when no
    node has the name or when that node's capacity lacks the key. *)
Theorem capacity_of_last_listed_node (nodes : list Node) (name key : string) :
  capacity_str (node_capacities nodes) name key =
  match List.find (fun n => String.eqb (node_name n) name) (rev nodes) with
  | Some node => default "0" (status_capacity node !! key)
  | None => "0"
  end.
Proof.
  unfold capacity_str, node_capacities.
  rewrite (comprehension_lookup node_name status_capacity).
  destruct (List.find _ _); reflexivity.
Qed.


End CapacityLookup.

(** ** get_pod_metrics *)

Lemma to_mi_simple (x : pyval) :
  simple x -> exists g, Pods.to_mi x = Ok (PyFloat g).
Proof.
  destruct x as [z|f]; simpl; intros H.
  - subst. eexists. reflexivity.
  - eexists. unfold Pods.to_mi. now apply truediv_float_int.
Qed.

Lemma container_step_total (st : Pods.state) (c : ContainerMetrics) (cpu mem : pyval) :
  simple (Pods.total_cpu st) -> simple (Pods.total_mem st) ->
  parse_quantity (Some (container_cpu c)) = Ok cpu ->
  parse_quantity (Some (container_memory c)) = Ok mem ->
  exists st', Pods.container_step st c = Ok st' /\
              simple (Pods.total_cpu st') /\ simple (Pods.total_mem st').
Proof.
  intros Htc Htm Hc Hm.
  pose proof (parse_quantity_simple _ _ Hc) as Hsc.
  pose proof (parse_quantity_simple _ _ Hm) as Hsm.
  destruct (add_simple _ _ Htc Hsc) as (tc & Ec & Hstc).
  destruct (add_simple _ _ Htm Hsm) as (tm & Em & Hstm).
  destruct (to_mi_simple _ Hsm) as [mi Emi].
  unfold Pods.container_step. rewrite Hc, Hm. cbn [bind]. rewrite Ec, Em. cbn [bind].
  rewrite Emi. cbn [bind]. eexists. split; [reflexivity|]. now split.
Qed.

Lemma container_step_raise (st : Pods.state) (c : ContainerMetrics) (e : exn) :
  simple (Pods.total_cpu st) -> simple (Pods.total_mem st) ->
  Pods.container_step st c = Raise e ->
  e = ValueError /\ ~ container_parses c.
Proof.
  intros Htc Htm H. unfold container_parses.
  destruct (parse_quantity (Some (container_cpu c))) as [cpu|e1] eqn:Hc.
  - destruct (parse_quantity (Some (container_memory c))) as [mem|e2] eqn:Hm.
    + destruct (container_step_total st c cpu mem Htc Htm Hc Hm) as (st' & E & _).
      congruence.
    + pose proof (parse_quantity_raises _ _ Hm) as ->.
      unfold Pods.container_step in H. rewrite Hc, Hm in H. cbn [bind] in H.
      injection H as <-. split; [reflexivity|]. intros [_ [v Hv]]. discriminate.
  - pose proof (parse_quantity_raises _ _ Hc) as ->.
    unfold Pods.container_step in H. rewrite Hc in H. cbn [bind] in H.
    injection H as <-. split; [reflexivity|]. intros [[v Hv] _]. discriminate.
Qed.

Lemma container_step_parses (st st' : Pods.state) (c : ContainerMetrics) :
  Pods.container_step st c = Ok st' -> container_parses c.
Proof.
  intros H. apply container_step_ok in H as (cpu & mem & _ & Hc & Hm & _).
  split; eauto.
Qed.

(** The container loop on reachable totals: it returns exactly when every
    container parses, and otherwise raises ValueError. *)
Lemma container_loop_outcome (cs : list ContainerMetrics) (st : Pods.state) :
  simple (Pods.total_cpu st) -> simple (Pods.total_mem st) ->
  (Forall container_parses cs /\
   exists st', for_each Pods.container_step cs st = Ok st' /\
               simple (Pods.total_cpu st') /\ simple (Pods.total_mem st')) \/
  (~ Forall container_parses cs /\
   for_each Pods.container_step cs st = Raise ValueError).
Proof.
  revert st. induction cs as [|c cs IH]; intros st Htc Htm; simpl.
  - left. split; [constructor | eauto].
  - destruct (Pods.container_step st c) as [st1|e] eqn:Hstep; cbn [bind].
    + pose proof (container_step_parses _ _ _ Hstep) as Hp.
      destruct Hp as [[cpu Hc] [mem Hm]].
      destruct (container_step_total st c cpu mem Htc Htm Hc Hm) as (st2 & E & H1 & H2).
      assert (st2 = st1) as -> by congruence.
      destruct (IH st1 H1 H2) as [[Hall Hok]|[Hnot Herr]].
      * left. split; [|exact Hok]. constructor; [split; eauto | exact Hall].
      * right. split; [|exact Herr]. intros H. apply Hnot.
        now apply Forall_cons in H as [_ H].
    + destruct (container_step_raise st c e Htc Htm Hstep) as [-> Hnot].
      right. split; [|reflexivity]. intros H. apply Hnot.
      now apply Forall_cons in H as [H _].
Qed.

Lemma container_loop_length (cs : list ContainerMetrics) (s s' : Pods.state) :
  for_each Pods.container_step cs s = Ok s' ->
  length (Pods.containers_metrics s')
  = (length (Pods.containers_metrics s) + length cs)%nat.
Proof.
  revert s. induction cs as [|c cs IH]; intros s H; simpl in H.
  - injection H as <-. simpl. lia.
  - apply bind_ok in H as (s1 & Hs1 & H). apply IH in H.
    apply container_step_ok in Hs1 as (? & ? & ? & _ & _ & _ & _ & _ & Hd').
    rewrite H, Hd', length_app. simpl. lia.
Qed.

Lemma pod_step_outcome (acc : list Pods.pod_detail) (item : PodMetrics) :
  (pod_parses item /\ exists d, Pods.pod_step acc item = Ok (acc ++ [d]) /\
                                Pods.pod d = pod_name item /\
                                Pods.namespace d = pod_namespace item /\
                                map Pods.name (Pods.containers d)
                                  = map container_name (pod_containers item)) \/
  (~ pod_parses item /\ Pods.pod_step acc item = Raise ValueError).
Proof.
  unfold Pods.pod_step, pod_parses.
  destruct (container_loop_outcome (pod_containers item) Pods.init)
    as [[Hall (st & Hst & H1 & H2)]|[Hnot Herr]]; try reflexivity.
  - left. split; [exact Hall|]. rewrite Hst. cbn [bind].
    destruct (to_mi_simple _ H2) as [mi Hmi]. rewrite Hmi. cbn [bind].
    eexists. split; [reflexivity|]. simpl. repeat split.
    pose proof (container_loop_ok _ _ _ Hst)
      as (cpus & mems & ds & Hcs & Hms & _ & _ & Hds & Hrec).
    simpl in Hds. subst ds.
    apply list_eq. intros i. rewrite !list_lookup_fmap.
    destruct (pod_containers item !! i) as [c|] eqn:Hi; simpl.
    + destruct (parse_all_lookup _ _ i _ Hcs (lookup_map container_cpu _ i c Hi))
        as (cpu & Hc1 & _).
      destruct (parse_all_lookup _ _ i _ Hms (lookup_map container_memory _ i c Hi))
        as (mem & Hm1 & _).
      destruct (Hrec i c cpu mem Hi Hc1 Hm1) as (mi' & _ & ->). reflexivity.
    + destruct (Pods.containers_metrics st !! i) as [d|] eqn:Hd; [|reflexivity].
      exfalso.
      pose proof (container_loop_length _ _ _ Hst) as Hlen. simpl in Hlen.
      apply lookup_lt_Some in Hd. apply lookup_ge_None in Hi. lia.
  - right. split; [exact Hnot|]. now rewrite Herr.
Qed.

Lemma pod_loop_outcome (items : list PodMetrics) (acc : list Pods.pod_detail) :
  (Forall pod_parses items /\
   exists ds, for_each Pods.pod_step items acc = Ok (acc ++ ds) /\
              Forall2 (fun item d =>
                         Pods.pod d = pod_name item /\
                         Pods.namespace d = pod_namespace item /\
                         map Pods.name (Pods.containers d)
                           = map container_name (pod_containers item)) items ds) \/
  (~ Forall pod_parses items /\ for_each Pods.pod_step items acc = Raise ValueError).
Proof.
  revert acc. induction items as [|item items IH]; intros acc; simpl.
  - left. split; [constructor|]. exists []. rewrite app_nil_r. split; [reflexivity|constructor].
  - destruct (pod_step_outcome acc item) as [[Hp (d & -> & Hd)]|[Hnot ->]]; cbn [bind].
    + destruct (IH (acc ++ [d])) as [[Hall (ds & -> & Hds)]|[Hnot ->]].
      * left. split; [now constructor|]. exists (d :: ds).
        rewrite <- app_assoc. split; [reflexivity | now constructor].
      * right. split; [|reflexivity]. intros H. apply Hnot.
        now apply Forall_cons in H as [_ H].
    + right. split; [|reflexivity]. intros H. apply Hnot.
      now apply Forall_cons in H as [H _].
Qed.

(** X3: the pod listing of [get_pod_metrics] has one record per pod of the
    metrics listing, in its order and with its name and namespace, and each
    record lists the pod's containers in their order. *)
Theorem pod_metrics_follow_the_listing (items : list PodMetrics)
    (pods : list Pods.pod_detail) :
  Pods.get_pod_metrics items = Ok pods ->
  length pods = length items /\
  map Pods.pod pods = map pod_name items /\
  map Pods.namespace pods = map pod_namespace items /\
  map (fun d => map Pods.name (Pods.containers d)) pods
    = map (fun item => map container_name (pod_containers item)) items.
Proof.
  unfold Pods.get_pod_metrics. intros H.
  destruct (pod_loop_outcome items []) as [[_ (ds & E & Hds)]|[_ E]]; [|congruence].
  rewrite E in H. injection H as <-. simpl. clear E.
  induction Hds as [|item d items ds (H1 & H2 & H3) _ IH]; simpl.
  - auto.
  - destruct IH as (I0 & I1 & I2 & I3). rewrite H1, H2, H3, I0, I1, I2, I3. auto.
Qed.

(** X4: [get_pod_metrics] returns a listing exactly when the cpu and memory
    strings of every container of every pod parse; otherwise the whole call
    raises ValueError, whichever pod the string belongs to. *)
Theorem pod_metrics_all_or_nothing (items : list PodMetrics) :
  ((exists pods, Pods.get_pod_metrics items = Ok pods) <-> Forall pod_parses items) /\
  (forall e, Pods.get_pod_metrics items = Raise e -> e = ValueError).
Proof.
  unfold Pods.get_pod_metrics.
  destruct (pod_loop_outcome items []) as [[Hall (ds & E & _)]|[Hnot E]]; rewrite E.
  - split; [split; eauto | discriminate].
  - split; [split; [intros [p Hp]; discriminate | contradiction] | congruence].
Qed.

Lemma pod_step_extends (acc acc' : list Pods.pod_detail) (item : PodMetrics) :
  Pods.pod_step acc item = Ok acc' -> exists d, acc' = acc ++ [d].
Proof.
  intros H. apply pod_step_ok in H as (? & ? & ? & ? & ? & d & _ & _ & _ & _ & _ & -> & _).
  eauto.
Qed.

Lemma pod_loop_extends (items : list PodMetrics) (acc acc' : list Pods.pod_detail) :
  for_each Pods.pod_step items acc = Ok acc' -> exists ds, acc' = acc ++ ds.
Proof.
  revert acc. induction items as [|item items IH]; intros acc H; simpl in H.
  - injection H as <-. exists []. now rewrite app_nil_r.
  - apply bind_ok in H as (acc1 & H1 & H). apply pod_step_extends in H1 as [d ->].
    apply IH in H as [ds ->]. exists (d :: ds). now rewrite <- app_assoc.
Qed.

(** The record of the [i]-th pod is the one its own iteration appended. *)
Lemma pod_loop_lookup (items : list PodMetrics) (acc acc' : list Pods.pod_detail)
    (i : nat) (item : PodMetrics) :
  for_each Pods.pod_step items acc = Ok acc' -> items !! i = Some item ->
  exists before d, Pods.pod_step before item = Ok (before ++ [d]) /\
                   acc' !! (length acc + i)%nat = Some d.
Proof.
  revert acc i. induction items as [|item0 items IH]; intros acc i H Hi; [discriminate|].
  simpl in H. apply bind_ok in H as (acc1 & H1 & H).
  destruct (pod_step_extends _ _ _ H1) as [d ->].
  destruct i as [|i]; simpl in Hi.
  - injection Hi as <-. exists acc, d. split; [exact H1|].
    apply pod_loop_extends in H as [ds ->].
    rewrite <- app_assoc, Nat.add_0_r. simpl.
    now rewrite lookup_app_r, Nat.sub_diag by lia.
  - destruct (IH _ i H Hi) as (before & d' & Hstep & Hd').
    exists before, d'. split; [exact Hstep|].
    rewrite length_app in Hd'. simpl in Hd'.
    now replace (length acc + S i)%nat with (length acc + 1 + i)%nat by lia.
Qed.

(** X5: for every pod, the totals of [get_pod_metrics] are accumulated from
    the unrounded parsed values of its containers, left to right from 0, and
    memory is reported in MiB: [total_cpu_cores] is the sum rounded to 3
    decimals, [total_memory_mi] the sum divided by 1024^2 and rounded to 2,
    and each container shows its own cpu rounded to 3 decimals and its
    memory in MiB rounded to 2. *)
Theorem pod_totals_accumulate_unrounded (items : list PodMetrics)
    (pods : list Pods.pod_detail) (i : nat) (item : PodMetrics) :
  Pods.get_pod_metrics items = Ok pods -> items !! i = Some item ->
  exists d cpus mems total_cpu total_mem mi,
    pods !! i = Some d /\
    parse_all (map container_cpu (pod_containers item)) = Ok cpus /\
    parse_all (map container_memory (pod_containers item)) = Ok mems /\
    sum_from (PyInt 0) cpus = Ok total_cpu /\
    sum_from (PyInt 0) mems = Ok total_mem /\
    Py.truediv total_mem (PyInt (1024 ^ 2)) = Ok mi /\
    Pods.total_cpu_cores d = Py.round total_cpu 3 /\
    Pods.total_memory_mi d = Py.round mi 2 /\
    (forall j c cpu mem,
        pod_containers item !! j = Some c -> cpus !! j = Some cpu ->
        mems !! j = Some mem ->
        exists cmi, Py.truediv mem (PyInt (1024 ^ 2)) = Ok cmi /\
                    Pods.containers d !! j =
                      Some {| Pods.name := container_name c;
                              Pods.cpu_cores := Py.round cpu 3;
                              Pods.memory_mi := Py.round cmi 2 |}).
Proof.
  unfold Pods.get_pod_metrics. intros H Hi.
  destruct (pod_loop_lookup items [] pods i item H Hi) as (before & d & Hstep & Hd).
  simpl in Hd.
  apply pod_step_ok in Hstep
    as (cpus & mems & tc & tm & mi & d' & Hcs & Hms & Hsc & Hsm & Hmi & Heq & Htc & Htm & Hrec).
  apply app_inj_tail in Heq as [_ <-].
  exists d, cpus, mems, tc, tm, mi. repeat (split; [assumption|]). exact Hrec.
Qed.

(** ** get_node_metrics *)

Lemma node_info_lookup (nodes : list V1Node) (k : string) :
  NodeTool.node_info nodes !! k
  = List.find (fun n => String.eqb (v1_name n) k) (rev nodes).
Proof.
  pose proof (comprehension_lookup v1_name (fun n : V1Node => n) nodes k) as H.
  unfold NodeTool.node_info. cbv beta in H. rewrite H.
  now destruct (List.find _ _).
Qed.

Lemma listed_false (nodes : list V1Node) (item : NodeMetrics) :
  NodeTool.node_info nodes !! metadata_name item = None <-> listed nodes item = false.
Proof.
  rewrite node_info_lookup, find_rev_none. unfold listed.
  induction nodes as [|n nodes IH]; simpl.
  - split; [reflexivity | constructor].
  - rewrite Forall_cons, orb_false_iff, IH, String.eqb_neq. reflexivity.
Qed.

Lemma listed_true (nodes : list V1Node) (item : NodeMetrics) :
  listed nodes item = true <->
  exists node, NodeTool.node_info nodes !! metadata_name item = Some node.
Proof.
  destruct (NodeTool.node_info nodes !! metadata_name item) as [node|] eqn:E.
  - split; [eauto|]. intros _. destruct (listed nodes item) eqn:L; [reflexivity|].
    apply listed_false in L. congruence.
  - apply listed_false in E. rewrite E. split; [discriminate | now intros [? ?]].
Qed.

Section NodeLoop.

Variable max_str_digits : nat.
Variable nodes : list V1Node.

Lemma node_step_skip (acc : list NodeTool.node_record) (item : NodeMetrics) :
  listed nodes item = false ->
  NodeTool.step max_str_digits (NodeTool.node_info nodes) acc item = Ok acc.
Proof.
  intros H. apply listed_false in H. unfold NodeTool.step. 
  now rewrite H.
Qed.

Lemma node_step_ok (acc acc' : list NodeTool.node_record) (item : NodeMetrics)
    (node : V1Node) :
  NodeTool.node_info nodes !! metadata_name item = Some node ->
  NodeTool.step max_str_digits (NodeTool.node_info nodes) acc item = Ok acc' ->
  exists d, node_row max_str_digits node item d /\ acc' = (acc ++ [d])%list.
Proof.
  intros Hn H. unfold NodeTool.step in H. rewrite Hn in H.
  apply bind_ok in H as (cpu_usage & H1 & H).
  apply bind_ok in H as (cpu_capacity & H2 & H).
  apply bind_ok in H as (mem_usage & H3 & H).
  apply bind_ok in H as (mem_capacity & H4 & H).
  apply bind_ok in H as (cu & H5 & H).
  apply bind_ok in H as (ug & H6 & H).
  apply bind_ok in H as (cg & H7 & H).
  apply bind_ok in H as (mu & H8 & H).
  apply bind_ok in H as (current & H9 & H).
  apply bind_ok in H as (capacity & H10 & H).
  injection H as <-. eexists. split; [|reflexivity].
  exists cpu_usage, cpu_capacity, mem_usage, mem_capacity, cu, ug, cg, mu, current, capacity.
  repeat (split; [assumption|]). reflexivity.
Qed.

Lemma node_step_total (acc : list NodeTool.node_record) (item : NodeMetrics)
    (node : V1Node) :
  NodeTool.node_info nodes !! metadata_name item = Some node ->
  node_item_parses max_str_digits node item ->
  exists d, NodeTool.step max_str_digits (NodeTool.node_info nodes) acc item = Ok (acc ++ [d])%list.
Proof.
  intros Hn ([cu H1] & [cc H2] & [mu H3] & [mc H4] & [p1 H5] & [p2 H6]).
  pose proof (parse_quantity_simple _ _ H1) as S1.
  pose proof (parse_quantity_simple _ _ H2) as S2.
  pose proof (parse_quantity_simple _ _ H3) as S3.
  pose proof (parse_quantity_simple _ _ H4) as S4.
  destruct (utilization_simple _ _ S1 S2) as (u1 & E1 & _).
  destruct (utilization_simple _ _ S3 S4) as (u2 & E2 & _).
  destruct (to_gi_simple _ S3) as [ug Eug].
  destruct (to_gi_simple _ S4) as [cg Ecg].
  unfold NodeTool.step. rewrite Hn, H1. cbn [bind]. rewrite H2. cbn [bind].
  rewrite H3. cbn [bind]. rewrite H4. cbn [bind]. rewrite E1. cbn [bind].
  rewrite Eug. cbn [bind]. rewrite Ecg. cbn [bind]. rewrite E2. cbn [bind].
  rewrite H5. cbn [bind]. rewrite H6. cbn [bind]. eexists. reflexivity.
Qed.

Lemma pods_of_raises (d : gmap string string) (e : exn) :
  NodeTool.pods_of max_str_digits d = Raise e -> e = ValueError.
Proof.
  unfold NodeTool.pods_of, PyInt.int.
  destruct (d !! "pods"%string); [|discriminate].
  destruct (PyInt.of_chars _ _); [discriminate | now intros [= <-]].
Qed.

Lemma node_step_raise (acc : list NodeTool.node_record) (item : NodeMetrics) (e : exn) :
  NodeTool.step max_str_digits (NodeTool.node_info nodes) acc item = Raise e ->
  e = ValueError /\
  exists node, NodeTool.node_info nodes !! metadata_name item = Some node /\
               ~ node_item_parses max_str_digits node item.
Proof.
  intros H. destruct (NodeTool.node_info nodes !! metadata_name item) as [node|] eqn:Hn.
  2:{ unfold NodeTool.step in H. rewrite Hn in H. discriminate. }
  assert (~ node_item_parses max_str_digits node item) as Hnot.
  { intros Hp. destruct (node_step_total acc item node Hn Hp) as [d E]. congruence. }
  split; [|eauto].
  unfold NodeTool.step in H. rewrite Hn in H.
  destruct (parse_quantity (Some (usage_cpu item))) as [cu|e1] eqn:H1; cbn [bind] in H;
    [|injection H as <-; exact (parse_quantity_raises _ _ H1)].
  destruct (parse_quantity (Some (default "0"%string (v1_capacity node !! "cpu"%string))))
    as [cc|e2] eqn:H2; cbn [bind] in H;
    [|injection H as <-; exact (parse_quantity_raises _ _ H2)].
  destruct (parse_quantity (Some (usage_memory item))) as [mu|e3] eqn:H3; cbn [bind] in H;
    [|injection H as <-; exact (parse_quantity_raises _ _ H3)].
  destruct (parse_quantity (Some (default "0"%string (v1_capacity node !! "memory"%string))))
    as [mc|e4] eqn:H4; cbn [bind] in H;
    [|injection H as <-; exact (parse_quantity_raises _ _ H4)].
  pose proof (parse_quantity_simple _ _ H1) as S1.
  pose proof (parse_quantity_simple _ _ H2) as S2.
  pose proof (parse_quantity_simple _ _ H3) as S3.
  pose proof (parse_quantity_simple _ _ H4) as S4.
  destruct (utilization_simple _ _ S1 S2) as (u1 & E1 & _).
  destruct (utilization_simple _ _ S3 S4) as (u2 & E2 & _).
  destruct (to_gi_simple _ S3) as [ug Eug].
  destruct (to_gi_simple _ S4) as [cg Ecg].
  rewrite E1 in H. cbn [bind] in H. rewrite Eug in H. cbn [bind] in H.
  rewrite Ecg in H. cbn [bind] in H. rewrite E2 in H. cbn [bind] in H.
  destruct (NodeTool.pods_of max_str_digits (v1_allocatable node)) as [p1|e5] eqn:H5;
    cbn [bind] in H; [|injection H as <-; exact (pods_of_raises _ _ H5)].
  destruct (NodeTool.pods_of max_str_digits (v1_capacity node)) as [p2|e6] eqn:H6;
    cbn [bind] in H; [discriminate | injection H as <-; exact (pods_of_raises _ _ H6)].
Qed.

(** One iteration of the loop: skipped, appended, or ValueError. *)
Lemma node_step_outcome (acc : list NodeTool.node_record) (item : NodeMetrics) :
  (listed nodes item = false /\
   NodeTool.step max_str_digits (NodeTool.node_info nodes) acc item = Ok acc) \/
  (exists node d, listed nodes item = true /\
                  NodeTool.node_info nodes !! metadata_name item = Some node /\
                  node_row max_str_digits node item d /\
                  NodeTool.step max_str_digits (NodeTool.node_info nodes) acc item = Ok (acc ++ [d])%list) \/
  (~ node_parses max_str_digits nodes item /\
   NodeTool.step max_str_digits (NodeTool.node_info nodes) acc item = Raise ValueError).
Proof.
  destruct (listed nodes item) eqn:L.
  - right. pose proof L as L'. apply listed_true in L' as [node Hn].
    destruct (NodeTool.step max_str_digits (NodeTool.node_info nodes) acc item) as [acc'|e] eqn:E.
    + left. destruct (node_step_ok _ _ _ _ Hn E) as (d & Hd & ->). eauto 8.
    + right. destruct (node_step_raise _ _ _ E) as (-> & node' & Hn' & Hnot).
      split; [|reflexivity]. intros Hp. apply Hnot, Hp. exact Hn'.
  - left. split; [reflexivity|]. now apply node_step_skip.
Qed.

(** The whole loop. *)
Lemma node_loop_outcome (items : list NodeMetrics) (acc : list NodeTool.node_record) :
  (Forall (node_parses max_str_digits nodes) items /\
   exists ds, for_each (NodeTool.step max_str_digits (NodeTool.node_info nodes)) items acc = Ok (acc ++ ds)%list /\
              Forall2 (fun item d =>
                         exists node, NodeTool.node_info nodes !! metadata_name item = Some node /\
                                      node_row max_str_digits node item d)
                      (List.filter (listed nodes) items) ds) \/
  (~ Forall (node_parses max_str_digits nodes) items /\
   for_each (NodeTool.step max_str_digits (NodeTool.node_info nodes)) items acc = Raise ValueError).
Proof.
  revert acc. induction items as [|item items IH]; intros acc; simpl.
  - left. split; [constructor|]. exists []. rewrite app_nil_r.
    split; [reflexivity | constructor].
  - destruct (node_step_outcome acc item)
      as [[L ->]|[(node & d & L & Hn & Hd & ->)|[Hnot ->]]]; cbn [bind]; rewrite ?L.
    + destruct (IH acc) as [[Hall (ds & -> & Hds)]|[Hnot ->]].
      * left. split; [|eauto]. constructor; [|exact Hall].
        intros node Hn. apply listed_false in L. congruence.
      * right. split; [|reflexivity]. intros H. apply Hnot.
        now apply Forall_cons in H as [_ H].
    + destruct (IH (acc ++ [d])%list) as [[Hall (ds & -> & Hds)]|[Hnot ->]].
      * left. split.
        -- constructor; [|exact Hall]. intros node' Hn'.
           rewrite Hn in Hn'. injection Hn' as <-.
           destruct Hd as (? & ? & ? & ? & ? & ? & ? & ? & ? & ? &
                           H1 & H2 & H3 & H4 & _ & _ & _ & _ & H9 & H10 & _).
           repeat split; eauto.
        -- exists (d :: ds). rewrite <- app_assoc. split; [reflexivity|].
           constructor; [eauto | exact Hds].
      * right. split; [|reflexivity]. intros H. apply Hnot.
        now apply Forall_cons in H as [_ H].
    + right. split; [|reflexivity]. intros H. apply Hnot.
      now apply Forall_cons in H as [H _].
Qed.

End NodeLoop.

(** X6: [get_node_metrics] ignores every metrics item whose name is not in
    the node listing: the call returns, or raises, exactly as on the listing
    without those items, so that a malformed quantity of an unlisted node
    does not fail the tool. *)
Theorem node_metrics_ignore_unlisted_items (max_str_digits : nat)
    (nodes_data : list NodeMetrics) (nodes : list V1Node) :
  NodeTool.get_node_metrics max_str_digits nodes_data nodes
  = NodeTool.get_node_metrics max_str_digits (List.filter (listed nodes) nodes_data) nodes.
Proof.
  unfold NodeTool.get_node_metrics. generalize (@nil NodeTool.node_record).
  induction nodes_data as [|item items IH]; intros acc; [reflexivity|].
  simpl. destruct (listed nodes item) eqn:L; simpl.
  - destruct (NodeTool.step _ _ acc item); cbn [bind]; [apply IH | reflexivity].
  - rewrite node_step_skip by exact L. cbn [bind]. apply IH.
Qed.



Lemma find_map {A B : Type} (f : A -> B) (p : B -> bool) (l : list A) :
  List.find p (map f l) = f <$> List.find (fun a => p (f a)) l.
Proof.
  induction l as [|a l IH]; [reflexivity|]. simpl.
  destruct (p (f a)); [reflexivity | exact IH].
Qed.

(** The capacity string the cluster aggregations use for a listed node is
    the one [get_node_metrics] uses. *)
Lemma capacity_as_node (nodes : list V1Node) (k key : string) (node : V1Node) :
  NodeTool.node_info nodes !! k = Some node ->
  capacity_str (node_capacities (map as_node nodes)) k key
  = default "0"%string (v1_capacity node !! key).
Proof.
  intros H. rewrite node_info_lookup in H.
  unfold capacity_str, node_capacities.
  rewrite (comprehension_lookup node_name status_capacity).
  rewrite <- map_rev, find_map. simpl. rewrite H. reflexivity.
Qed.

Lemma filter_all {A : Type} (p : A -> bool) (l : list A) :
  forallb p l = true -> List.filter p l = l.
Proof.
  induction l as [|a l IH]; [reflexivity|]. simpl.
  intros H. apply andb_prop in H as [-> H]. now rewrite IH.
Qed.

(** X9: on a metrics listing whose items all name listed nodes, whenever
    [get_node_metrics] returns, [get_cluster_cpu] and [get_cluster_memory]
    return as well on the same listings, and the three tools report the
    same per-node figures (usage, capacity, utilization), node by node. *)
Theorem node_metrics_agree_with_cluster_tools (max_str_digits : nat)
    (nodes_data : list NodeMetrics) (nodes : list V1Node)
    (records : list NodeTool.node_record) :
  NodeTool.get_node_metrics max_str_digits nodes_data nodes = Ok records ->
  forallb (listed nodes) nodes_data = true ->
  exists cpu mem,
    Cpu.get_cluster_cpu nodes_data (map as_node nodes) = Ok cpu /\
    Memory.get_cluster_memory nodes_data (map as_node nodes) = Ok mem /\
    map NodeTool.name records = map Cpu.node (Cpu.nodes cpu) /\
    map NodeTool.cpu_usage_cores records = map Cpu.usage_cores (Cpu.nodes cpu) /\
    map NodeTool.cpu_capacity_cores records = map Cpu.capacity_cores (Cpu.nodes cpu) /\
    map NodeTool.cpu_utilization_percent records
      = map Cpu.utilization_percent (Cpu.nodes cpu) /\
    map NodeTool.name records = map Memory.node (Memory.nodes mem) /\
    map NodeTool.memory_usage_gi records = map Memory.usage_gi (Memory.nodes mem) /\
    map NodeTool.memory_capacity_gi records = map Memory.capacity_gi (Memory.nodes mem) /\
    map NodeTool.memory_utilization_percent records
      = map Memory.utilization_percent (Memory.nodes mem).
Proof.
  unfold NodeTool.get_node_metrics. intros H Hall.
  destruct (node_loop_outcome max_str_digits nodes nodes_data [])
    as [[_ (ds & E & Hds)]|[_ E]]; [|congruence].
  rewrite E in H. injection H as <-. simpl. clear E.
  rewrite (filter_all _ _ Hall) in Hds.
  assert (exists cpu, Cpu.get_cluster_cpu nodes_data (map as_node nodes) = Ok cpu)
    as [cpu Hcpu].
  { apply get_cluster_cpu_total; unfold cpu_usages, cpu_capacities;
      apply Forall_forall; intros q Hq; apply list_elem_of_In, in_map_iff in Hq
        as (item & <- & Hin); apply list_elem_of_In, list_elem_of_lookup in Hin as [i Hi];
      destruct (Forall2_lookup_l _ _ _ _ _ Hds Hi) as (d & _ & node & Hn & Hrow);
      destruct Hrow as (? & ? & ? & ? & ? & ? & ? & ? & ? & ? &
                        H1 & H2 & H3 & H4 & _).
    - eauto.
    - rewrite (capacity_as_node _ _ _ _ Hn). eauto. }
  assert (exists mem, Memory.get_cluster_memory nodes_data (map as_node nodes) = Ok mem)
    as [mem Hmem].
  { apply get_cluster_memory_total; unfold memory_usages, memory_capacities;
      apply Forall_forall; intros q Hq; apply list_elem_of_In, in_map_iff in Hq
        as (item & <- & Hin); apply list_elem_of_In, list_elem_of_lookup in Hin as [i Hi];
      destruct (Forall2_lookup_l _ _ _ _ _ Hds Hi) as (d & _ & node & Hn & Hrow);
      destruct Hrow as (? & ? & ? & ? & ? & ? & ? & ? & ? & ? &
                        H1 & H2 & H3 & H4 & _).
    - eauto.
    - rewrite (capacity_as_node _ _ _ _ Hn). eauto. }
  exists cpu, mem. split; [exact Hcpu|]. split; [exact Hmem|].
  pose proof (Forall2_length _ _ _ Hds) as Hlen.
  assert (length (Cpu.nodes cpu) = length nodes_data) as Hlc.
  { apply get_cluster_cpu_ok in Hcpu
      as (? & ? & ? & ? & ? & _ & _ & _ & _ & _ & _ & Hnames & _).
    apply (f_equal (@length _)) in Hnames. now rewrite !length_map in Hnames. }
  assert (length (Memory.nodes mem) = length nodes_data) as Hlm.
  { apply get_cluster_memory_ok in Hmem
      as (? & ? & ? & ? & ? & ? & ? & _ & _ & _ & _ & _ & _ & _ & _ & Hnames & _).
    apply (f_equal (@length _)) in Hnames. now rewrite !length_map in Hnames. }
  assert (forall i,
             match ds !! i, Cpu.nodes cpu !! i, Memory.nodes mem !! i with
             | Some d, Some c, Some m =>
                 NodeTool.name d = Cpu.node c /\
                 NodeTool.cpu_usage_cores d = Cpu.usage_cores c /\
                 NodeTool.cpu_capacity_cores d = Cpu.capacity_cores c /\
                 NodeTool.cpu_utilization_percent d = Cpu.utilization_percent c /\
                 NodeTool.name d = Memory.node m /\
                 NodeTool.memory_usage_gi d = Memory.usage_gi m /\
                 NodeTool.memory_capacity_gi d = Memory.capacity_gi m /\
                 NodeTool.memory_utilization_percent d = Memory.utilization_percent m
             | None, None, None => True
             | _, _, _ => False
             end) as Hrows.
  { intros i. destruct (nodes_data !! i) as [item|] eqn:Hi.
    - destruct (Forall2_lookup_l _ _ _ _ _ Hds Hi) as (d & -> & node & Hn & Hrow).
      destruct (cpu_row _ _ _ _ _ Hcpu Hi) as (cu & cc & cv & C1 & C2 & C3 & ->).
      destruct (memory_row _ _ _ _ _ Hmem Hi)
        as (mu & mc & mug & mcg & mv & M1 & M2 & M3 & M4 & M5 & ->).
      rewrite (capacity_as_node _ _ "cpu" _ Hn) in C2.
      rewrite (capacity_as_node _ _ "memory" _ Hn) in M2.
      destruct Hrow as (? & ? & ? & ? & ? & ? & ? & ? & ? & ? &
                        H1 & H2 & H3 & H4 & H5 & H6 & H7 & H8 & _ & _ & ->).
      rewrite C1 in H1. injection H1 as <-. rewrite C2 in H2. injection H2 as <-.
      rewrite M1 in H3. injection H3 as <-. rewrite M2 in H4. injection H4 as <-.
      rewrite C3 in H5. injection H5 as <-. rewrite M3 in H6. injection H6 as <-.
      rewrite M4 in H7. injection H7 as <-. rewrite M5 in H8. injection H8 as <-.
      simpl. repeat split.
    - apply lookup_ge_None in Hi.
      rewrite (proj2 (lookup_ge_None ds i)) by lia.
      rewrite (proj2 (lookup_ge_None (Cpu.nodes cpu) i)) by lia.
      rewrite (proj2 (lookup_ge_None (Memory.nodes mem) i)) by lia. exact I. }
  repeat split; apply list_eq; intros i; rewrite !list_lookup_fmap;
    specialize (Hrows i);
    destruct (ds !! i), (Cpu.nodes cpu !! i), (Memory.nodes mem !! i);
    try contradiction; try reflexivity;
    destruct Hrows as (R1 & R2 & R3 & R4 & R5 & R6 & R7 & R8); simpl; congruence.
Qed.

(** ** list_tools and call_tool *)

Section Dispatch.

Local Open Scope string_scope.

(** X10: the tools [list_tools] declares are exactly the names [call_tool]
    handles: with the client initialised a name falls into the "Unknown
    tool" branch exactly when [list_tools] does not declare it, and two
    declared names never share a branch; without the client every name,
    declared or not, gets the "not initialized" reply. *)
Theorem declared_tools_are_the_handled_ones :
  (forall name, dispatch true name = UnknownTool name <-> ~ In name list_tools) /\
  (forall a b, In a list_tools -> In b list_tools ->
               dispatch true a = dispatch true b -> a = b) /\
  (forall name, dispatch false name = NotInitialized).
Proof.
  split; [|split].
  - intros name. unfold dispatch, list_tools. simpl negb. cbv iota.
    repeat match goal with
           | |- context [String.eqb name ?t] =>
               let E := fresh "E" in
               destruct (String.eqb name t) eqn:E; cbv iota;
               [apply String.eqb_eq in E; split;
                [discriminate | intros H; exfalso; apply H; rewrite E; simpl; tauto]|]
           end.
    split; [|reflexivity]. intros _ H. simpl in H.
    repeat match goal with
           | E : String.eqb name _ = false |- _ => apply String.eqb_neq in E
           end.
    repeat (destruct H as [H|H]; [symmetry in H; contradiction|]). exact H.
  - intros a b Ha Hb. simpl in Ha, Hb.
    repeat (destruct Ha as [<-|Ha]); try contradiction;
      repeat (destruct Hb as [<-|Hb]); try contradiction;
      vm_compute; intros H; try reflexivity; discriminate.
  - reflexivity.
Qed.

End Dispatch.

(** ** startup_event: the polling loops *)

Section Polling.

Variable responses : nat -> attempt.

Lemma first_200_from_S (i n : nat) :
  first_200_from responses i (S n)
  = if answered_200 (responses i) then Some i else first_200_from responses (S i) n.
Proof. reflexivity. Qed.

Lemma raised_from_S (i n : nat) :
  raised_from responses i (S n)
  = ((if raised (responses i) then 1 else 0) + raised_from responses (S i) n)%nat.
Proof.
  unfold raised_from. simpl. now destruct (raised (responses i)).
Qed.

Lemma first_200_from_ge (i n k : nat) :
  first_200_from responses i n = Some k ->
  (i <= k < i + n)%nat /\ answered_200 (responses k) = true /\
  forall j, (i <= j < k)%nat -> answered_200 (responses j) = false.
Proof.
  revert i. induction n as [|n IH]; intros i H; [discriminate|].
  rewrite first_200_from_S in H.
  destruct (answered_200 (responses i)) eqn:E.
  - injection H as <-. repeat split; auto; lia.
  - apply IH in H as (Hk & Hok & Hbefore). repeat split; auto; try lia.
    intros j Hj. destruct (Nat.eq_dec j i) as [->|Hne]; [exact E|].
    apply Hbefore. lia.
Qed.

Lemma first_200_from_none (i n : nat) :
  first_200_from responses i n = None ->
  forall j, (i <= j < i + n)%nat -> answered_200 (responses j) = false.
Proof.
  revert i. induction n as [|n IH]; intros i H j Hj; [lia|].
  rewrite first_200_from_S in H.
  destruct (answered_200 (responses i)) eqn:E; [discriminate|].
  destruct (Nat.eq_dec j i) as [->|Hne]; [exact E|]. apply (IH (S i) H). lia.
Qed.

Lemma raised_from_le (i n : nat) : (raised_from responses i n <= n)%nat.
Proof.
  revert i. induction n as [|n IH]; intros i; [reflexivity|].
  rewrite raised_from_S. specialize (IH (S i)).
  destruct (raised (responses i)); lia.
Qed.

(** The loop of [main.py] from iteration [i], in closed form. *)
Lemma main_loop_closed (fuel i sleeps_ : nat) :
  (i + fuel = Startup.max_retries)%nat ->
  Startup.main_loop responses i fuel sleeps_ =
  match first_200_from responses i fuel with
  | Some k => {| outcome := Ready k; requests := S k;
                 sleeps := sleeps_ + raised_from responses i (k - i) |}
  | None =>
      match fuel with
      | O => {| outcome := Exhausted; requests := i; sleeps := sleeps_ |}
      | S _ =>
          {| outcome := if raised (responses (Startup.max_retries - 1))
                        then GaveUp else Exhausted;
             requests := Startup.max_retries;
             sleeps := sleeps_ + raised_from responses i (Startup.max_retries - 1 - i) |}
      end
  end.
Proof.
  unfold Startup.max_retries. change (30 - 1)%nat with 29%nat. revert i sleeps_.
  induction fuel as [|fuel IH]; intros i s Hi; [reflexivity|].
  rewrite first_200_from_S. cbn [Startup.main_loop]. unfold Startup.max_retries.
  change (30 - 1)%nat with 29%nat.
  destruct (responses i) as [|code] eqn:R; cbn [answered_200].
  - destruct (Nat.ltb_spec i 29%nat) as [Hlt|Hge].
    + rewrite IH by lia.
      destruct (first_200_from responses (S i) fuel) as [k|] eqn:F.
      * apply first_200_from_ge in F as (Hk & _).
        replace (k - i)%nat with (S (k - S i)) by lia.
        rewrite raised_from_S, R. cbn [raised]. f_equal. lia.
      * destruct fuel as [|fuel]; [lia|].
        replace (29 - i)%nat with (S (29 - S i)) by lia.
        rewrite raised_from_S, R. cbn [raised]. f_equal. lia.
    + assert (i = 29%nat) as -> by lia. assert (fuel = 0%nat) as -> by lia.
      cbn [first_200_from seq List.find]. rewrite R. cbn [raised].
      replace (29 - 29)%nat with 0%nat by lia.
      unfold raised_from. simpl. f_equal. lia.
  - destruct (Z.eqb_spec code 200) as [->|Hne].
    + rewrite Nat.sub_diag. unfold raised_from. simpl. f_equal. lia.
    + rewrite IH by lia.
      destruct (first_200_from responses (S i) fuel) as [k|] eqn:F.
      * apply first_200_from_ge in F as (Hk & _).
        replace (k - i)%nat with (S (k - S i)) by lia.
        rewrite raised_from_S, R. cbn [raised]. f_equal.
      * destruct fuel as [|fuel].
        -- assert (i = 29%nat) as -> by lia. rewrite R. cbn [raised].
           unfold raised_from. simpl. f_equal. lia.
        -- replace (29 - i)%nat with (S (29 - S i)) by lia.
           rewrite raised_from_S, R. cbn [raised]. f_equal.
Qed.

(** The loop of [unified_server.py] from iteration [i], in closed form. *)
Lemma unified_loop_closed (fuel i sleeps_ : nat) :
  (i + fuel = Startup.max_retries)%nat ->
  Startup.unified_loop responses i fuel sleeps_ =
  match first_200_from responses i fuel with
  | Some k => {| outcome := Ready k; requests := S k;
                 sleeps := sleeps_ + raised_from responses i (k - i) |}
  | None =>
      match fuel with
      | O => {| outcome := Exhausted; requests := i; sleeps := sleeps_ |}
      | S _ =>
          {| outcome := Exhausted;
             requests := Startup.max_retries;
             sleeps := sleeps_ + raised_from responses i (Startup.max_retries - 1 - i) |}
      end
  end.
Proof.
  unfold Startup.max_retries. change (30 - 1)%nat with 29%nat. revert i sleeps_.
  induction fuel as [|fuel IH]; intros i s Hi; [reflexivity|].
  rewrite first_200_from_S. cbn [Startup.unified_loop]. unfold Startup.max_retries.
  change (30 - 1)%nat with 29%nat.
  destruct (responses i) as [|code] eqn:R; cbn [answered_200].
  - destruct (Nat.ltb_spec i 29%nat) as [Hlt|Hge].
    + rewrite IH by lia.
      destruct (first_200_from responses (S i) fuel) as [k|] eqn:F.
      * apply first_200_from_ge in F as (Hk & _).
        replace (k - i)%nat with (S (k - S i)) by lia.
        rewrite raised_from_S, R. cbn [raised]. f_equal. lia.
      * destruct fuel as [|fuel]; [lia|].
        replace (29 - i)%nat with (S (29 - S i)) by lia.
        rewrite raised_from_S, R. cbn [raised]. f_equal. lia.
    + assert (i = 29%nat) as -> by lia. assert (fuel = 0%nat) as -> by lia.
      cbn [first_200_from seq List.find Startup.unified_loop].
      replace (29 - 29)%nat with 0%nat by lia.
      unfold raised_from. simpl. f_equal. lia.
  - destruct (Z.eqb_spec code 200) as [->|Hne].
    + rewrite Nat.sub_diag. unfold raised_from. simpl. f_equal. lia.
    + rewrite IH by lia.
      destruct (first_200_from responses (S i) fuel) as [k|] eqn:F.
      * apply first_200_from_ge in F as (Hk & _).
        replace (k - i)%nat with (S (k - S i)) by lia.
        rewrite raised_from_S, R. cbn [raised]. f_equal.
      * destruct fuel as [|fuel].
        -- assert (i = 29%nat) as -> by lia.
           unfold raised_from. simpl. f_equal. lia.
        -- replace (29 - i)%nat with (S (29 - S i)) by lia.
           rewrite raised_from_S, R. cbn [raised]. f_equal.
Qed.

(** X11: the wait loop of [main.py]'s [startup_event] in closed form.  It
    stops at the first of the 30 attempts answered with status 200; without
    one it makes all 30 attempts and then gives up (the function returns)
    if the last attempt raised, and otherwise falls out of the loop and
    goes on as if the service were ready.  It sleeps once for every attempt
    that raised, the last of the 30 excepted, and never after a response
    with another status. *)
Theorem main_wait_closed_form :
  Startup.main_wait responses =
  match first_200 responses with
  | Some k => {| outcome := Ready k; requests := S k;
                 sleeps := raised_before responses k |}
  | None => {| outcome := if raised (responses 29%nat) then GaveUp else Exhausted;
               requests := 30;
               sleeps := raised_before responses 29 |}
  end.
Proof.
  unfold Startup.main_wait, first_200, raised_before.
  rewrite main_loop_closed by reflexivity.
  destruct (first_200_from responses 0 Startup.max_retries) as [k|];
    [now rewrite Nat.sub_0_r | reflexivity].
Qed.

(** X12: the wait loop of [unified_server.py] sends the same requests and
    sleeps as often as that of [main.py], but never gives up: where
    [main.py] returns from [startup_event], it falls out of the loop. *)
Theorem unified_wait_never_gives_up :
  Startup.unified_wait responses =
  {| outcome := match outcome (Startup.main_wait responses) with
                | GaveUp => Exhausted
                | o => o
                end;
     requests := requests (Startup.main_wait responses);
     sleeps := sleeps (Startup.main_wait responses) |}.
Proof.
  unfold Startup.unified_wait, Startup.main_wait.
  rewrite main_loop_closed, unified_loop_closed by reflexivity.
  destruct (first_200_from responses 0 Startup.max_retries) as [k|]; [reflexivity|].
  simpl. now destruct (raised (responses _)).
Qed.

Lemma answered_200_status (a : attempt) :
  answered_200 a = true <-> a = Status 200.
Proof.
  destruct a as [|code]; simpl; [split; discriminate|].
  rewrite Z.eqb_eq. split; [now intros -> | now intros [= ->]].
Qed.

(** What the closed form of a wait loop gives on its log. *)
Lemma closed_form_bounded (w : wait_log) (o : wait_outcome) :
  (forall k, o <> Ready k) ->
  w = match first_200 responses with
      | Some k => {| outcome := Ready k; requests := S k;
                     sleeps := raised_before responses k |}
      | None => {| outcome := o; requests := 30;
                   sleeps := raised_before responses 29 |}
      end ->
  (requests w <= 30)%nat /\ (sleeps w <= 29)%nat /\ (sleeps w < requests w)%nat /\
  (forall k, outcome w = Ready k <->
             (k < 30)%nat /\ responses k = Status 200 /\
             forall j, (j < k)%nat -> responses j <> Status 200).
Proof.
  intros Ho ->. unfold first_200, raised_before.
  destruct (first_200_from responses 0 Startup.max_retries) as [k0|] eqn:F; simpl.
  - pose proof (first_200_from_ge _ _ _ F) as (Hk & Hok & Hbefore).
    unfold Startup.max_retries in Hk. apply answered_200_status in Hok.
    pose proof (raised_from_le 0 k0) as Hle.
    split; [lia|]. split; [lia|]. split; [lia|]. intros k. split.
    + intros [= <-]. split; [lia|]. split; [exact Hok|].
      intros j Hj E. apply answered_200_status in E.
      rewrite Hbefore in E by lia. discriminate.
    + intros (Hk' & Hr & Hfirst). f_equal.
      destruct (Nat.lt_trichotomy k0 k) as [Hlt|[->|Hgt]]; [|reflexivity|].
      * now destruct (Hfirst k0 Hlt).
      * apply answered_200_status in Hr. rewrite Hbefore in Hr by lia. discriminate.
  - pose proof (raised_from_le 0 29) as Hle.
    split; [lia|]. split; [lia|]. split; [lia|]. intros k. split.
    + intros E. now destruct (Ho k).
    + intros (Hk & Hr & _). exfalso. apply answered_200_status in Hr.
      rewrite (first_200_from_none _ _ F k) in Hr; [discriminate|].
      unfold Startup.max_retries. lia.
Qed.

(** X13: either wait loop sends at most 30 requests and sleeps at most 29
    times (58 seconds), fewer times than it sends requests; it reports the
    service ready at attempt [k] exactly when attempt [k] is the first of
    the 30 answered with status 200. *)
Theorem wait_is_bounded (w : wait_log) :
  w = Startup.main_wait responses \/ w = Startup.unified_wait responses ->
  (requests w <= 30)%nat /\ (sleeps w <= 29)%nat /\ (sleeps w < requests w)%nat /\
  (forall k, outcome w = Ready k <->
             (k < 30)%nat /\ responses k = Status 200 /\
             forall j, (j < k)%nat -> responses j <> Status 200).
Proof.
  intros [->| ->].
  - apply (closed_form_bounded _ (if raised (responses 29%nat) then GaveUp else Exhausted)).
    + intros k. destruct (raised (responses 29%nat)); discriminate.
    + unfold Startup.main_wait, first_200, raised_before.
      rewrite main_loop_closed by reflexivity.
      destruct (first_200_from responses 0 Startup.max_retries) as [k|];
        [now rewrite Nat.sub_0_r | reflexivity].
  - apply (closed_form_bounded _ Exhausted); [discriminate|].
    unfold Startup.unified_wait, first_200, raised_before.
    rewrite unified_loop_closed by reflexivity.
    destruct (first_200_from responses 0 Startup.max_retries) as [k|];
      [now rewrite Nat.sub_0_r | reflexivity].
Qed.

End Polling.

(** ** parse_quantity: the suffixes it does not know *)

Section OtherSuffixes.

Local Open Scope string_scope.

(** X14: the parser knows ten of the suffixes of Kubernetes quantities; a
    string that ends in one of the others (k, u, P, E, Pi, Ei) matches no
    suffix test whatever precedes the suffix, goes to float as a whole and
    raises ValueError. *)
Theorem other_suffixes_raise (r : string) :
  Forall (fun suffix => parse_quantity (Some (r ++ suffix)) = Raise ValueError)
         other_suffixes.
Proof.
  unfold other_suffixes.
  repeat (apply Forall_cons_2; [|]); try apply Forall_nil_2;
    (rewrite parse_quantity_bare;
     [ try rewrite snoc_two;
       apply float_rejects_last; first [reflexivity | discriminate]
     | apply String.eqb_neq, nonempty_app; discriminate
     | unfold known_suffixes, units; cbn [map fst forallb];
       unfold Str.endswith; rewrite !chars_app, !rev_app_distr; reflexivity ]).
Qed.

End OtherSuffixes.

(** ** build_rag_prompt and the stored payload *)

Lemma split_at_char (x : ascii) (l1 l2 r1 r2 : list ascii) :
  Forall (fun c => c <> x) l1 -> Forall (fun c => c <> x) l2 ->
  (l1 ++ x :: r1 = l2 ++ x :: r2)%list -> l1 = l2 /\ r1 = r2.
Proof.
  revert l2. induction l1 as [|a l1 IH]; intros l2 H1 H2 E.
  - destruct l2 as [|b l2]; simpl in E.
    + injection E as <-. auto.
    + injection E as <- _. apply Forall_cons in H2 as [H2 _]. now destruct H2.
  - destruct l2 as [|b l2]; simpl in E.
    + injection E as -> _. apply Forall_cons in H1 as [H1 _]. now destruct H1.
    + injection E as <- E. apply Forall_cons in H1 as [_ H1].
      apply Forall_cons in H2 as [_ H2].
      destruct (IH l2 H1 H2 E) as [-> ->]. auto.
Qed.

Lemma chars_cons (c : ascii) (s : string) : Str.chars (String c s) = c :: Str.chars s.
Proof. reflexivity. Qed.

(** The characters of the prompt: a fixed head, the context, the line
    "User Query:" between two blank lines' worth of line feeds, the query and
    a fixed tail. *)
Lemma build_rag_prompt_chars (query : string) (matches : list (gmap string string)) :
  Str.chars (build_rag_prompt query matches) =
  (Str.chars "Use the context below to answer the user query."
   ++ "010"%char :: "010"%char :: Str.chars "Context:"
   ++ "010"%char :: Str.chars (rag_context matches)
   ++ "010"%char :: "010"%char :: Str.chars "User Query:"
   ++ "010"%char :: Str.chars query
   ++ "010"%char :: "010"%char :: Str.chars "Answer:")%list.
Proof.
  unfold build_rag_prompt.
  repeat first [rewrite chars_app | rewrite chars_cons]. reflexivity.
Qed.

(** X15: for queries of a single line the prompt of [build_rag_prompt]
    determines both the query and the context: two calls that build the same
    prompt had the same query and the same joined context. *)
Theorem prompt_determines_query (query1 query2 : string)
    (matches1 matches2 : list (gmap string string)) :
  single_line query1 -> single_line query2 ->
  build_rag_prompt query1 matches1 = build_rag_prompt query2 matches2 ->
  query1 = query2 /\ rag_context matches1 = rag_context matches2.
Proof.
  unfold single_line. intros H1 H2 E.
  apply (f_equal Str.chars) in E. rewrite !build_rag_prompt_chars in E.
  apply app_inv_head in E. repeat (injection E as E).
  apply (f_equal (@rev ascii)) in E.
  repeat first [rewrite rev_app_distr in E | rewrite <- app_assoc in E
               | progress (cbn [rev Str.chars list_ascii_of_string app] in E)].
  repeat (injection E as E).
  apply split_at_char in E as [Eq Ec].
  - apply (f_equal (@rev ascii)) in Eq. rewrite !rev_involutive in Eq.
    split; [now apply chars_inj|].
    repeat (injection Ec as Ec).
    apply (f_equal (@rev ascii)) in Ec. rewrite !rev_involutive in Ec.
    now apply chars_inj.
  - apply Forall_forall. intros c Hc. apply list_elem_of_In, in_rev in Hc.
    rewrite Forall_forall in H1. now apply H1, list_elem_of_In.
  - apply Forall_forall. intros c Hc. apply list_elem_of_In, in_rev in Hc.
    rewrite Forall_forall in H2. now apply H2, list_elem_of_In.
Qed.

Section Payload.

Local Open Scope string_scope.

(** X16: the payload [ingest] stores holds every metadata entry, and a
    metadata entry "text" replaces the text of the document: the stored
    text, which is what [build_rag_prompt] puts into the context for a
    match with this payload, is the metadata's when it has one. *)
Theorem metadata_text_replaces_document_text (text : string)
    (metadata : gmap string string) :
  point_payload text metadata !! "text" = Some (default text (metadata !! "text")) /\
  (forall k, k <> "text" -> point_payload text metadata !! k = metadata !! k) /\
  (forall k v, metadata !! k = Some v -> point_payload text metadata !! k = Some v) /\
  rag_context [point_payload text metadata] = default text (metadata !! "text").
Proof.
  assert (forall k v, metadata !! k = Some v ->
                      point_payload text metadata !! k = Some v) as Hkeep.
  { intros k v H. unfold point_payload. now apply lookup_union_Some_l. }
  assert (point_payload text metadata !! "text"
          = Some (default text (metadata !! "text"))) as Htext.
  { destruct (metadata !! "text") as [v|] eqn:E; simpl.
    - now apply Hkeep.
    - unfold point_payload. rewrite lookup_union_r by exact E.
      apply lookup_singleton_eq. }
  split; [exact Htext|]. split; [|split; [exact Hkeep|]].
  - intros k Hk. unfold point_payload.
    destruct (metadata !! k) as [v|] eqn:E.
    + now apply lookup_union_Some_l.
    + rewrite lookup_union_r by exact E. now apply lookup_singleton_ne.
  - unfold rag_context. simpl. now rewrite Htext.
Qed.

End Payload.

(** ** The example client *)



Section ClusterQuery.

Local Open Scope string_scope.


End ClusterQuery.

(** X18: the nodes the example client shows as "top 3 nodes" are the first
    three items of the metrics listing, in its order, whatever their
    utilization; there are three of them as soon as the listing has
    three items. *)
Theorem shown_nodes_are_the_first_three (items : list NodeMetrics) (nodes : list Node)
    (r : Cpu.report) :
  Cpu.get_cluster_cpu items nodes = Ok r ->
  map Cpu.node (shown_nodes (Cpu.nodes r)) = map metadata_name (firstn 3 items) /\
  length (shown_nodes (Cpu.nodes r)) = Nat.min 3 (length items).
Proof.
  intros H. apply get_cluster_cpu_ok in H
    as (? & ? & ? & ? & ? & _ & _ & _ & _ & _ & _ & Hnames & _).
  unfold shown_nodes. split.
  - now rewrite <- !firstn_map, Hnames.
  - rewrite length_firstn. apply (f_equal (@length _)) in Hnames.
    rewrite !length_map in Hnames. now rewrite Hnames.
Qed.

(** ** The statements at concrete listings *)

Section Witnesses.

Local Open Scope string_scope.

(** X3 at two pods. *)
Lemma pod_metrics_follow_the_listing_witness :
  exists pods,
    Pods.get_pod_metrics two_pods = Ok pods /\
    map Pods.pod pods = ["p1"; "p2"] /\
    map Pods.namespace pods = ["default"; "kube-system"] /\
    map (fun d => map Pods.name (Pods.containers d)) pods = [["c1"]; ["c1"; "c2"]].
Proof.
  destruct (Pods.get_pod_metrics two_pods) as [pods|e] eqn:E;
    [|vm_compute in E; discriminate].
  destruct (pod_metrics_follow_the_listing two_pods pods E) as (_ & H1 & H2 & H3).
  exists pods. split; [reflexivity|]. split; [exact H1|]. split; [exact H2 | exact H3].
Defined.

(** X5 at the second of two pods: 100m + 0.5 cores, 64Mi + 512Mi. *)
Lemma pod_totals_accumulate_unrounded_witness :
  exists pods d total_cpu total_mem mi,
    Pods.get_pod_metrics two_pods = Ok pods /\
    pods !! 1%nat = Some d /\
    sum_from (PyInt 0)
      [PyFloat (F64.of_decimal false 1 (-1)); PyFloat (F64.of_decimal false 5 (-1))]
      = Ok total_cpu /\
    sum_from (PyInt 0) [PyFloat (F64.of_Z (64 * 1024 ^ 2)); PyFloat (F64.of_Z (512 * 1024 ^ 2))]
      = Ok total_mem /\
    Py.truediv total_mem (PyInt (1024 ^ 2)) = Ok mi /\
    Pods.total_cpu_cores d = Py.round total_cpu 3 /\
    Pods.total_memory_mi d = Py.round mi 2.
Proof.
  destruct (Pods.get_pod_metrics two_pods) as [pods|e] eqn:E;
    [|vm_compute in E; discriminate].
  destruct (pod_totals_accumulate_unrounded two_pods pods 1%nat _ E eq_refl)
    as (d & cpus & mems & tc & tm & mi & Hd & Hcs & Hms & Hsc & Hsm & Hmi & Htc & Htm & _).
  vm_compute in Hcs. injection Hcs as <-.
  vm_compute in Hms. injection Hms as <-.
  exists pods, d, tc, tm, mi.
  split; [reflexivity|]. split; [exact Hd|]. split; [exact Hsc|]. split; [exact Hsm|].
  split; [exact Hmi|]. split; [exact Htc | exact Htm].
Defined.


(** X9 at two listed nodes. *)
Lemma node_metrics_agree_with_cluster_tools_witness :
  exists records cpu mem,
    NodeTool.get_node_metrics default_max_str_digits listed_items listed_nodes
      = Ok records /\
    Cpu.get_cluster_cpu listed_items (map as_node listed_nodes) = Ok cpu /\
    Memory.get_cluster_memory listed_items (map as_node listed_nodes) = Ok mem /\
    map NodeTool.cpu_utilization_percent records
      = map Cpu.utilization_percent (Cpu.nodes cpu) /\
    map NodeTool.memory_usage_gi records = map Memory.usage_gi (Memory.nodes mem).
Proof.
  destruct (NodeTool.get_node_metrics default_max_str_digits listed_items listed_nodes)
    as [records|e] eqn:E; [|vm_compute in E; discriminate].
  destruct (node_metrics_agree_with_cluster_tools _ _ _ records E eq_refl)
    as (cpu & mem & Hc & Hm & _ & _ & _ & Hu & _ & Hg & _).
  exists records, cpu, mem.
  split; [reflexivity|]. split; [exact Hc|]. split; [exact Hm|].
  split; [exact Hu | exact Hg].
Defined.

(** X13 at a service that answers at the fourth attempt. *)
Lemma wait_is_bounded_witness :
  (requests (Startup.main_wait late_service) <= 30)%nat /\
  (sleeps (Startup.main_wait late_service) <= 29)%nat /\
  (requests (Startup.unified_wait late_service) <= 30)%nat /\
  (sleeps (Startup.unified_wait late_service) <= 29)%nat.
Proof.
  destruct (wait_is_bounded late_service _ (or_introl eq_refl)) as (H1 & H2 & _).
  destruct (wait_is_bounded late_service _ (or_intror eq_refl)) as (H3 & H4 & _).
  split; [exact H1|]. split; [exact H2|]. split; [exact H3 | exact H4].
Defined.

(** X15 at two ways of retrieving the lines a and b. *)
Lemma prompt_determines_query_witness :
  rag_context two_matches = rag_context one_match.
Proof.
  apply (prompt_determines_query "what is a pod" "what is a pod" two_matches one_match).
  - unfold single_line. simpl.
    repeat (apply Forall_cons_2; [discriminate|]). apply Forall_nil_2.
  - unfold single_line. simpl.
    repeat (apply Forall_cons_2; [discriminate|]). apply Forall_nil_2.
  - vm_compute. reflexivity.
Defined.

(** X18 at four nodes, the busiest of them last. *)
Lemma shown_nodes_are_the_first_three_witness :
  exists r,
    Cpu.get_cluster_cpu four_items four_nodes = Ok r /\
    map Cpu.node (shown_nodes (Cpu.nodes r)) = ["n1"; "n2"; "n3"] /\
    length (shown_nodes (Cpu.nodes r)) = 3%nat.
Proof.
  destruct (Cpu.get_cluster_cpu four_items four_nodes) as [r|e] eqn:E;
    [|vm_compute in E; discriminate].
  destruct (shown_nodes_are_the_first_three _ _ r E) as [Hn Hl].
  exists r. split; [reflexivity|]. split; [exact Hn | exact Hl].
Defined.

End Witnesses.
